(** * Job-description extraction and the Create-Job form

    A shallow embedding of [analyzeJobDescription] and of the [CreateJob]
    component's handlers ([handleAnalyzeJD], the field [onChange] handlers,
    [handleAddSkill], [handleRemoveSkill], [handleSubmit]), of the
    conditions that enable its buttons, and of the token storage of
    [auth.api.ts] with the request interceptor of [api.ts].

    Modelling conventions.
    - A JavaScript string is a [string]: a sequence of code units, each an
      [ascii], read as the Latin-1 code unit of the same number (0..255).
      Documents with code units above 255 are outside the model.
    - A JavaScript number is a [number]: [NaN] or an exact integer.  The
      integers the code computes come from [parseInt] on digit strings and
      are exact in the source for magnitudes below 2^53.
    - [undefined] is [None]; a thrown [TypeError] is [None] in the result of
      the function that throws.
    - Regular expressions are values of an abstract syntax [regex]; they are
      run by a backtracking matcher that enumerates the successful paths in
      the priority order of ECMA-262, so the head of the enumeration is the
      match the source obtains.
    - The simulated latency ([setTimeout] with [Math.random]) has no effect
      on the returned value and is left out. *)

From Stdlib Require Import Bool Arith ZArith List Ascii String Lia.
From Stdlib Require Import Numbers.DecimalString Numbers.DecimalPos.
Import ListNotations.
Open Scope string_scope.
Open Scope list_scope.

(** ** JavaScript string primitives *)

Module JS.

Definition code (c : ascii) : nat := nat_of_ascii c.

Definition between (lo hi : nat) (c : ascii) : bool :=
  (lo <=? code c)%nat && (code c <=? hi)%nat.

(** WhiteSpace and LineTerminator code units below 256: TAB, LF, VT, FF, CR,
    SP and NBSP.  This is the set of [\s], of [trim] and of the blanks
    [parseInt] skips. *)
Definition isWhiteSpace (c : ascii) : bool :=
  between 9 13 c || (code c =? 32)%nat || (code c =? 160)%nat.

Definition isLineTerminator (c : ascii) : bool :=
  (code c =? 10)%nat || (code c =? 13)%nat.

Definition isDigit (c : ascii) : bool := between 48 57 c.

Definition shift_up (c : ascii) : ascii := ascii_of_nat (code c + 32).
Definition shift_down (c : ascii) : ascii := ascii_of_nat (code c - 32).

(** [toLowerCase] on one code unit: A-Z and the Latin-1 capitals (all of
    192..222 but the multiplication sign 215). *)
Definition lowerChar (c : ascii) : ascii :=
  if between 65 90 c || (between 192 222 c && negb (code c =? 215)%nat)
  then shift_up c else c.

(** [toUpperCase] on one code unit: a-z and the Latin-1 small letters (all
    of 224..254 but the division sign 247).  The three Latin-1 code units
    whose upper case lies outside Latin-1 (181, 223, 255) never reach this
    function: it is applied to vocabulary constants and to text captured by
    classes of ASCII letters, blanks and commas. *)
Definition upperChar (c : ascii) : ascii :=
  if between 97 122 c || (between 224 254 c && negb (code c =? 247)%nat)
  then shift_down c else c.

Fixpoint toLowerCase (s : string) : string :=
  match s with
  | EmptyString => EmptyString
  | String c s' => String (lowerChar c) (toLowerCase s')
  end.

Fixpoint toUpperCase (s : string) : string :=
  match s with
  | EmptyString => EmptyString
  | String c s' => String (upperChar c) (toUpperCase s')
  end.

(** [!s] for a string: it is empty. *)
Definition isEmpty (s : string) : bool :=
  match s with EmptyString => true | _ => false end.

(** [s.startsWith(p)] *)
Fixpoint startsWith (s p : string) : bool :=
  match p, s with
  | EmptyString, _ => true
  | String a p', String b s' => Ascii.eqb a b && startsWith s' p'
  | String _ _, EmptyString => false
  end.

(** [s.includes(sub)] *)
Fixpoint includes (s sub : string) : bool :=
  startsWith s sub ||
  match s with
  | EmptyString => false
  | String _ s' => includes s' sub
  end.

(** [s.trimStart()], [s.trimEnd()], [s.trim()] *)
Fixpoint trimStart (s : string) : string :=
  match s with
  | EmptyString => EmptyString
  | String c s' => if isWhiteSpace c then trimStart s' else s
  end.

Fixpoint trimEnd (s : string) : string :=
  match s with
  | EmptyString => EmptyString
  | String c s' =>
      match trimEnd s' with
      | EmptyString => if isWhiteSpace c then EmptyString else String c EmptyString
      | t => String c t
      end
  end.

Definition trim (s : string) : string := trimEnd (trimStart s).

(** [s.split(sep)] for a separator of one code unit. *)
Fixpoint split (sep : ascii) (s : string) : list string :=
  match s with
  | EmptyString => [EmptyString]
  | String c s' =>
      if Ascii.eqb c sep then EmptyString :: split sep s'
      else match split sep s' with
           | w :: ws => String c w :: ws
           | [] => [String c EmptyString]
           end
  end.

(** [l.join(sep)] *)
Definition join (sep : string) (l : list string) : string := String.concat sep l.

(** [l.includes(x)] on an array of strings. *)
Definition arrayIncludes (l : list string) (x : string) : bool :=
  existsb (String.eqb x) l.

(** [s.replace(/\s+/g, ' ')]: every maximal run of blanks becomes one space. *)
Fixpoint collapseBlanks (s : string) : string :=
  match s with
  | EmptyString => EmptyString
  | String c s' =>
      if isWhiteSpace c then
        match s' with
        | String d _ => if isWhiteSpace d then collapseBlanks s'
                        else String " " (collapseBlanks s')
        | EmptyString => String " " EmptyString
        end
      else String c (collapseBlanks s')
  end.

(** [s.replace(/,/g, '')] *)
Fixpoint removeCommas (s : string) : string :=
  match s with
  | EmptyString => EmptyString
  | String c s' => if Ascii.eqb c "," then removeCommas s' else String c (removeCommas s')
  end.

(** [s.slice(1)] *)
Definition slice1 (s : string) : string :=
  match s with
  | EmptyString => EmptyString
  | String _ s' => s'
  end.

(** [w.charAt(0).toUpperCase() + w.slice(1)] *)
Definition capitalize (w : string) : string :=
  match w with
  | EmptyString => EmptyString
  | String c w' => String (upperChar c) w'
  end.

(** [w.charAt(0).toUpperCase() + w.slice(1).toLowerCase()] *)
Definition capitalizeLower (w : string) : string :=
  match w with
  | EmptyString => EmptyString
  | String c w' => String (upperChar c) (toLowerCase w')
  end.

(** *** Numbers *)

Inductive number : Type :=
| NaN : number
| Int : Z -> number.

(** Truthiness of a number: neither [NaN] nor zero. *)
Definition truthy (n : number) : bool :=
  match n with
  | NaN => false
  | Int z => negb (z =? 0)%Z
  end.

(** [a || b] on numbers. *)
Definition orElse (a b : number) : number := if truthy a then a else b.

(** [Math.min(a, b)] *)
Definition mathMin (a b : number) : number :=
  match a, b with
  | Int x, Int y => Int (Z.min x y)
  | _, _ => NaN
  end.

(** [a * b] *)
Definition times (a b : number) : number :=
  match a, b with
  | Int x, Int y => Int (x * y)
  | _, _ => NaN
  end.

(** [isNaN(a)], [a < b] *)
Definition isNaN (a : number) : bool :=
  match a with NaN => true | Int _ => false end.

Definition lessThan (a b : number) : bool :=
  match a, b with
  | Int x, Int y => (x <? y)%Z
  | _, _ => false
  end.

(** [n.toString()] for the integers of the model (decimal digits, a leading
    minus sign for negatives).  This is the text the code produces for the
    safe integers (magnitude below 2^53); from 10^21 on the code prints
    exponent form, so statements about printed numbers are made for safe
    integers only. *)
Definition numberToString (n : number) : string :=
  match n with
  | NaN => "NaN"
  | Int z => NilZero.string_of_int (Z.to_int z)
  end.

Definition digitValue (c : ascii) : Z := Z.of_nat (code c - 48).

(** The digits at the front of [s], read in base ten, most significant
    first; [acc] is the value read so far and the boolean tells whether a
    digit was read. *)
Fixpoint readDigits (s : string) (acc : Z) (seen : bool) : Z * bool :=
  match s with
  | String c s' =>
      if isDigit c then readDigits s' (10 * acc + digitValue c)%Z true
      else (acc, seen)
  | EmptyString => (acc, seen)
  end.

(** [parseInt(s, 10)]: leading blanks skipped, an optional sign, then the
    longest run of digits; [NaN] when there is no digit.  The value is the
    exact integer; the code's is the nearest double, the same number while
    the value is a safe integer, and of the same sign and on the same side
    of any safe integer beyond. *)
Definition parseInt (s : string) : number :=
  let t := trimStart s in
  let negative := startsWith t "-" in
  let body := if negative || startsWith t "+" then slice1 t else t in
  match readDigits body 0%Z false with
  | (v, true) => Int (if negative then - v else v)%Z
  | (_, false) => NaN
  end.

End JS.

(** ** Regular expressions

    The fragment of the ECMA-262 pattern language the source uses: literals,
    character classes, sequence, alternation, capturing groups, greedy and
    lazy bounded repetition, and the assertions [^] and [$]; the flags [i]
    and [m]. *)

Module RegExp.
Import JS.

Record flags : Type := { ignoreCase : bool; multiline : bool }.

Inductive classItem : Type :=
| CChar : ascii -> classItem               (* a single character *)
| CRange : ascii -> ascii -> classItem     (* lo-hi *)
| CSpace : classItem                       (* \s *)
| CDigit : classItem.                      (* \d *)

Inductive regex : Type :=
| Void : regex                               (* matches nothing *)
| Eps : regex                                (* the empty pattern *)
| Lit : string -> regex                      (* a run of literal characters *)
| Cls : list classItem -> regex              (* [...] *)
| Seq : regex -> regex -> regex
| Alt : regex -> regex -> regex              (* r1|r2 *)
| Group : nat -> regex -> regex              (* the n-th capturing group *)
| Rep : nat -> option nat -> bool -> regex -> regex  (* {min,max}, greedy? *)
| Bol : regex                                (* ^ *)
| Eol : regex.                               (* $ *)

(** Non-capturing sequence and alternation of several parts. *)
Fixpoint seqs (rs : list regex) : regex :=
  match rs with
  | [] => Eps
  | [r] => r
  | r :: rs' => Seq r (seqs rs')
  end.

Fixpoint alts (rs : list regex) : regex :=
  match rs with
  | [] => Void
  | [r] => r
  | r :: rs' => Alt r (alts rs')
  end.

Definition Star (r : regex) : regex := Rep 0 None true r.        (* r*  *)
Definition Plus (r : regex) : regex := Rep 1 None true r.        (* r+  *)
Definition PlusLazy (r : regex) : regex := Rep 1 None false r.   (* r+? *)
Definition Opt (r : regex) : regex := Rep 0 (Some 1) true r.     (* r?  *)
Definition Times (lo hi : nat) (r : regex) : regex := Rep lo (Some hi) true r. (* r{lo,hi} *)
Definition blank : regex := Cls [CSpace].                         (* \s *)
Definition digit : regex := Cls [CDigit].                         (* \d *)
Definition words (ws : list string) : regex := alts (map Lit ws).

(** Canonicalize of ECMA-262 without the [u] flag maps a code unit to its
    upper case, except that a code unit of 128 or more is never mapped below
    128.  Every character written in the source's patterns is ASCII, so
    comparing against them only needs the ASCII part of the mapping. *)
Definition canon (c : ascii) : ascii :=
  if between 97 122 c then shift_down c else c.

Definition uncanon (c : ascii) : ascii :=
  if between 65 90 c then shift_up c else c.

Definition charEq (fl : flags) (a p : ascii) : bool :=
  if ignoreCase fl then Ascii.eqb (canon a) (canon p) else Ascii.eqb a p.

Definition inRange (lo hi a : ascii) : bool :=
  (code lo <=? code a)%nat && (code a <=? code hi)%nat.

(** A code unit [a] is in a class item when some member of the item has the
    canonical form of [a]. *)
Definition itemMatch (fl : flags) (it : classItem) (a : ascii) : bool :=
  match it with
  | CChar p => charEq fl a p
  | CRange lo hi =>
      if ignoreCase fl
      then inRange lo hi a || inRange lo hi (canon a) || inRange lo hi (uncanon a)
      else inRange lo hi a
  | CSpace => isWhiteSpace a
  | CDigit => isDigit a
  end.

Definition classMatch (fl : flags) (items : list classItem) (a : ascii) : bool :=
  existsb (fun it => itemMatch fl it a) items.

(** The state of a match in progress: the code unit before the current
    position (if any), the text from the current position on, and the
    captures made so far (most recent first). *)
Record mstate : Type := {
  prev : option ascii;
  rest : string;
  caps : list (nat * option string)
}.

Fixpoint capture (cs : list (nat * option string)) (n : nat) : option string :=
  match cs with
  | [] => None
  | (k, v) :: cs' => if (k =? n)%nat then v else capture cs' n
  end.

Definition setCap (n : nat) (v : option string) (st : mstate) : mstate :=
  {| prev := prev st; rest := rest st; caps := (n, v) :: caps st |}.

Definition clearCaps (ns : list nat) (st : mstate) : mstate :=
  fold_right (fun n s => setCap n None s) st ns.

(** The capturing groups inside a pattern. *)
Fixpoint groups (r : regex) : list nat :=
  match r with
  | Seq r1 r2 | Alt r1 r2 => groups r1 ++ groups r2
  | Group n r' => n :: groups r'
  | Rep _ _ _ r' => groups r'
  | _ => []
  end.

(** The last code unit of [s], or [dflt] when [s] is empty. *)
Fixpoint lastChar (s : string) (dflt : option ascii) : option ascii :=
  match s with
  | EmptyString => dflt
  | String c s' => lastChar s' (Some c)
  end.

(** A literal run, matched code unit by code unit at the front of the text;
    on success the matched text and what follows it. *)
Fixpoint litMatch (fl : flags) (p s : string) : option (string * string) :=
  match p, s with
  | EmptyString, _ => Some (EmptyString, s)
  | String pc p', String a s' =>
      if charEq fl a pc then
        match litMatch fl p' s' with
        | Some (w, t) => Some (String a w, t)
        | None => None
        end
      else None
  | String _ _, EmptyString => None
  end.

Definition outcome : Type := (string * mstate)%type.

Definition extend (w1 : string) (o : outcome) : outcome :=
  ((w1 ++ fst o)%string, snd o).

Definition zeroMax (mx : option nat) : bool :=
  match mx with Some 0 => true | _ => false end.

Definition decMax (mx : option nat) : option nat := option_map pred mx.

(** RepeatMatcher of ECMA-262 for a body matcher [body]: [mn] more
    iterations are required and [mx] allowed; once the required ones are
    done an iteration that matches the empty text is rejected; the captures
    of the groups [gs] of the body are reset before each iteration.  Each
    call either lowers [mn] or shortens the text, so [fuel] bounds the
    depth. *)
Fixpoint repeat (body : mstate -> list outcome) (gs : list nat) (greedy : bool)
    (fuel mn : nat) (mx : option nat) (st : mstate) {struct fuel} : list outcome :=
  match fuel with
  | O => []
  | S fuel' =>
      if zeroMax mx then [(EmptyString, st)]
      else
        let again :=
          flat_map (fun o1 : outcome =>
            if (mn =? 0)%nat && isEmpty (fst o1) then []
            else map (extend (fst o1))
                     (repeat body gs greedy fuel' (pred mn) (decMax mx) (snd o1)))
            (body (clearCaps gs st)) in
        if negb (mn =? 0)%nat then again
        else if greedy then again ++ [(EmptyString, st)]
        else (EmptyString, st) :: again
  end.

(** All the ways [r] matches at the front of the state's text, in the order
    in which the backtracking matcher of ECMA-262 tries them: for each, the
    text consumed and the state reached. *)
Fixpoint matches (fl : flags) (r : regex) (st : mstate) {struct r} : list outcome :=
  match r with
  | Void => []
  | Eps => [(EmptyString, st)]
  | Lit p =>
      match litMatch fl p (rest st) with
      | Some (w, t) =>
          [(w, {| prev := lastChar w (prev st); rest := t; caps := caps st |})]
      | None => []
      end
  | Cls items =>
      match rest st with
      | String a t =>
          if classMatch fl items a
          then [(String a EmptyString, {| prev := Some a; rest := t; caps := caps st |})]
          else []
      | EmptyString => []
      end
  | Seq r1 r2 =>
      flat_map (fun o1 : outcome => map (extend (fst o1)) (matches fl r2 (snd o1)))
               (matches fl r1 st)
  | Alt r1 r2 => matches fl r1 st ++ matches fl r2 st
  | Group n r' =>
      map (fun o : outcome => (fst o, setCap n (Some (fst o)) (snd o)))
          (matches fl r' st)
  | Rep mn mx greedy r' =>
      repeat (matches fl r') (groups r') greedy
             (mn + String.length (rest st) + 1) mn mx st
  | Bol =>
      match prev st with
      | None => [(EmptyString, st)]
      | Some c => if multiline fl && isLineTerminator c then [(EmptyString, st)] else []
      end
  | Eol =>
      match rest st with
      | EmptyString => [(EmptyString, st)]
      | String c _ => if multiline fl && isLineTerminator c then [(EmptyString, st)] else []
      end
  end.

(** The array [str.match(re)] returns for a pattern without the [g] flag:
    element 0 is the matched text, element n the n-th capture. *)
Record matchArray : Type := {
  whole : string;
  captures : list (nat * option string)
}.

Definition at_ (mt : matchArray) (n : nat) : option string :=
  match n with
  | O => Some (whole mt)
  | _ => capture (captures mt) n
  end.

(** [s.match(re)]: the first match at the leftmost position that has one,
    positions running from the start of [s] to its end inclusive. *)
Fixpoint execFrom (fl : flags) (r : regex) (before : option ascii) (s : string)
    {struct s} : option matchArray :=
  match matches fl r {| prev := before; rest := s; caps := [] |} with
  | o :: _ => Some {| whole := fst o; captures := caps (snd o) |}
  | [] =>
      match s with
      | EmptyString => None
      | String a s' => execFrom fl r (Some a) s'
      end
  end.

Record pattern : Type := { source : regex; flag : flags }.

Definition match_ (s : string) (p : pattern) : option matchArray :=
  execFrom (flag p) (source p) None s.

(** A pattern without flags. *)
Definition plain (r : regex) : pattern :=
  {| source := r; flag := {| ignoreCase := false; multiline := false |} |}.

Definition flag_i : flags := {| ignoreCase := true; multiline := false |}.
Definition flag_im : flags := {| ignoreCase := true; multiline := true |}.

(** *** The language of a pattern

    What a pattern can consume, whatever surrounds it: the assertions are
    read as the empty text.  Used to state what a capture may contain. *)

Fixpoint litLang (fl : flags) (p w : string) : Prop :=
  match p, w with
  | EmptyString, EmptyString => True
  | String pc p', String a w' => charEq fl a pc = true /\ litLang fl p' w'
  | _, _ => False
  end.

(** The texts of a repetition whose body has the texts [L]: the cases are
    those of [repeat]. *)
Inductive repLang (L : string -> Prop) : nat -> option nat -> string -> Prop :=
| rep_exhausted : forall mn, repLang L mn (Some 0) EmptyString
| rep_enough : forall mx, repLang L 0 mx EmptyString
| rep_again : forall mn mx w1 w2,
    zeroMax mx = false -> L w1 -> repLang L (pred mn) (decMax mx) w2 ->
    repLang L mn mx (w1 ++ w2)%string.

Fixpoint lang (fl : flags) (r : regex) (w : string) {struct r} : Prop :=
  match r with
  | Void => False
  | Eps | Bol | Eol => w = EmptyString
  | Lit p => litLang fl p w
  | Cls items => exists a, w = String a EmptyString /\ classMatch fl items a = true
  | Seq r1 r2 => exists w1 w2, w = (w1 ++ w2)%string /\ lang fl r1 w1 /\ lang fl r2 w2
  | Alt r1 r2 => lang fl r1 w \/ lang fl r2 w
  | Group _ r' => lang fl r' w
  | Rep mn mx _ r' => repLang (lang fl r') mn mx w
  end.

(** The bodies of the groups numbered [n] inside a pattern. *)
Fixpoint bodies (n : nat) (r : regex) : list regex :=
  match r with
  | Seq r1 r2 | Alt r1 r2 => bodies n r1 ++ bodies n r2
  | Group k r' => (if (k =? n)%nat then [r'] else []) ++ bodies n r'
  | Rep _ _ _ r' => bodies n r'
  | _ => []
  end.

Definition mentions (n : nat) (r : regex) : bool := existsb (Nat.eqb n) (groups r).

(** A sufficient condition for every match of [r] to leave group [n]
    defined: the group lies on every path and nothing after it resets it. *)
Fixpoint defines (n : nat) (r : regex) : bool :=
  match r with
  | Group k r' => (k =? n)%nat || defines n r'
  | Seq r1 r2 => defines n r2 || (defines n r1 && negb (mentions n r2))
  | Alt r1 r2 => defines n r1 && defines n r2
  | _ => false
  end.

(** Some code unit of the text is not a blank. *)
Fixpoint hasNonBlank (s : string) : bool :=
  match s with
  | EmptyString => false
  | String c s' => negb (isWhiteSpace c) || hasNonBlank s'
  end.

(** Every code unit of the text is a decimal digit. *)
Fixpoint allDigits (s : string) : bool :=
  match s with
  | EmptyString => true
  | String c s' => isDigit c && allDigits s'
  end.

End RegExp.


(** ** The extractor: [analyzeJobDescription] *)

Module Extractor.
Import JS RegExp.

Record JDAnalysisResult : Type := {
  title : string;
  skills : list string;
  location : string;
  intake : number;
  stipend : option number;
  perks : option string
}.

Definition SKILL_KEYWORDS : list string := [
  "react"; "angular"; "vue"; "javascript"; "typescript"; "python"; "java"; "node.js";
  "nodejs"; "express"; "mongodb"; "sql"; "mysql"; "postgresql"; "aws"; "docker";
  "kubernetes"; "git"; "html"; "css"; "tailwind"; "figma"; "photoshop"; "excel";
  "power bi"; "tableau"; "machine learning"; "ml"; "ai"; "data analysis"; "data science";
  "communication"; "teamwork"; "problem solving"; "agile"; "scrum"; "api"; "rest";
  "graphql"; "c++"; "c#"; ".net"; "flutter"; "react native"; "swift"; "kotlin";
  "android"; "ios"; "linux"; "devops"; "ci/cd"; "testing"; "qa"; "selenium"
].

(** The first pattern of the list that matches, as the [for ... break] loops
    find it. *)
Fixpoint firstMatch (jd : string) (ps : list pattern) : option matchArray :=
  match ps with
  | [] => None
  | p :: ps' =>
      match match_ jd p with
      | Some mt => Some mt
      | None => firstMatch jd ps'
      end
  end.

(** *** Title *)

Definition letterOrBlank : regex := Cls [CRange "a" "z"; CSpace].

Definition titlePattern1 : pattern :=
  {| source :=
       seqs [words ["looking for"; "hiring"; "seeking"; "need"; "require"];
             Plus blank;
             Opt (Seq (Lit "a") (Plus blank));
             Group 1 (Seq (Plus letterOrBlank)
                          (words ["intern"; "developer"; "engineer"; "analyst";
                                  "designer"; "manager"; "executive"; "associate"]))];
     flag := flag_i |}.

Definition titlePattern2 : pattern :=
  {| source :=
       seqs [words ["position"; "role"; "job title"; "opening"];
             Plus (Cls [CSpace; CChar ":"]);
             Group 1 (Seq (Plus letterOrBlank)
                          (words ["intern"; "developer"; "engineer"; "analyst";
                                  "designer"; "manager"]))];
     flag := flag_i |}.

Definition titlePattern3 : pattern :=
  {| source :=
       seqs [Bol;
             Group 1 (Seq (Plus letterOrBlank)
                          (words ["intern"; "developer"; "engineer"; "analyst";
                                  "designer"; "manager"; "executive"]))];
     flag := flag_im |}.

Definition titlePatterns : list pattern :=
  [titlePattern1; titlePattern2; titlePattern3].

(** [match[1].trim().replace(/\s+/g, ' ')], then each word capitalised. *)
Definition formatTitle (captured : string) : string :=
  let t := collapseBlanks (trim captured) in
  join " " (map capitalize (split " " t)).

(** The [if (!title)] chain of role keywords. *)
Definition fallbackTitle (lowerJD : string) : string :=
  if includes lowerJD "software" && includes lowerJD "intern" then "Software Development Intern"
  else if includes lowerJD "frontend" then "Frontend Developer"
  else if includes lowerJD "backend" then "Backend Developer"
  else if includes lowerJD "full stack" || includes lowerJD "fullstack" then "Full Stack Developer"
  else if includes lowerJD "data analyst" then "Data Analyst"
  else if includes lowerJD "data science" then "Data Science Intern"
  else if includes lowerJD "marketing" then "Marketing Intern"
  else if includes lowerJD "design" then "Design Intern"
  else "Intern".

(** The title left by the pattern loop: [''] when no pattern matches;
    [None] when [match[1]] is undefined and [.trim()] throws. *)
Definition patternTitle (jd : string) : option string :=
  match firstMatch jd titlePatterns with
  | Some mt =>
      match at_ mt 1 with
      | Some captured => Some (formatTitle captured)
      | None => None
      end
  | None => Some EmptyString
  end.

Definition extractTitle (jd : string) : option string :=
  match patternTitle jd with
  | Some t => if isEmpty t then Some (fallbackTitle (toLowerCase jd)) else Some t
  | None => None
  end.

(** *** Skills *)

Definition upperCaseTokens : list string :=
  ["ai"; "ml"; "qa"; "api"; "sql"; "aws"; "css"; "html"].

Definition formatSkill (skill : string) : string :=
  join " " (map (fun w => if arrayIncludes upperCaseTokens (toLowerCase w)
                          then toUpperCase w else capitalize w)
                (split " " skill)).

(** The body of the skill loop: [skills] is the array built so far. *)
Definition skillStep (lowerJD : string) (skills : list string) (skill : string) : list string :=
  if includes lowerJD (toLowerCase skill) then
    let formatted := formatSkill skill in
    if negb (arrayIncludes skills formatted) then skills ++ [formatted] else skills
  else skills.

Definition scanSkills (lowerJD : string) : list string :=
  fold_left (skillStep lowerJD) SKILL_KEYWORDS [].

(** [skills.slice(0, 10)] of the scanned array. *)
Definition extractSkills (jd : string) : list string :=
  firstn 10 (scanSkills (toLowerCase jd)).

(** *** Location *)

Definition newline : string := String "010" EmptyString.

Definition locationPattern1 : pattern :=
  {| source :=
       seqs [words ["location"; "based in"; "office"; "work from"];
             Plus (Cls [CSpace; CChar ":"]);
             Group 1 (PlusLazy (Cls [CRange "a" "z"; CSpace; CChar ","]));
             alts [Lit "."; Lit ","; Eol; Lit newline]];
     flag := flag_i |}.

Definition locationPattern2 : pattern :=
  {| source :=
       seqs [Group 1 (words ["bangalore"; "bengaluru"; "mumbai"; "delhi"; "hyderabad";
                             "chennai"; "pune"; "kolkata"; "noida"; "gurgaon"; "gurugram"]);
             Star (Cls [CChar ","; CSpace]);
             Opt (Group 2 (words ["india"; "karnataka"; "maharashtra"; "telangana";
                                  "tamil nadu"]))];
     flag := flag_i |}.

Definition locationPattern3 : pattern :=
  {| source := words ["remote"; "work from home"; "wfh"]; flag := flag_i |}.

Definition locationPatterns : list pattern :=
  [locationPattern1; locationPattern2; locationPattern3].

(** [location.split(' ').map(w => w.charAt(0).toUpperCase() +
    w.slice(1).toLowerCase()).join(' ')] *)
Definition formatLocation (loc : string) : string :=
  join " " (map capitalizeLower (split " " loc)).

(** The body of the location loop for a match [mt]. *)
Definition locationOf (mt : matchArray) : string :=
  let raw :=
    if includes (whole mt) "remote" || includes (whole mt) "wfh" then "Remote"
    else match at_ mt 1 with                  (* match[1]?.trim() || '' *)
         | Some c => trim c
         | None => EmptyString
         end in
  formatLocation raw.

Definition extractLocation (jd : string) : string :=
  match firstMatch jd locationPatterns with
  | Some mt => locationOf mt
  | None => EmptyString
  end.

(** *** Intake *)

Definition optS (w : string) : regex := Seq (Lit w) (Opt (Lit "s")).

Definition intakePattern1 : pattern :=
  {| source :=
       seqs [Group 1 (Plus digit);
             Star blank;
             alts [optS "position"; optS "opening"; optS "vacancie"; optS "intern";
                   optS "candidate"]];
     flag := flag_i |}.

Definition intakePattern2 : pattern :=
  {| source :=
       seqs [words ["hiring"; "need"; "require"; "looking for"];
             Star blank;
             Group 1 (Plus digit)];
     flag := flag_i |}.

Definition intakePattern3 : pattern :=
  {| source :=
       seqs [alts [optS "position"; optS "opening"];
             Star blank;
             Opt (Lit "available");
             Star (Cls [CSpace; CChar ":"]);
             Group 1 (Plus digit)];
     flag := flag_i |}.

Definition intakePatterns : list pattern :=
  [intakePattern1; intakePattern2; intakePattern3].

(** The loop's [intake]: 1 unless a pattern matches, then
    [parseInt(match[1], 10) || 1]. *)
Definition rawIntake (jd : string) : option number :=
  match firstMatch jd intakePatterns with
  | Some mt =>
      match at_ mt 1 with
      | Some c => Some (orElse (parseInt c) (Int 1))
      | None => None
      end
  | None => Some (Int 1)
  end.

(** [Math.min(intake, 100)] *)
Definition extractIntake (jd : string) : option number :=
  option_map (fun n => mathMin n (Int 100)) (rawIntake jd).

(** *** Stipend *)

(** The rupee sign of the source's patterns is the code unit 0x20B9; no
    text over Latin-1 code units contains it, so that alternative is [Void]. *)
Definition currency : regex :=
  alts [Seq (Lit "rs") (Opt (Lit ".")); Lit "inr"; Void].

(** [(\d{1,3}(?:,\d{3})*|\d+)] *)
Definition amountGroup : regex :=
  Group 1 (Alt (Seq (Times 1 3 digit) (Star (Seq (Lit ",") (Times 3 3 digit))))
               (Plus digit)).

Definition kSuffix : regex := Opt (Alt (Lit "k") (Lit "K")).

Definition stipendPattern1 : pattern :=
  {| source :=
       seqs [words ["stipend"; "salary"; "compensation"; "pay"];
             Star (Cls [CSpace; CChar ":"]);
             Opt currency;
             Star blank;
             amountGroup;
             kSuffix];
     flag := flag_i |}.

Definition stipendPattern2 : pattern :=
  {| source :=
       seqs [currency;
             Star blank;
             amountGroup;
             kSuffix;
             Star blank;
             alts [Lit "per month"; Lit "/month"; Seq (Lit "p.m") (Opt (Lit ".")); Lit "pm"]];
     flag := flag_i |}.

Definition stipendPatterns : list pattern := [stipendPattern1; stipendPattern2].

(** The body of the stipend loop for a match [mt] whose first capture is
    [captured]. *)
Definition stipendOf (jd : string) (mt : matchArray) (captured : string) : number :=
  let amount := removeCommas captured in
  let stipend := parseInt amount in
  if includes (toLowerCase jd) (toLowerCase (whole mt))
     && (includes (whole mt) "k" || includes (whole mt) "K")
  then times stipend (Int 1000)
  else stipend.

(** [Some None] is an [undefined] stipend; the outer [None] a thrown error. *)
Definition extractStipend (jd : string) : option (option number) :=
  match firstMatch jd stipendPatterns with
  | Some mt =>
      match at_ mt 1 with
      | Some c => Some (Some (stipendOf jd mt c))
      | None => None
      end
  | None => Some None
  end.

(** *** Perks *)

Definition perksKeywords : list string := [
  "certificate"; "letter of recommendation"; "lor"; "flexible"; "remote";
  "wfh"; "work from home"; "mentorship"; "training"; "ppo"; "pre-placement"; "bonus";
  "health insurance"; "snacks"; "meals"; "team outings"
].

Definition formatPerk (perk : string) : string :=
  if String.eqb perk "lor" then "Letter of Recommendation"
  else if String.eqb perk "ppo" then "PPO (Pre-Placement Offer)"
  else if String.eqb perk "wfh" then "Work from Home"
  else join " " (map capitalize (split " " perk)).

Definition perkStep (lowerJD : string) (foundPerks : list string) (perk : string) : list string :=
  if includes lowerJD perk then
    let formatted := formatPerk perk in
    if negb (arrayIncludes foundPerks formatted) then foundPerks ++ [formatted] else foundPerks
  else foundPerks.

Definition extractPerks (jd : string) : option string :=
  let foundPerks := fold_left (perkStep (toLowerCase jd)) perksKeywords [] in
  if (0 <? List.length foundPerks)%nat then Some (join ", " foundPerks) else None.

(** *** The whole analysis *)

Definition analyzeJobDescription (jd : string) : option JDAnalysisResult :=
  match extractTitle jd, extractIntake jd, extractStipend jd with
  | Some t, Some n, Some s =>
      Some {| title := t;
              skills := extractSkills jd;
              location := extractLocation jd;
              intake := n;
              stipend := s;
              perks := extractPerks jd |}
  | _, _, _ => None
  end.

(** The role-keyword chain read as a lookup table: the first entry whose
    test holds gives the title, ["Intern"] when none does. *)
Definition keywordTable : list ((string -> bool) * string) := [
  (fun l => includes l "software" && includes l "intern", "Software Development Intern");
  (fun l => includes l "frontend", "Frontend Developer");
  (fun l => includes l "backend", "Backend Developer");
  (fun l => includes l "full stack" || includes l "fullstack", "Full Stack Developer");
  (fun l => includes l "data analyst", "Data Analyst");
  (fun l => includes l "data science", "Data Science Intern");
  (fun l => includes l "marketing", "Marketing Intern");
  (fun l => includes l "design", "Design Intern")
].

Fixpoint lookupTitle (table : list ((string -> bool) * string)) (l : string) : string :=
  match table with
  | [] => "Intern"
  | (test, t) :: table' => if test l then t else lookupTitle table' l
  end.

(** The vocabulary entries that occur in the lower-cased document, in
    vocabulary order, formatted. *)
Definition occurringSkills (lowerJD : string) : list string :=
  map formatSkill (filter (fun k => includes lowerJD (toLowerCase k)) SKILL_KEYWORDS).

End Extractor.


(** ** The form: the state of [CreateJob] and its handlers *)

Module CreateJob.
Import JS.

(** The [useState] cells of the component. *)
Record state : Type := {
  jobDescription : string;
  isAnalyzing : bool;
  hasAnalyzed : bool;
  title : string;
  titleSuggested : bool;
  skillInput : string;
  skills : list string;
  skillsSuggested : bool;
  locationLabel : string;
  locationSuggested : bool;
  intake : string;
  intakeSuggested : bool;
  stipend : string;
  stipendSuggested : bool;
  perks : string;
  perksSuggested : bool;
  error : string
}.

(** The state setters. *)
Definition setJobDescription (v : string) (f : state) : state :=
  {| jobDescription := v;
     isAnalyzing := isAnalyzing f;
     hasAnalyzed := hasAnalyzed f;
     title := title f;
     titleSuggested := titleSuggested f;
     skillInput := skillInput f;
     skills := skills f;
     skillsSuggested := skillsSuggested f;
     locationLabel := locationLabel f;
     locationSuggested := locationSuggested f;
     intake := intake f;
     intakeSuggested := intakeSuggested f;
     stipend := stipend f;
     stipendSuggested := stipendSuggested f;
     perks := perks f;
     perksSuggested := perksSuggested f;
     error := error f |}.

Definition setIsAnalyzing (v : bool) (f : state) : state :=
  {| jobDescription := jobDescription f;
     isAnalyzing := v;
     hasAnalyzed := hasAnalyzed f;
     title := title f;
     titleSuggested := titleSuggested f;
     skillInput := skillInput f;
     skills := skills f;
     skillsSuggested := skillsSuggested f;
     locationLabel := locationLabel f;
     locationSuggested := locationSuggested f;
     intake := intake f;
     intakeSuggested := intakeSuggested f;
     stipend := stipend f;
     stipendSuggested := stipendSuggested f;
     perks := perks f;
     perksSuggested := perksSuggested f;
     error := error f |}.

Definition setHasAnalyzed (v : bool) (f : state) : state :=
  {| jobDescription := jobDescription f;
     isAnalyzing := isAnalyzing f;
     hasAnalyzed := v;
     title := title f;
     titleSuggested := titleSuggested f;
     skillInput := skillInput f;
     skills := skills f;
     skillsSuggested := skillsSuggested f;
     locationLabel := locationLabel f;
     locationSuggested := locationSuggested f;
     intake := intake f;
     intakeSuggested := intakeSuggested f;
     stipend := stipend f;
     stipendSuggested := stipendSuggested f;
     perks := perks f;
     perksSuggested := perksSuggested f;
     error := error f |}.

Definition setTitle (v : string) (f : state) : state :=
  {| jobDescription := jobDescription f;
     isAnalyzing := isAnalyzing f;
     hasAnalyzed := hasAnalyzed f;
     title := v;
     titleSuggested := titleSuggested f;
     skillInput := skillInput f;
     skills := skills f;
     skillsSuggested := skillsSuggested f;
     locationLabel := locationLabel f;
     locationSuggested := locationSuggested f;
     intake := intake f;
     intakeSuggested := intakeSuggested f;
     stipend := stipend f;
     stipendSuggested := stipendSuggested f;
     perks := perks f;
     perksSuggested := perksSuggested f;
     error := error f |}.

Definition setTitleSuggested (v : bool) (f : state) : state :=
  {| jobDescription := jobDescription f;
     isAnalyzing := isAnalyzing f;
     hasAnalyzed := hasAnalyzed f;
     title := title f;
     titleSuggested := v;
     skillInput := skillInput f;
     skills := skills f;
     skillsSuggested := skillsSuggested f;
     locationLabel := locationLabel f;
     locationSuggested := locationSuggested f;
     intake := intake f;
     intakeSuggested := intakeSuggested f;
     stipend := stipend f;
     stipendSuggested := stipendSuggested f;
     perks := perks f;
     perksSuggested := perksSuggested f;
     error := error f |}.

Definition setSkillInput (v : string) (f : state) : state :=
  {| jobDescription := jobDescription f;
     isAnalyzing := isAnalyzing f;
     hasAnalyzed := hasAnalyzed f;
     title := title f;
     titleSuggested := titleSuggested f;
     skillInput := v;
     skills := skills f;
     skillsSuggested := skillsSuggested f;
     locationLabel := locationLabel f;
     locationSuggested := locationSuggested f;
     intake := intake f;
     intakeSuggested := intakeSuggested f;
     stipend := stipend f;
     stipendSuggested := stipendSuggested f;
     perks := perks f;
     perksSuggested := perksSuggested f;
     error := error f |}.

Definition setSkills (v : list string) (f : state) : state :=
  {| jobDescription := jobDescription f;
     isAnalyzing := isAnalyzing f;
     hasAnalyzed := hasAnalyzed f;
     title := title f;
     titleSuggested := titleSuggested f;
     skillInput := skillInput f;
     skills := v;
     skillsSuggested := skillsSuggested f;
     locationLabel := locationLabel f;
     locationSuggested := locationSuggested f;
     intake := intake f;
     intakeSuggested := intakeSuggested f;
     stipend := stipend f;
     stipendSuggested := stipendSuggested f;
     perks := perks f;
     perksSuggested := perksSuggested f;
     error := error f |}.

Definition setSkillsSuggested (v : bool) (f : state) : state :=
  {| jobDescription := jobDescription f;
     isAnalyzing := isAnalyzing f;
     hasAnalyzed := hasAnalyzed f;
     title := title f;
     titleSuggested := titleSuggested f;
     skillInput := skillInput f;
     skills := skills f;
     skillsSuggested := v;
     locationLabel := locationLabel f;
     locationSuggested := locationSuggested f;
     intake := intake f;
     intakeSuggested := intakeSuggested f;
     stipend := stipend f;
     stipendSuggested := stipendSuggested f;
     perks := perks f;
     perksSuggested := perksSuggested f;
     error := error f |}.

Definition setLocationLabel (v : string) (f : state) : state :=
  {| jobDescription := jobDescription f;
     isAnalyzing := isAnalyzing f;
     hasAnalyzed := hasAnalyzed f;
     title := title f;
     titleSuggested := titleSuggested f;
     skillInput := skillInput f;
     skills := skills f;
     skillsSuggested := skillsSuggested f;
     locationLabel := v;
     locationSuggested := locationSuggested f;
     intake := intake f;
     intakeSuggested := intakeSuggested f;
     stipend := stipend f;
     stipendSuggested := stipendSuggested f;
     perks := perks f;
     perksSuggested := perksSuggested f;
     error := error f |}.

Definition setLocationSuggested (v : bool) (f : state) : state :=
  {| jobDescription := jobDescription f;
     isAnalyzing := isAnalyzing f;
     hasAnalyzed := hasAnalyzed f;
     title := title f;
     titleSuggested := titleSuggested f;
     skillInput := skillInput f;
     skills := skills f;
     skillsSuggested := skillsSuggested f;
     locationLabel := locationLabel f;
     locationSuggested := v;
     intake := intake f;
     intakeSuggested := intakeSuggested f;
     stipend := stipend f;
     stipendSuggested := stipendSuggested f;
     perks := perks f;
     perksSuggested := perksSuggested f;
     error := error f |}.

Definition setIntake (v : string) (f : state) : state :=
  {| jobDescription := jobDescription f;
     isAnalyzing := isAnalyzing f;
     hasAnalyzed := hasAnalyzed f;
     title := title f;
     titleSuggested := titleSuggested f;
     skillInput := skillInput f;
     skills := skills f;
     skillsSuggested := skillsSuggested f;
     locationLabel := locationLabel f;
     locationSuggested := locationSuggested f;
     intake := v;
     intakeSuggested := intakeSuggested f;
     stipend := stipend f;
     stipendSuggested := stipendSuggested f;
     perks := perks f;
     perksSuggested := perksSuggested f;
     error := error f |}.

Definition setIntakeSuggested (v : bool) (f : state) : state :=
  {| jobDescription := jobDescription f;
     isAnalyzing := isAnalyzing f;
     hasAnalyzed := hasAnalyzed f;
     title := title f;
     titleSuggested := titleSuggested f;
     skillInput := skillInput f;
     skills := skills f;
     skillsSuggested := skillsSuggested f;
     locationLabel := locationLabel f;
     locationSuggested := locationSuggested f;
     intake := intake f;
     intakeSuggested := v;
     stipend := stipend f;
     stipendSuggested := stipendSuggested f;
     perks := perks f;
     perksSuggested := perksSuggested f;
     error := error f |}.

Definition setStipend (v : string) (f : state) : state :=
  {| jobDescription := jobDescription f;
     isAnalyzing := isAnalyzing f;
     hasAnalyzed := hasAnalyzed f;
     title := title f;
     titleSuggested := titleSuggested f;
     skillInput := skillInput f;
     skills := skills f;
     skillsSuggested := skillsSuggested f;
     locationLabel := locationLabel f;
     locationSuggested := locationSuggested f;
     intake := intake f;
     intakeSuggested := intakeSuggested f;
     stipend := v;
     stipendSuggested := stipendSuggested f;
     perks := perks f;
     perksSuggested := perksSuggested f;
     error := error f |}.

Definition setStipendSuggested (v : bool) (f : state) : state :=
  {| jobDescription := jobDescription f;
     isAnalyzing := isAnalyzing f;
     hasAnalyzed := hasAnalyzed f;
     title := title f;
     titleSuggested := titleSuggested f;
     skillInput := skillInput f;
     skills := skills f;
     skillsSuggested := skillsSuggested f;
     locationLabel := locationLabel f;
     locationSuggested := locationSuggested f;
     intake := intake f;
     intakeSuggested := intakeSuggested f;
     stipend := stipend f;
     stipendSuggested := v;
     perks := perks f;
     perksSuggested := perksSuggested f;
     error := error f |}.

Definition setPerks (v : string) (f : state) : state :=
  {| jobDescription := jobDescription f;
     isAnalyzing := isAnalyzing f;
     hasAnalyzed := hasAnalyzed f;
     title := title f;
     titleSuggested := titleSuggested f;
     skillInput := skillInput f;
     skills := skills f;
     skillsSuggested := skillsSuggested f;
     locationLabel := locationLabel f;
     locationSuggested := locationSuggested f;
     intake := intake f;
     intakeSuggested := intakeSuggested f;
     stipend := stipend f;
     stipendSuggested := stipendSuggested f;
     perks := v;
     perksSuggested := perksSuggested f;
     error := error f |}.

Definition setPerksSuggested (v : bool) (f : state) : state :=
  {| jobDescription := jobDescription f;
     isAnalyzing := isAnalyzing f;
     hasAnalyzed := hasAnalyzed f;
     title := title f;
     titleSuggested := titleSuggested f;
     skillInput := skillInput f;
     skills := skills f;
     skillsSuggested := skillsSuggested f;
     locationLabel := locationLabel f;
     locationSuggested := locationSuggested f;
     intake := intake f;
     intakeSuggested := intakeSuggested f;
     stipend := stipend f;
     stipendSuggested := stipendSuggested f;
     perks := perks f;
     perksSuggested := v;
     error := error f |}.

Definition setError (v : string) (f : state) : state :=
  {| jobDescription := jobDescription f;
     isAnalyzing := isAnalyzing f;
     hasAnalyzed := hasAnalyzed f;
     title := title f;
     titleSuggested := titleSuggested f;
     skillInput := skillInput f;
     skills := skills f;
     skillsSuggested := skillsSuggested f;
     locationLabel := locationLabel f;
     locationSuggested := locationSuggested f;
     intake := intake f;
     intakeSuggested := intakeSuggested f;
     stipend := stipend f;
     stipendSuggested := stipendSuggested f;
     perks := perks f;
     perksSuggested := perksSuggested f;
     error := v |}.


Definition initial : state :=
  {| jobDescription := ""; isAnalyzing := false; hasAnalyzed := false;
     title := ""; titleSuggested := false;
     skillInput := ""; skills := []; skillsSuggested := false;
     locationLabel := ""; locationSuggested := false;
     intake := ""; intakeSuggested := false;
     stipend := ""; stipendSuggested := false;
     perks := ""; perksSuggested := false;
     error := "" |}.

(** Truthiness of a string: it is not empty. *)
Definition nonEmpty (s : string) : bool := negb (isEmpty s).

(** *** [handleAnalyzeJD] *)

(** The merge of an analysis result into the form (the body of the [try]
    after the [await]). *)
Definition applyResult (result : Extractor.JDAnalysisResult) (f : state) : state :=
  let f := if nonEmpty (Extractor.title result)
           then setTitleSuggested true (setTitle (Extractor.title result) f) else f in
  let f := if (0 <? List.length (Extractor.skills result))%nat
           then setSkillsSuggested true (setSkills (Extractor.skills result) f) else f in
  let f := if nonEmpty (Extractor.location result)
           then setLocationSuggested true (setLocationLabel (Extractor.location result) f) else f in
  let f := if truthy (Extractor.intake result)
           then setIntakeSuggested true
                  (setIntake (numberToString (Extractor.intake result)) f) else f in
  let f := match Extractor.stipend result with
           | Some n => if truthy n
                       then setStipendSuggested true (setStipend (numberToString n) f) else f
           | None => f
           end in
  let f := match Extractor.perks result with
           | Some p => if nonEmpty p then setPerksSuggested true (setPerks p f) else f
           | None => f
           end in
  setHasAnalyzed true f.

Definition handleAnalyzeJD (f : state) : state :=
  if (String.length (jobDescription f) <? 100)%nat then
    setError "Please enter a more detailed job description (at least 100 characters)" f
  else
    let f := setIsAnalyzing true (setError "" f) in
    let f := match Extractor.analyzeJobDescription (jobDescription f) with
             | Some result => applyResult result f
             | None => setError "Failed to analyze job description. Please try again." f
             end in
    setIsAnalyzing false f.

(** *** The edit handlers *)

Definition onJobDescriptionChange (v : string) (f : state) : state :=
  setHasAnalyzed false (setJobDescription v f).

Definition onTitleChange (v : string) (f : state) : state :=
  setTitleSuggested false (setTitle v f).

Definition onLocationChange (v : string) (f : state) : state :=
  setLocationSuggested false (setLocationLabel v f).

Definition onIntakeChange (v : string) (f : state) : state :=
  setIntakeSuggested false (setIntake v f).

Definition onStipendChange (v : string) (f : state) : state :=
  setStipendSuggested false (setStipend v f).

Definition onPerksChange (v : string) (f : state) : state :=
  setPerksSuggested false (setPerks v f).

Definition handleAddSkill (f : state) : state :=
  let trimmed := trim (skillInput f) in
  if nonEmpty trimmed && negb (arrayIncludes (skills f) trimmed) then
    setSkillsSuggested false (setSkillInput "" (setSkills (skills f ++ [trimmed]) f))
  else f.

Definition handleRemoveSkill (skill : string) (f : state) : state :=
  let f' := setSkills (filter (fun s => negb (String.eqb s skill)) (skills f)) f in
  if (List.length (skills f) <=? 1)%nat then setSkillsSuggested false f' else f'.

(** *** [handleSubmit] *)

(** The payload handed to [createJob]; the coordinates, drawn at random
    around a fixed point, are left out. *)
Record CreateJobInput : Type := {
  job_title : string;
  requiredSkills : list string;
  location_label : string;
  job_intake : number;
  job_stipend : option number;
  job_perks : option string;
  originalJD : string
}.

(** The checks of [handleSubmit], in order: the message of the first one
    that fails. *)
Definition submitError (f : state) : option string :=
  if isEmpty (trim (jobDescription f)) || (String.length (jobDescription f) <? 100)%nat then
    Some "A detailed job description is required (at least 100 characters)"
  else if isEmpty (trim (title f)) then
    Some "Job title is required"
  else if (List.length (skills f) =? 0)%nat then
    Some "At least one skill is required"
  else if isEmpty (trim (locationLabel f)) then
    Some "Location is required"
  else
    let intakeNum := parseInt (intake f) in
    if isNaN intakeNum || lessThan intakeNum (Int 1) then
      Some "Intake capacity must be at least 1"
    else None.

Definition jobData (f : state) : CreateJobInput :=
  {| job_title := trim (title f);
     requiredSkills := skills f;
     location_label := trim (locationLabel f);
     job_intake := parseInt (intake f);
     job_stipend := if nonEmpty (stipend f) then Some (parseInt (stipend f)) else None;
     job_perks := if nonEmpty (trim (perks f)) then Some (trim (perks f)) else None;
     originalJD := trim (jobDescription f) |}.

(** [handleSubmit] up to the call of [createJob]: the form afterwards and,
    when every check passes, the payload. *)
Definition handleSubmit (f : state) : state * option CreateJobInput :=
  let f := setError "" f in
  match submitError f with
  | Some msg => (setError msg f, None)
  | None => (f, Some (jobData f))
  end.

(** *** The rules of [handleSubmit] one by one

    [violatedRules] lists the message of every rule the form breaks, in the
    order of the checks; it is what a validator that reports all problems
    at once would show. *)

Definition docMessage : string :=
  "A detailed job description is required (at least 100 characters)".
Definition titleMessage : string := "Job title is required".
Definition skillsMessage : string := "At least one skill is required".
Definition locationMessage : string := "Location is required".
Definition intakeMessage : string := "Intake capacity must be at least 1".

Definition docRule (f : state) : bool :=
  isEmpty (trim (jobDescription f)) || (String.length (jobDescription f) <? 100)%nat.
Definition titleRule (f : state) : bool := isEmpty (trim (title f)).
Definition skillsRule (f : state) : bool := (List.length (skills f) =? 0)%nat.
Definition locationRule (f : state) : bool := isEmpty (trim (locationLabel f)).
Definition intakeRule (f : state) : bool :=
  isNaN (parseInt (intake f)) || lessThan (parseInt (intake f)) (Int 1).

Definition report (broken : bool) (msg : string) : list string :=
  if broken then [msg] else [].

Definition violatedRules (f : state) : list string :=
  report (docRule f) docMessage ++ report (titleRule f) titleMessage ++
  report (skillsRule f) skillsMessage ++ report (locationRule f) locationMessage ++
  report (intakeRule f) intakeMessage.

End CreateJob.

(** ** Sample documents and forms *)

Module Samples.
Import JS Extractor CreateJob.

Definition scenario : string :=
  "We are hiring a Frontend Developer Intern for 2 positions in Bangalore. Stipend 15k per month. Skills: React, TypeScript, CSS. Perks: certificate, flexible hours.".

Fixpoint spaces (n : nat) : string :=
  match n with
  | O => EmptyString
  | S n' => String " " (spaces n')
  end.

(** A hundred code units, of which fifteen are not blanks. *)
Definition padded : string := ("Interns wanted." ++ spaces 85)%string.

(** Fifty code units. *)
Definition fifty : string := "Join us soon: great team, great work, great fun!!!".

(** The form of the validation scenario: a short document, no title, no
    skill, no location and intake ["0"]. *)
Definition allWrong : state :=
  setIntake "0" (setJobDescription fifty initial).

(** A form that is complete but for its document, which is [padded]. *)
Definition paddedForm : state :=
  setIntake "2" (setLocationLabel "Pune" (setSkills ["React"]
    (setTitle "Intern" (setJobDescription padded initial)))).

(** The analysis result of [scenario] applied to the empty form, then the
    title retyped by the user. *)
Definition analysed : state :=
  handleAnalyzeJD (onJobDescriptionChange scenario initial).
Definition retitled : state := onTitleChange "Lead Designer" analysed.

(** Fifteen vocabulary skills, the first of them three times. *)
Definition fifteenSkills : string :=
  "React, react and REACT; Angular; Vue; TypeScript; Python; Express; MongoDB; Docker; Kubernetes; Figma; Photoshop; Excel; Flutter; Swift; Kotlin".

Definition twoTitles : string :=
  "Role: Data Analyst. We are hiring a Backend Developer".

(** An advertisement that writes the remote arrangement with a capital. *)
Definition remoteAd : string :=
  "Join our content team as a marketing intern. This is a Remote internship with flexible timings and weekly mentoring calls.".

(** An advertisement that gives the stipend in plain digits. *)
Definition plainStipendAd : string :=
  "We are looking for a data analyst intern to join our growing team in Mumbai. Stipend: 15000 per month plus certificate.".

End Samples.

(** ** The buttons of the form *)

Module Controls.
Import JS CreateJob.

(** [jdCharCount >= 100 && jdCharCount <= 5000] *)
Definition isJDValid (f : state) : bool :=
  (100 <=? String.length (jobDescription f))%nat &&
  (String.length (jobDescription f) <=? 5000)%nat.

(** The [disabled] attribute of the "Analyze JD" button; [isLoading] comes
    from the company context. *)
Definition analyzeDisabled (isLoading : bool) (f : state) : bool :=
  negb (isJDValid f) || isAnalyzing f || isLoading.

(** The [disabled] attribute of the submit button. *)
Definition submitDisabled (isLoading : bool) (f : state) : bool :=
  isLoading || isAnalyzing f ||
  isEmpty (trim (jobDescription f)) ||
  (String.length (jobDescription f) <? 100)%nat ||
  isEmpty (trim (title f)) ||
  (List.length (skills f) =? 0)%nat ||
  isEmpty (trim (locationLabel f)) ||
  isEmpty (intake f).

End Controls.

(** ** Token storage: [auth.api.ts] and the request interceptor of [api.ts] *)

Module Auth.
Import JS.

(** [localStorage]: the value stored under each key, if any. *)
Definition storage : Type := string -> option string.

Definition getItem (k : string) (s : storage) : option string := s k.

Definition setItem (k v : string) (s : storage) : storage :=
  fun k' => if String.eqb k' k then Some v else s k'.

Definition removeItem (k : string) (s : storage) : storage :=
  fun k' => if String.eqb k' k then None else s k'.

Definition AUTH_TOKEN_KEY : string := "aura_access_token".
Definition REFRESH_TOKEN_KEY : string := "aura_refresh_token".
Definition COMPANY_TOKEN_KEY : string := "aura_company_token".

Definition getAccessToken (s : storage) : option string := getItem AUTH_TOKEN_KEY s.

(** Truthiness of a value read from the storage or of an optional
    argument: present and not empty. *)
Definition present (v : option string) : bool :=
  match v with
  | Some t => negb (isEmpty t)
  | None => false
  end.

Definition setTokens (accessToken : string) (refreshToken : option string) (s : storage)
    : storage :=
  let s := setItem AUTH_TOKEN_KEY accessToken s in
  match refreshToken with
  | Some r => if negb (isEmpty r) then setItem REFRESH_TOKEN_KEY r s else s
  | None => s
  end.

Definition clearTokens (s : storage) : storage :=
  removeItem REFRESH_TOKEN_KEY (removeItem AUTH_TOKEN_KEY s).

Definition bearer (token : string) : string := ("Bearer " ++ token)%string.

(** The request interceptor: the [Authorization] header of the outgoing
    request, given the header the request came with. *)
Definition authorization (s : storage) (header : option string) : option string :=
  let token := getItem AUTH_TOKEN_KEY s in
  let header := match token with
                | Some t => if negb (isEmpty t) then Some (bearer t) else header
                | None => header
                end in
  let companyToken := getItem COMPANY_TOKEN_KEY s in
  match companyToken with
  | Some c => if negb (present token) && negb (isEmpty c) then Some (bearer c) else header
  | None => header
  end.

End Auth.

(** ** Shapes of texts and lists used to state what the code keeps *)

Module Shapes.
Import JS.

(** Every blank of the text is a single space followed by a code unit that
    is not a blank. *)
Fixpoint wordsOnly (s : string) : bool :=
  match s with
  | EmptyString => true
  | String c s' =>
      (if isWhiteSpace c
       then Ascii.eqb c " " &&
            match s' with
            | String d _ => negb (isWhiteSpace d)
            | EmptyString => false
            end
       else true) && wordsOnly s'
  end.

Definition startsNonBlank (s : string) : bool :=
  match s with
  | String c _ => negb (isWhiteSpace c)
  | EmptyString => false
  end.

(** A non-empty text of words separated by single spaces, with no blank at
    either end. *)
Definition tidy (s : string) : bool := startsNonBlank s && wordsOnly s.

(** The words of a text joined again, all capitalised but the first. *)
Definition capitalizeTail (s : string) : string :=
  match split " " s with
  | w :: ws => join " " (w :: map capitalize ws)
  | [] => EmptyString
  end.

Definition capitalizeWords (s : string) : string :=
  join " " (map capitalize (split " " s)).

(** Every code unit of the text is a digit or a comma. *)
Fixpoint digitsOrCommas (s : string) : bool :=
  match s with
  | EmptyString => true
  | String c s' => (isDigit c || Ascii.eqb c ",") && digitsOrCommas s'
  end.

Definition startsDigit (s : string) : bool :=
  match s with
  | String c _ => isDigit c
  | EmptyString => false
  end.

(** The empty decimal numeral. *)
Definition isNil (d : Decimal.uint) : bool :=
  match d with
  | Decimal.Nil => true
  | _ => false
  end.

(** The skill list has no duplicate and no empty entry. *)
Definition skillsOk (f : CreateJob.state) : Prop :=
  NoDup (CreateJob.skills f) /\
  forall s, In s (CreateJob.skills f) -> isEmpty s = false.

(** The labels of the perk keywords that occur in the lower-cased
    document, in vocabulary order. *)
Definition occurringPerks (lowerJD : string) : list string :=
  map Extractor.formatPerk (filter (fun k => includes lowerJD k) Extractor.perksKeywords).

(** The numbers the code prints in decimal exactly as [numberToString]
    does: [NaN] and the safe integers ([Number.MAX_SAFE_INTEGER] is
    2^53 - 1).  Beyond them a double need not be an integer of the model,
    and from 10^21 on [toString] switches to exponent form. *)
Definition decimalRange (n : number) : Prop :=
  match n with
  | NaN => True
  | Int z => (Z.abs z <= 9007199254740991)%Z
  end.

(** An analysis result whose numbers are in that range. *)
Definition printable (r : Extractor.JDAnalysisResult) : Prop :=
  decimalRange (Extractor.intake r) /\
  forall n, Extractor.stipend r = Some n -> decimalRange n.

End Shapes.

(** ** More sample forms *)

Module MoreSamples.
Import JS CreateJob.

Definition scenarioForm : state := onJobDescriptionChange Samples.scenario initial.

(** The analysed scenario with the intake retyped as ["0"]. *)
Definition zeroIntake : state := onIntakeChange "0" Samples.analysed.

(** The analysed scenario with a skill typed in, blanks around it. *)
Definition typing : state := setSkillInput "  GraphQL " Samples.analysed.

Definition javascriptAd : string := "We use JavaScript daily".

(** The analysis result of the sample advertisement. *)
Definition scenarioResult : Extractor.JDAnalysisResult :=
  {| Extractor.title := "Frontend Developer Intern";
     Extractor.skills := ["React"; "Typescript"; "CSS"];
     Extractor.location := "Bangalore";
     Extractor.intake := Int 2;
     Extractor.stipend := Some (Int 15000);
     Extractor.perks := Some "Certificate, Letter of Recommendation, Flexible" |}.

(** A storage holding a company token only. *)
Definition companyOnly : Auth.storage :=
  Auth.setItem Auth.COMPANY_TOKEN_KEY "c-1" (fun _ => None).

End MoreSamples.

(** ** Facts about strings *)

Module StringFacts.
Import JS.

Lemma trimStart_length s : (String.length (trimStart s) <= String.length s)%nat.
Proof.
  induction s as [|c s IH]; simpl; [lia|].
  destruct (isWhiteSpace c); simpl; lia.
Qed.

Lemma trimEnd_length s : (String.length (trimEnd s) <= String.length s)%nat.
Proof.
  induction s as [|c s IH]; simpl; [lia|].
  destruct (trimEnd s) as [|d t]; [destruct (isWhiteSpace c)|]; simpl in *; lia.
Qed.

Lemma trim_length s : (String.length (trim s) <= String.length s)%nat.
Proof.
  unfold trim.
  pose proof (trimEnd_length (trimStart s)); pose proof (trimStart_length s); lia.
Qed.

Lemma isEmpty_true s : isEmpty s = true <-> s = EmptyString.
Proof. destruct s; simpl; split; congruence. Qed.

Lemma isEmpty_length s : isEmpty s = true <-> String.length s = 0%nat.
Proof. destruct s; simpl; split; congruence. Qed.

(** Case analysis on the 256 code units. *)
Ltac by_cases_on a :=
  destruct a as [[] [] [] [] [] [] [] []]; vm_compute; try reflexivity; try discriminate.

Lemma canon_blank a : isWhiteSpace (RegExp.canon a) = isWhiteSpace a.
Proof. by_cases_on a. Qed.

Lemma charEq_blank fl a p :
  RegExp.charEq fl a p = true -> isWhiteSpace a = isWhiteSpace p.
Proof.
  unfold RegExp.charEq. destruct (RegExp.ignoreCase fl); intros H; apply Ascii.eqb_eq in H.
  - rewrite <- (canon_blank a), <- (canon_blank p), H. reflexivity.
  - rewrite H. reflexivity.
Qed.

Lemma digit_not_blank a : isDigit a = true -> isWhiteSpace a = false.
Proof. by_cases_on a. Qed.

Lemma digit_not_sign a :
  isDigit a = true -> Ascii.eqb "-" a = false /\ Ascii.eqb "+" a = false.
Proof. by_cases_on a; intros; split; reflexivity. Qed.

Lemma startsWith_one a s b : startsWith (String a s) (String b EmptyString) = Ascii.eqb b a.
Proof. cbn [startsWith]. destruct s; apply andb_true_r. Qed.

Lemma hasNonBlank_app w1 w2 :
  RegExp.hasNonBlank (w1 ++ w2) = RegExp.hasNonBlank w1 || RegExp.hasNonBlank w2.
Proof.
  induction w1 as [|c w1 IH]; simpl; [reflexivity|].
  rewrite IH. apply orb_assoc.
Qed.

Lemma trimStart_nonBlank s :
  RegExp.hasNonBlank s = true ->
  exists a t, trimStart s = String a t /\ isWhiteSpace a = false.
Proof.
  induction s as [|c s IH]; simpl; [discriminate|].
  destruct (isWhiteSpace c) eqn:W; simpl; intros H; [exact (IH H)|].
  exists c, s. auto.
Qed.

Lemma trimEnd_nonBlank a t :
  isWhiteSpace a = false -> isEmpty (trimEnd (String a t)) = false.
Proof.
  intros W. simpl. destruct (trimEnd t); [rewrite W|]; reflexivity.
Qed.

Lemma trim_nonBlank s : RegExp.hasNonBlank s = true -> isEmpty (trim s) = false.
Proof.
  intros H. destruct (trimStart_nonBlank s H) as (a & t & E & W).
  unfold trim. rewrite E. exact (trimEnd_nonBlank a t W).
Qed.

Lemma collapseBlanks_nonEmpty s : isEmpty s = false -> isEmpty (collapseBlanks s) = false.
Proof.
  induction s as [|c s IH]; intros H; [discriminate|].
  simpl. destruct (isWhiteSpace c); [|reflexivity].
  destruct s as [|d s]; [reflexivity|].
  destruct (isWhiteSpace d); [apply IH|]; reflexivity.
Qed.

Lemma split_not_nil sep s : split sep s <> [].
Proof.
  destruct s as [|c s]; simpl; [discriminate|].
  destruct (Ascii.eqb c sep); [discriminate|].
  destruct (split sep s); discriminate.
Qed.

(** Capitalising word by word keeps a text non-empty. *)
Lemma capitalized_nonEmpty s :
  isEmpty s = false -> isEmpty (join " " (map capitalize (split " " s))) = false.
Proof.
  destruct s as [|c s]; [discriminate|]. intros _. simpl.
  destruct (Ascii.eqb c " ").
  - pose proof (@split_not_nil " "%char s) as N.
    destruct (split " " s) as [|w ws]; [contradiction|]. reflexivity.
  - destruct (split " " s) as [|w ws]; [reflexivity|].
    simpl. destruct ws; reflexivity.
Qed.

Lemma readDigits_seen s : forall acc, snd (readDigits s acc true) = true.
Proof.
  induction s as [|c s IH]; intros acc; cbn [readDigits]; [reflexivity|].
  destruct (isDigit c); [apply IH|reflexivity].
Qed.

Lemma digitValue_nonneg c : (0 <= digitValue c)%Z.
Proof. unfold digitValue. apply Nat2Z.is_nonneg. Qed.

Lemma readDigits_nonneg s : forall acc b, (0 <= acc)%Z -> (0 <= fst (readDigits s acc b))%Z.
Proof.
  induction s as [|c s IH]; intros acc b H; cbn [readDigits]; [exact H|].
  destruct (isDigit c); [|exact H].
  apply IH. pose proof (digitValue_nonneg c). lia.
Qed.

(** [parseInt] of a non-empty run of digits is a non-negative integer. *)
Lemma parseInt_digits s :
  RegExp.allDigits s = true -> isEmpty s = false ->
  exists z, parseInt s = Int z /\ (0 <= z)%Z.
Proof.
  destruct s as [|a s]; [discriminate|]. simpl. intros H _.
  apply andb_true_iff in H. destruct H as [D _].
  assert (E : parseInt (String a s) =
              match readDigits (String a s) 0%Z false with
              | (v, true) => Int v
              | (_, false) => NaN
              end).
  { unfold parseInt. simpl trimStart. rewrite (digit_not_blank a D).
    rewrite !startsWith_one. destruct (digit_not_sign a D) as [S1 S2].
    rewrite S1, S2. reflexivity. }
  rewrite E. cbn [readDigits]. rewrite D.
  pose proof (readDigits_seen s (10 * 0 + digitValue a)) as S1.
  pose proof (readDigits_nonneg s (10 * 0 + digitValue a) true) as S2.
  destruct (readDigits s (10 * 0 + digitValue a) true) as [v b].
  cbn [fst snd] in S1, S2. subst b.
  exists v. split; [reflexivity|]. apply S2. pose proof (digitValue_nonneg a). lia.
Qed.

End StringFacts.

(** ** Facts about the matcher *)

Module RegExpFacts.
Import JS RegExp.

Lemma capture_setCap n k v st :
  capture (caps (setCap k v st)) n = if (k =? n)%nat then v else capture (caps st) n.
Proof. reflexivity. Qed.

Lemma capture_clearCaps_other n gs st :
  existsb (Nat.eqb n) gs = false ->
  capture (caps (clearCaps gs st)) n = capture (caps st) n.
Proof.
  induction gs as [|k gs IH]; simpl; [reflexivity|].
  intros H. apply orb_false_iff in H. destruct H as [H1 H2].
  rewrite Nat.eqb_sym in H1. rewrite H1. exact (IH H2).
Qed.

Lemma capture_clearCaps_some n gs st c :
  capture (caps (clearCaps gs st)) n = Some c -> capture (caps st) n = Some c.
Proof.
  induction gs as [|k gs IH]; simpl; intros H; [exact H|].
  destruct (k =? n)%nat; [discriminate|exact (IH H)].
Qed.

Lemma litMatch_lang fl p : forall s w t, litMatch fl p s = Some (w, t) -> litLang fl p w.
Proof.
  induction p as [|pc p IH]; intros s w t H; simpl in H.
  - inversion H. exact I.
  - destruct s as [|a s]; [discriminate|].
    destruct (charEq fl a pc) eqn:E; [|discriminate].
    destruct (litMatch fl p s) as [[w' t']|] eqn:M; [|discriminate].
    inversion H; subst. simpl. split; [exact E|exact (IH _ _ _ M)].
Qed.

(** What [repeat] returns, outcome by outcome. *)
Lemma in_repeat body gs g fuel mn mx st o :
  In o (repeat body gs g (S fuel) mn mx st) ->
  (o = (EmptyString, st) /\ (zeroMax mx = true \/ mn = 0%nat)) \/
  (zeroMax mx = false /\
   exists o1 o2, In o1 (body (clearCaps gs st)) /\
     In o2 (repeat body gs g fuel (pred mn) (decMax mx) (snd o1)) /\
     o = extend (fst o1) o2).
Proof.
  simpl. destruct (zeroMax mx) eqn:Z.
  - intros [H|[]]. left. split; [symmetry; exact H|left; reflexivity].
  - set (again := flat_map _ _).
    assert (A : In o again -> exists o1 o2, In o1 (body (clearCaps gs st)) /\
                  In o2 (repeat body gs g fuel (pred mn) (decMax mx) (snd o1)) /\
                  o = extend (fst o1) o2).
    { unfold again. rewrite in_flat_map. intros (o1 & H1 & H2).
      destruct ((mn =? 0)%nat && isEmpty (fst o1)); [destruct H2|].
      apply in_map_iff in H2. destruct H2 as (o2 & E & H2).
      exists o1, o2. auto. }
    destruct (mn =? 0)%nat eqn:M; simpl.
    + apply Nat.eqb_eq in M. destruct g.
      * rewrite in_app_iff. intros [H|[H|[]]]; [right; auto|left; auto].
      * intros [H|H]; [left; auto|right; auto].
    + intros H. right. auto.
Qed.

Lemma repeat_sound (L : string -> Prop) body gs g :
  (forall st o, In o (body st) -> L (fst o)) ->
  forall fuel mn mx st o,
    In o (repeat body gs g fuel mn mx st) -> repLang L mn mx (fst o).
Proof.
  intros B. induction fuel as [|fuel IH]; intros mn mx st o H; [destruct H|].
  apply in_repeat in H. destruct H as [[E [Z|Z]]|(Z & o1 & o2 & H1 & H2 & E)]; subst o; simpl.
  - destruct mx as [[|k]|]; try discriminate. constructor.
  - subst mn. constructor.
  - apply rep_again; [exact Z|exact (B _ _ H1)|exact (IH _ _ _ _ H2)].
Qed.

(** Soundness: what a pattern consumes is a text of its language. *)
Lemma matches_sound fl r : forall st o, In o (matches fl r st) -> lang fl r (fst o).
Proof.
  induction r as [| |p|items|r1 IH1 r2 IH2|r1 IH1 r2 IH2|n r IH|mn mx g r IH| |];
    intros st o H; simpl in H.
  - destruct H.
  - destruct H as [H|[]]; subst o; reflexivity.
  - destruct (litMatch fl p (rest st)) as [[w t]|] eqn:M; [|destruct H].
    destruct H as [H|[]]; subst o. simpl. exact (litMatch_lang _ _ _ _ _ M).
  - destruct (rest st) as [|a t]; [destruct H|].
    destruct (classMatch fl items a) eqn:C; [|destruct H].
    destruct H as [H|[]]; subst o. simpl. exists a. auto.
  - apply in_flat_map in H. destruct H as (o1 & H1 & H2).
    apply in_map_iff in H2. destruct H2 as (o2 & E & H2). subst o.
    simpl. exists (fst o1), (fst o2). split; [reflexivity|]. split; eauto.
  - apply in_app_iff in H. simpl. destruct H as [H|H]; [left|right]; eauto.
  - apply in_map_iff in H. destruct H as (o' & E & H). subst o. simpl. eauto.
  - simpl. eapply repeat_sound; [exact IH|exact H].
  - destruct (prev st) as [c|].
    + destruct (multiline fl && isLineTerminator c); [|destruct H].
      destruct H as [H|[]]; subst o; reflexivity.
    + destruct H as [H|[]]; subst o; reflexivity.
  - destruct (rest st) as [|c t].
    + destruct H as [H|[]]; subst o; reflexivity.
    + destruct (multiline fl && isLineTerminator c); [|destruct H].
      destruct H as [H|[]]; subst o; reflexivity.
Qed.

(** Frame: a pattern leaves alone the groups it does not contain. *)
Lemma repeat_frame n body gs g :
  existsb (Nat.eqb n) gs = false ->
  (forall st o, In o (body st) -> capture (caps (snd o)) n = capture (caps st) n) ->
  forall fuel mn mx st o,
    In o (repeat body gs g fuel mn mx st) ->
    capture (caps (snd o)) n = capture (caps st) n.
Proof.
  intros G B. induction fuel as [|fuel IH]; intros mn mx st o H; [destruct H|].
  apply in_repeat in H. destruct H as [[E _]|(Z & o1 & o2 & H1 & H2 & E)]; subst o; simpl.
  - reflexivity.
  - rewrite (IH _ _ _ _ H2), (B _ _ H1). apply capture_clearCaps_other, G.
Qed.

Lemma mentions_app n r1 r2 :
  existsb (Nat.eqb n) (groups r1 ++ groups r2) = false ->
  mentions n r1 = false /\ mentions n r2 = false.
Proof. unfold mentions. rewrite existsb_app. apply orb_false_iff. Qed.

Lemma matches_frame fl n r :
  mentions n r = false ->
  forall st o, In o (matches fl r st) -> capture (caps (snd o)) n = capture (caps st) n.
Proof.
  induction r as [| |p|items|r1 IH1 r2 IH2|r1 IH1 r2 IH2|k r IH|mn mx g r IH| |];
    intros G st o H; simpl in H.
  - destruct H.
  - destruct H as [H|[]]; subst o; reflexivity.
  - destruct (litMatch fl p (rest st)) as [[w t]|]; [|destruct H].
    destruct H as [H|[]]; subst o; reflexivity.
  - destruct (rest st) as [|a t]; [destruct H|].
    destruct (classMatch fl items a); [|destruct H].
    destruct H as [H|[]]; subst o; reflexivity.
  - apply mentions_app in G. destruct G as [G1 G2].
    apply in_flat_map in H. destruct H as (o1 & H1 & H2).
    apply in_map_iff in H2. destruct H2 as (o2 & E & H2). subst o. simpl.
    rewrite (IH2 G2 _ _ H2). exact (IH1 G1 _ _ H1).
  - apply mentions_app in G. destruct G as [G1 G2].
    apply in_app_iff in H. destruct H as [H|H]; eauto.
  - unfold mentions in G. simpl in G. apply orb_false_iff in G. destruct G as [G1 G2].
    apply in_map_iff in H. destruct H as (o' & E & H). subst o. simpl.
    rewrite Nat.eqb_sym in G1. rewrite G1. exact (IH G2 _ _ H).
  - eapply repeat_frame; [exact G|exact (IH G)|exact H].
  - destruct (prev st) as [c|].
    + destruct (multiline fl && isLineTerminator c); [|destruct H].
      destruct H as [H|[]]; subst o; reflexivity.
    + destruct H as [H|[]]; subst o; reflexivity.
  - destruct (rest st) as [|c t].
    + destruct H as [H|[]]; subst o; reflexivity.
    + destruct (multiline fl && isLineTerminator c); [|destruct H].
      destruct H as [H|[]]; subst o; reflexivity.
Qed.

(** A group that [defines] accepts is set after every match. *)
Lemma matches_defines fl n r :
  defines n r = true ->
  forall st o, In o (matches fl r st) -> exists c, capture (caps (snd o)) n = Some c.
Proof.
  induction r as [| |p|items|r1 IH1 r2 IH2|r1 IH1 r2 IH2|k r IH|mn mx g r IH| |];
    intros D st o H; simpl in D; try discriminate; simpl in H.
  - apply in_flat_map in H. destruct H as (o1 & H1 & H2).
    apply in_map_iff in H2. destruct H2 as (o2 & E & H2). subst o. simpl.
    apply orb_true_iff in D. destruct D as [D|D]; [exact (IH2 D _ _ H2)|].
    apply andb_true_iff in D. destruct D as [D1 D2]. apply negb_true_iff in D2.
    rewrite (matches_frame fl n r2 D2 _ _ H2). exact (IH1 D1 _ _ H1).
  - apply andb_true_iff in D. destruct D as [D1 D2].
    apply in_app_iff in H. destruct H as [H|H]; eauto.
  - apply in_map_iff in H. destruct H as (o' & E & H). subst o. simpl.
    destruct (k =? n)%nat; [eauto|]. simpl in D. exact (IH D _ _ H).
Qed.

(** What a group holds after a match was there before or is a text of the
    language of one of its bodies. *)
Lemma repeat_capture (P : string -> Prop) n body gs g :
  (forall st o c, In o (body st) -> capture (caps (snd o)) n = Some c ->
                  capture (caps st) n = Some c \/ P c) ->
  forall fuel mn mx st o c,
    In o (repeat body gs g fuel mn mx st) ->
    capture (caps (snd o)) n = Some c ->
    capture (caps st) n = Some c \/ P c.
Proof.
  intros B. induction fuel as [|fuel IH]; intros mn mx st o c H C; [destruct H|].
  apply in_repeat in H. destruct H as [[E _]|(Z & o1 & o2 & H1 & H2 & E)]; subst o; simpl in C.
  - left. exact C.
  - destruct (IH _ _ _ _ _ H2 C) as [C1|C1]; [|right; exact C1].
    destruct (B _ _ _ H1 C1) as [C2|C2]; [|right; exact C2].
    left. exact (capture_clearCaps_some _ _ _ _ C2).
Qed.

Lemma matches_capture fl n r :
  forall st o c, In o (matches fl r st) -> capture (caps (snd o)) n = Some c ->
    capture (caps st) n = Some c \/ exists b, In b (bodies n r) /\ lang fl b c.
Proof.
  induction r as [| |p|items|r1 IH1 r2 IH2|r1 IH1 r2 IH2|k r IH|mn mx g r IH| |];
    intros st o c H C; simpl in H.
  - destruct H.
  - destruct H as [H|[]]; subst o; left; exact C.
  - destruct (litMatch fl p (rest st)) as [[w t]|]; [|destruct H].
    destruct H as [H|[]]; subst o; left; exact C.
  - destruct (rest st) as [|a t]; [destruct H|].
    destruct (classMatch fl items a); [|destruct H].
    destruct H as [H|[]]; subst o; left; exact C.
  - apply in_flat_map in H. destruct H as (o1 & H1 & H2).
    apply in_map_iff in H2. destruct H2 as (o2 & E & H2). subst o. simpl in C.
    destruct (IH2 _ _ _ H2 C) as [C2|(b & Hb & Lb)].
    + destruct (IH1 _ _ _ H1 C2) as [C1|(b & Hb & Lb)]; [left; exact C1|].
      right. exists b. simpl. rewrite in_app_iff. auto.
    + right. exists b. simpl. rewrite in_app_iff. auto.
  - apply in_app_iff in H. destruct H as [H|H].
    + destruct (IH1 _ _ _ H C) as [C1|(b & Hb & Lb)]; [left; exact C1|].
      right. exists b. simpl. rewrite in_app_iff. auto.
    + destruct (IH2 _ _ _ H C) as [C1|(b & Hb & Lb)]; [left; exact C1|].
      right. exists b. simpl. rewrite in_app_iff. auto.
  - apply in_map_iff in H. destruct H as (o' & E & H). subst o. simpl in C.
    destruct (k =? n)%nat eqn:K.
    + right. exists r. split; [simpl; rewrite K; left; reflexivity|].
      inversion C; subst. exact (matches_sound fl r _ _ H).
    + destruct (IH _ _ _ H C) as [C1|(b & Hb & Lb)]; [left; exact C1|].
      right. exists b. simpl. rewrite K. auto.
  - simpl. eapply (@repeat_capture (fun c => exists b, In b (bodies n r) /\ lang fl b c));
      [exact IH|exact H|exact C].
  - destruct (prev st) as [a|].
    + destruct (multiline fl && isLineTerminator a); [|destruct H].
      destruct H as [H|[]]; subst o; left; exact C.
    + destruct H as [H|[]]; subst o; left; exact C.
  - destruct (rest st) as [|a t].
    + destruct H as [H|[]]; subst o; left; exact C.
    + destruct (multiline fl && isLineTerminator a); [|destruct H].
      destruct H as [H|[]]; subst o; left; exact C.
Qed.

(** A match array comes from an outcome of the matcher started with no
    capture. *)
Lemma execFrom_outcome fl r : forall s before mt,
  execFrom fl r before s = Some mt ->
  exists b t o, In o (matches fl r {| prev := b; rest := t; caps := [] |}) /\
                whole mt = fst o /\ captures mt = caps (snd o).
Proof.
  induction s as [|a s IH]; intros before mt H; simpl in H.
  - destruct (matches fl r _) as [|o os] eqn:M; [discriminate|].
    inversion H; subst. exists before, EmptyString, o. rewrite M. simpl. auto.
  - destruct (matches fl r _) as [|o os] eqn:M; [exact (IH _ _ H)|].
    inversion H; subst. exists before, (String a s), o. rewrite M. simpl. auto.
Qed.

(** After [s.match(p)], a group that [defines] accepts holds a text of the
    language of one of its bodies. *)
Lemma match_capture s p n mt :
  match_ s p = Some mt -> defines n (source p) = true ->
  exists c, capture (captures mt) n = Some c /\
            exists b, In b (bodies n (source p)) /\ lang (flag p) b c.
Proof.
  intros H D. apply execFrom_outcome in H. destruct H as (b & t & o & H & _ & E).
  destruct (@matches_defines _ _ _ D _ _ H) as [c C].
  exists c. rewrite E. split; [exact C|].
  destruct (@matches_capture _ n _ _ _ c H C) as [C0|K]; [discriminate|exact K].
Qed.

(** *** The matcher consumes a prefix and never runs out of fuel *)

Lemma clearCaps_rest gs st : rest (clearCaps gs st) = rest st.
Proof. induction gs as [|k gs IH]; simpl; [reflexivity|exact IH]. Qed.

Lemma litMatch_consumes fl p : forall s w t,
  litMatch fl p s = Some (w, t) -> s = (w ++ t)%string.
Proof.
  induction p as [|pc p IH]; intros s w t H; simpl in H.
  - inversion H. reflexivity.
  - destruct s as [|a s]; [discriminate|].
    destruct (charEq fl a pc); [|discriminate].
    destruct (litMatch fl p s) as [[w' t']|] eqn:M; [|discriminate].
    inversion H; subst. simpl. rewrite (IH _ _ _ M). reflexivity.
Qed.

Lemma append_assoc (a b c : string) : ((a ++ b) ++ c = a ++ (b ++ c))%string.
Proof. induction a as [|x a IH]; simpl; [reflexivity|rewrite IH; reflexivity]. Qed.

Lemma repeat_consumes body gs g :
  (forall st o, In o (body st) -> rest st = (fst o ++ rest (snd o))%string) ->
  forall fuel mn mx st o,
    In o (repeat body gs g fuel mn mx st) -> rest st = (fst o ++ rest (snd o))%string.
Proof.
  intros B. induction fuel as [|fuel IH]; intros mn mx st o H; [destruct H|].
  apply in_repeat in H. destruct H as [[E _]|(Z & o1 & o2 & H1 & H2 & E)]; subst o; simpl.
  - reflexivity.
  - rewrite append_assoc, <- (IH _ _ _ _ H2), <- (B _ _ H1). symmetry. apply clearCaps_rest.
Qed.

Lemma matches_consumes fl r :
  forall st o, In o (matches fl r st) -> rest st = (fst o ++ rest (snd o))%string.
Proof.
  induction r as [| |p|items|r1 IH1 r2 IH2|r1 IH1 r2 IH2|n r IH|mn mx g r IH| |];
    intros st o H; simpl in H.
  - destruct H.
  - destruct H as [H|[]]; subst o; reflexivity.
  - destruct (litMatch fl p (rest st)) as [[w t]|] eqn:M; [|destruct H].
    destruct H as [H|[]]; subst o. simpl. exact (litMatch_consumes _ _ _ _ _ M).
  - destruct (rest st) as [|a t]; [destruct H|].
    destruct (classMatch fl items a); [|destruct H].
    destruct H as [H|[]]; subst o; reflexivity.
  - apply in_flat_map in H. destruct H as (o1 & H1 & H2).
    apply in_map_iff in H2. destruct H2 as (o2 & E & H2). subst o. simpl.
    rewrite append_assoc, <- (IH2 _ _ H2). exact (IH1 _ _ H1).
  - apply in_app_iff in H. destruct H as [H|H]; eauto.
  - apply in_map_iff in H. destruct H as (o' & E & H). subst o. simpl. eauto.
  - eapply repeat_consumes; [exact IH|exact H].
  - destruct (prev st) as [c|].
    + destruct (multiline fl && isLineTerminator c); [|destruct H].
      destruct H as [H|[]]; subst o; reflexivity.
    + destruct H as [H|[]]; subst o; reflexivity.
  - destruct (rest st) as [|c t] eqn:R.
    + destruct H as [H|[]]; subst o. simpl. rewrite R. reflexivity.
    + destruct (multiline fl && isLineTerminator c); [|destruct H].
      destruct H as [H|[]]; subst o. simpl. rewrite R. reflexivity.
Qed.

Lemma flat_map_ext_In {A B : Type} (f h : A -> list B) l :
  (forall a, In a l -> f a = h a) -> flat_map f l = flat_map h l.
Proof.
  induction l as [|a l IH]; intros E; simpl; [reflexivity|].
  rewrite (E a (or_introl eq_refl)), IH; [reflexivity|].
  intros b I. apply E. right. exact I.
Qed.

Lemma append_length (a b : string) :
  String.length (a ++ b) = (String.length a + String.length b)%nat.
Proof. induction a as [|x a IH]; simpl; [reflexivity|rewrite IH; reflexivity]. Qed.

(** Any fuel above [mn] plus the length of the text gives the same
    outcomes: the fuel given by [matches] never runs out. *)
Lemma repeat_fuel body gs g :
  (forall st o, In o (body st) -> rest st = (fst o ++ rest (snd o))%string) ->
  forall fuel1 fuel2 mn mx st,
    (mn + String.length (rest st) < fuel1)%nat ->
    (mn + String.length (rest st) < fuel2)%nat ->
    repeat body gs g fuel1 mn mx st = repeat body gs g fuel2 mn mx st.
Proof.
  intros B. induction fuel1 as [|fuel1 IH]; intros fuel2 mn mx st F1 F2; [lia|].
  destruct fuel2 as [|fuel2]; [lia|]. cbn [repeat].
  destruct (zeroMax mx); [reflexivity|].
  erewrite flat_map_ext_In; [reflexivity|].
  intros o1 I. cbv beta.
  destruct ((mn =? 0)%nat && isEmpty (fst o1)) eqn:T; [reflexivity|].
  pose proof (B _ _ I) as C. rewrite clearCaps_rest in C.
  assert (L : String.length (rest st) =
              (String.length (fst o1) + String.length (rest (snd o1)))%nat)
    by (rewrite C at 1; apply append_length).
  assert (K : (pred mn + String.length (rest (snd o1)) < mn + String.length (rest st))%nat).
  { destruct mn as [|mn]; [|simpl; lia].
    simpl in T. destruct (fst o1); [discriminate|]. simpl in L. simpl. lia. }
  f_equal. apply IH; lia.
Qed.

Lemma matches_Rep_fuel fl mn mx g r st extra :
  matches fl (Rep mn mx g r) st =
  repeat (matches fl r) (groups r) g (mn + String.length (rest st) + 1 + extra) mn mx st.
Proof.
  simpl. apply repeat_fuel; [apply matches_consumes|lia|lia].
Qed.

(** *** The matcher on small patterns *)

Example greedy_takes_most :
  match_ "aaa" (plain (Times 1 2 (Lit "a"))) = Some {| whole := "aa"; captures := [] |}.
Proof. reflexivity. Qed.

Example lazy_takes_least :
  match_ "aaa" (plain (PlusLazy (Lit "a"))) = Some {| whole := "a"; captures := [] |}.
Proof. reflexivity. Qed.

Example first_alternative_wins :
  match_ "ab" (plain (Group 1 (Alt (Lit "a") (Lit "ab")))) =
  Some {| whole := "a"; captures := [(1, Some "a")] |}.
Proof. reflexivity. Qed.

Example backtracks_into_repetition :
  match_ "xaab" (plain (Seq (Group 1 (Plus (Lit "a"))) (Lit "ab"))) =
  Some {| whole := "aab"; captures := [(1, Some "a")] |}.
Proof. reflexivity. Qed.

Example leftmost_position_first :
  match_ "ba ab" (plain (Alt (Lit "ab") (Lit "a"))) = Some {| whole := "a"; captures := [] |}.
Proof. reflexivity. Qed.

Example case_is_ignored :
  match_ "WFH" {| source := Lit "wfh"; flag := flag_i |} =
  Some {| whole := "WFH"; captures := [] |}.
Proof. reflexivity. Qed.

Example empty_iterations_stop :
  match_ "b" (plain (Seq (Star (Opt (Lit "a"))) (Lit "b"))) =
  Some {| whole := "b"; captures := [] |}.
Proof. reflexivity. Qed.

(** *** Languages of the pieces the source's patterns are made of *)

Lemma words_lang fl ws w :
  lang fl (words ws) w -> exists p, In p ws /\ litLang fl p w.
Proof.
  unfold words. induction ws as [|p ws IH]; simpl; [intros []|].
  destruct ws as [|q ws].
  - simpl. intros H. exists p. auto.
  - intros [H|H].
    + exists p. auto.
    + destruct (IH H) as (p' & I' & L'). exists p'. auto.
Qed.

Lemma litLang_nonBlank fl p : forall w, litLang fl p w -> hasNonBlank w = hasNonBlank p.
Proof.
  induction p as [|pc p IH]; intros [|a w] H; simpl in H; try contradiction; [reflexivity|].
  destruct H as [E L]. simpl.
  rewrite (StringFacts.charEq_blank fl a pc E), (IH w L). reflexivity.
Qed.

(** A text that ends with one of the words [ws], none of them blank, has a
    code unit that is not a blank. *)
Lemma ends_with_word_nonBlank fl r ws c :
  forallb hasNonBlank ws = true ->
  lang fl (Seq r (words ws)) c -> hasNonBlank c = true.
Proof.
  intros F (w1 & w2 & E & _ & L). subst c.
  destruct (words_lang fl ws w2 L) as (p & I & Lp).
  rewrite StringFacts.hasNonBlank_app, (litLang_nonBlank fl p w2 Lp).
  rewrite forallb_forall in F. rewrite (F p I). apply orb_true_r.
Qed.

Lemma allDigits_app w1 w2 : allDigits (w1 ++ w2) = allDigits w1 && allDigits w2.
Proof.
  induction w1 as [|c w1 IH]; simpl; [reflexivity|].
  rewrite IH. apply andb_assoc.
Qed.

Lemma digit_lang fl w :
  lang fl digit w -> exists a, w = String a EmptyString /\ isDigit a = true.
Proof.
  intros (a & E & C). exists a. split; [exact E|].
  unfold classMatch in C. simpl in C. rewrite orb_false_r in C. exact C.
Qed.

Lemma digits_lang fl mn mx w : repLang (lang fl digit) mn mx w -> allDigits w = true.
Proof.
  induction 1 as [mn|mx|mn mx w1 w2 Z L R IH]; try reflexivity.
  rewrite allDigits_app, IH.
  destruct (digit_lang fl w1 L) as (a & E & D). subst w1. simpl. rewrite D. reflexivity.
Qed.

(** [(\d+)] holds a non-empty run of digits. *)
Lemma plus_digit_lang fl w :
  lang fl (Plus digit) w -> allDigits w = true /\ isEmpty w = false.
Proof.
  intros H. split; [exact (digits_lang fl _ _ w H)|].
  simpl in H. inversion H as [| |mn mx w1 w2 Z L R]; subst.
  destruct (digit_lang fl w1 L) as (a & E & _). subst w1. reflexivity.
Qed.

(** After [s.match(p)], a group the pattern does not contain is undefined. *)
Lemma match_no_group s p n mt :
  match_ s p = Some mt -> bodies n (source p) = [] -> capture (captures mt) n = None.
Proof.
  intros H B. apply execFrom_outcome in H. destruct H as (b & t & o & H & _ & E).
  rewrite E. destruct (capture (caps (snd o)) n) as [c|] eqn:C; [|reflexivity].
  destruct (matches_capture _ n _ _ _ c H C) as [C0|(r & I & _)]; [discriminate|].
  rewrite B in I. destruct I.
Qed.

End RegExpFacts.

(** ** Facts about the extractor *)

Module ExtractorFacts.
Import JS RegExp Extractor.

Lemma firstMatch_in jd ps mt :
  firstMatch jd ps = Some mt -> exists p, In p ps /\ match_ jd p = Some mt.
Proof.
  induction ps as [|p ps IH]; simpl; [discriminate|].
  destruct (match_ jd p) as [m|] eqn:M.
  - intros H. inversion H; subst. exists p. auto.
  - intros H. destruct (IH H) as (q & I & Q). exists q. auto.
Qed.

Lemma firstMatch_first jd before p after mt :
  (forall q, In q before -> match_ jd q = None) ->
  match_ jd p = Some mt ->
  firstMatch jd (before ++ p :: after) = Some mt.
Proof.
  intros N M. induction before as [|q before IH]; simpl.
  - rewrite M. reflexivity.
  - rewrite (N q (or_introl eq_refl)). apply IH. intros q' I. apply N. right. exact I.
Qed.

Lemma firstMatch_none jd ps :
  (forall q, In q ps -> match_ jd q = None) -> firstMatch jd ps = None.
Proof.
  induction ps as [|p ps IH]; simpl; intros N; [reflexivity|].
  rewrite (N p (or_introl eq_refl)). apply IH. intros q I. apply N. right. exact I.
Qed.

(** **** Title *)

(** After a title pattern matched, [match[1]] is defined and holds some
    code unit that is not a blank. *)
Lemma title_capture jd p mt :
  In p titlePatterns -> match_ jd p = Some mt ->
  exists c, at_ mt 1 = Some c /\ hasNonBlank c = true.
Proof.
  intros I M.
  assert (D : defines 1 (source p) = true).
  { destruct I as [E|[E|[E|[]]]]; subst p; reflexivity. }
  destruct (RegExpFacts.match_capture jd p 1 mt M D) as (c & C & b & B & L).
  exists c. split; [exact C|].
  destruct I as [E|[E|[E|[]]]]; subst p; simpl in B; destruct B as [B|[]]; subst b;
    eapply RegExpFacts.ends_with_word_nonBlank; try exact L; reflexivity.
Qed.

Lemma formatTitle_nonEmpty c : hasNonBlank c = true -> isEmpty (formatTitle c) = false.
Proof.
  intros H. unfold formatTitle.
  apply StringFacts.capitalized_nonEmpty, StringFacts.collapseBlanks_nonEmpty,
    StringFacts.trim_nonBlank, H.
Qed.

Lemma fallbackTitle_nonEmpty l : isEmpty (fallbackTitle l) = false.
Proof.
  unfold fallbackTitle.
  repeat match goal with |- context [if ?b then _ else _] => destruct b end; reflexivity.
Qed.

Lemma fallbackTitle_table l : fallbackTitle l = lookupTitle keywordTable l.
Proof. reflexivity. Qed.

Lemma lookupTitle_default table l :
  (forall e, In e table -> fst e l = false) -> lookupTitle table l = "Intern".
Proof.
  induction table as [|[test t] table IH]; intros K; [reflexivity|].
  simpl. pose proof (K (test, t) (or_introl eq_refl)) as E. simpl in E. rewrite E.
  apply IH. intros e I. apply K. right. exact I.
Qed.

(** The title of a document in which some pattern matches. *)
Lemma extractTitle_matched jd mt :
  firstMatch jd titlePatterns = Some mt ->
  exists c, at_ mt 1 = Some c /\ isEmpty (formatTitle c) = false /\
            extractTitle jd = Some (formatTitle c).
Proof.
  intros F. destruct (firstMatch_in jd titlePatterns mt F) as (p & I & M).
  destruct (title_capture jd p mt I M) as (c & C & N).
  exists c. split; [exact C|]. pose proof (formatTitle_nonEmpty c N) as E.
  split; [exact E|].
  unfold extractTitle, patternTitle. rewrite F, C, E. reflexivity.
Qed.

Lemma extractTitle_unmatched jd :
  firstMatch jd titlePatterns = None ->
  extractTitle jd = Some (fallbackTitle (toLowerCase jd)).
Proof. intros F. unfold extractTitle, patternTitle. rewrite F. reflexivity. Qed.

(** The title extraction never throws and never returns the empty title. *)
Lemma extractTitle_total jd : exists t, extractTitle jd = Some t /\ isEmpty t = false.
Proof.
  destruct (firstMatch jd titlePatterns) as [mt|] eqn:F.
  - destruct (extractTitle_matched jd mt F) as (c & _ & E & T). eauto.
  - rewrite (extractTitle_unmatched jd F). eexists. split; [reflexivity|].
    apply fallbackTitle_nonEmpty.
Qed.

(** **** Location *)

(** The location of a document in which the remote pattern is the first
    one to match. *)
Lemma extractLocation_remote jd mt :
  match_ jd locationPattern1 = None -> match_ jd locationPattern2 = None ->
  match_ jd locationPattern3 = Some mt ->
  extractLocation jd =
  if includes (whole mt) "remote" || includes (whole mt) "wfh" then "Remote" else "".
Proof.
  intros N1 N2 M. unfold extractLocation, locationPatterns. simpl firstMatch.
  rewrite N1, N2, M. unfold locationOf.
  destruct (includes (whole mt) "remote" || includes (whole mt) "wfh"); [reflexivity|].
  assert (C : at_ mt 1 = None)
    by exact (RegExpFacts.match_no_group jd locationPattern3 1 mt M eq_refl).
  rewrite C. reflexivity.
Qed.

(** **** Intake *)

Lemma intake_capture jd p mt :
  In p intakePatterns -> match_ jd p = Some mt ->
  exists c, at_ mt 1 = Some c /\ allDigits c = true /\ isEmpty c = false.
Proof.
  intros I M.
  assert (D : defines 1 (source p) = true).
  { destruct I as [E|[E|[E|[]]]]; subst p; reflexivity. }
  destruct (RegExpFacts.match_capture jd p 1 mt M D) as (c & C & b & B & L).
  exists c. split; [exact C|].
  destruct I as [E|[E|[E|[]]]]; subst p; simpl in B; destruct B as [B|[]]; subst b;
    exact (RegExpFacts.plus_digit_lang _ c L).
Qed.

(** The intake left by the loop is an integer, at least 1. *)
Lemma rawIntake_positive jd : exists z, rawIntake jd = Some (Int z) /\ (1 <= z)%Z.
Proof.
  unfold rawIntake. destruct (firstMatch jd intakePatterns) as [mt|] eqn:F.
  - destruct (firstMatch_in jd intakePatterns mt F) as (p & I & M).
    destruct (intake_capture jd p mt I M) as (c & C & A & N). rewrite C.
    destruct (StringFacts.parseInt_digits c A N) as (z & P & Z0). rewrite P.
    unfold orElse, truthy. destruct (z =? 0)%Z eqn:E; simpl.
    + exists 1%Z. split; [reflexivity|lia].
    + exists z. apply Z.eqb_neq in E. split; [reflexivity|lia].
  - exists 1%Z. split; [reflexivity|lia].
Qed.

Lemma extractIntake_range jd :
  exists z, extractIntake jd = Some (Int z) /\ (1 <= z <= 100)%Z.
Proof.
  destruct (rawIntake_positive jd) as (z & R & Z1).
  exists (Z.min z 100). unfold extractIntake. rewrite R. simpl. split; [reflexivity|lia].
Qed.

(** **** Stipend *)

Lemma stipend_capture jd p mt :
  In p stipendPatterns -> match_ jd p = Some mt -> exists c, at_ mt 1 = Some c.
Proof.
  intros I M.
  assert (D : defines 1 (source p) = true).
  { destruct I as [E|[E|[]]]; subst p; reflexivity. }
  destruct (RegExpFacts.match_capture jd p 1 mt M D) as (c & C & _). eauto.
Qed.

Lemma extractStipend_total jd : exists s, extractStipend jd = Some s.
Proof.
  unfold extractStipend. destruct (firstMatch jd stipendPatterns) as [mt|] eqn:F.
  - destruct (firstMatch_in jd stipendPatterns mt F) as (p & I & M).
    destruct (stipend_capture jd p mt I M) as (c & C). rewrite C. eauto.
  - eauto.
Qed.

(** **** Skills *)

Lemma arrayIncludes_In l x : arrayIncludes l x = true <-> In x l.
Proof.
  unfold arrayIncludes. rewrite existsb_exists. split.
  - intros (y & I & E). apply String.eqb_eq in E. subst y. exact I.
  - intros I. exists x. split; [exact I|apply String.eqb_refl].
Qed.

Lemma arrayIncludes_absent l x : ~ In x l -> arrayIncludes l x = false.
Proof.
  intros N. destruct (arrayIncludes l x) eqn:E; [|reflexivity].
  apply arrayIncludes_In in E. contradiction.
Qed.

(** The formatted names of the vocabulary are pairwise different, so the
    duplicate test of the scan never fires. *)
Lemma formatted_vocabulary_NoDup : NoDup (map formatSkill SKILL_KEYWORDS).
Proof.
  assert (E : nodup string_dec (map formatSkill SKILL_KEYWORDS) = map formatSkill SKILL_KEYWORDS)
    by (vm_compute; reflexivity).
  rewrite <- E. apply NoDup_nodup.
Qed.

(** The scan over any keyword list whose formatted names are new and
    pairwise different appends the occurring ones in order. *)
Lemma scan_appends l ks : forall acc,
  NoDup (map formatSkill ks) ->
  (forall k, In k ks -> ~ In (formatSkill k) acc) ->
  fold_left (skillStep l) ks acc =
  acc ++ map formatSkill (filter (fun k => includes l (toLowerCase k)) ks).
Proof.
  induction ks as [|k ks IH]; intros acc N F; simpl.
  - symmetry. apply app_nil_r.
  - inversion N as [|x xs Nk Nks]; subst.
    unfold skillStep at 2. destruct (includes l (toLowerCase k)).
    + rewrite (arrayIncludes_absent acc (formatSkill k) (F k (or_introl eq_refl))). simpl.
      rewrite IH; [rewrite <- app_assoc; reflexivity|exact Nks|].
      intros k' I' H. apply in_app_iff in H. destruct H as [H|[H|[]]].
      * exact (F k' (or_intror I') H).
      * apply Nk. rewrite H. apply in_map. exact I'.
    + apply IH; [exact Nks|]. intros k' I'. apply F. right. exact I'.
Qed.

Lemma scanSkills_occurring l : scanSkills l = occurringSkills l.
Proof.
  unfold scanSkills, occurringSkills.
  rewrite (scan_appends l SKILL_KEYWORDS [] formatted_vocabulary_NoDup); [reflexivity|].
  intros k _ [].
Qed.

Lemma NoDup_map_filter {A B : Type} (f : A -> B) (p : A -> bool) l :
  NoDup (map f l) -> NoDup (map f (filter p l)).
Proof.
  induction l as [|a l IH]; simpl; intros N; [constructor|].
  inversion N as [|x xs Na Nl]; subst.
  destruct (p a); simpl; [|exact (IH Nl)].
  constructor; [|exact (IH Nl)].
  intros H. apply Na. apply in_map_iff in H. destruct H as (y & E & I).
  apply filter_In in I. rewrite <- E. apply in_map. exact (proj1 I).
Qed.

Lemma In_firstn {A : Type} (x : A) n : forall l, In x (firstn n l) -> In x l.
Proof.
  induction n as [|n IH]; intros [|a l]; simpl; try tauto.
  intros [H|H]; [left; exact H|right; exact (IH l H)].
Qed.

Lemma NoDup_firstn_list {A : Type} n : forall l : list A, NoDup l -> NoDup (firstn n l).
Proof.
  induction n as [|n IH]; intros [|a l] N; simpl; try constructor.
  - inversion N; subst. intros H. apply In_firstn in H. contradiction.
  - inversion N; subst. apply IH. assumption.
Qed.

Lemma occurringSkills_NoDup l : NoDup (occurringSkills l).
Proof. apply NoDup_map_filter, formatted_vocabulary_NoDup. Qed.

(** The analysis never throws. *)
Lemma analyzeJobDescription_total jd :
  exists t n s,
    extractTitle jd = Some t /\ extractIntake jd = Some n /\ extractStipend jd = Some s /\
    analyzeJobDescription jd =
      Some {| title := t; skills := extractSkills jd; location := extractLocation jd;
              intake := n; stipend := s; perks := extractPerks jd |}.
Proof.
  destruct (extractTitle_total jd) as (t & T & _).
  destruct (extractIntake_range jd) as (z & N & _).
  destruct (extractStipend_total jd) as (s & S).
  exists t, (Int z), s. unfold analyzeJobDescription. rewrite T, N, S. auto.
Qed.

(** The analysis of the sample advertisement. *)
Example scenario_analysis :
  analyzeJobDescription Samples.scenario =
  Some {| title := "Frontend Developer Intern";
          skills := ["React"; "Typescript"; "CSS"];
          location := "Bangalore";
          intake := Int 2;
          stipend := Some (Int 15000);
          perks := Some "Certificate, Letter of Recommendation, Flexible" |}.
Proof. vm_compute. reflexivity. Qed.

End ExtractorFacts.

(** ** Facts about the form *)

Module FormFacts.
Import JS CreateJob.

(** Case analysis on every test of [applyResult]. *)
Ltac merge_cases r :=
  unfold applyResult;
  destruct (nonEmpty (Extractor.title r)),
    (0 <? List.length (Extractor.skills r))%nat,
    (nonEmpty (Extractor.location r)), (truthy (Extractor.intake r)),
    (Extractor.stipend r) as [?n|], (Extractor.perks r) as [?p|];
  repeat match goal with
         | |- context [truthy ?n] => destruct (truthy n)
         | |- context [nonEmpty ?p] => destruct (nonEmpty p)
         end;
  try reflexivity.

Lemma applyResult_title r f :
  title (applyResult r f) =
  if nonEmpty (Extractor.title r) then Extractor.title r else title f.
Proof. merge_cases r. Qed.

Lemma applyResult_titleSuggested r f :
  titleSuggested (applyResult r f) =
  if nonEmpty (Extractor.title r) then true else titleSuggested f.
Proof. merge_cases r. Qed.

Lemma applyResult_skills r f :
  skills (applyResult r f) =
  if (0 <? List.length (Extractor.skills r))%nat then Extractor.skills r else skills f.
Proof. merge_cases r. Qed.

Lemma applyResult_location r f :
  locationLabel (applyResult r f) =
  if nonEmpty (Extractor.location r) then Extractor.location r else locationLabel f.
Proof. merge_cases r. Qed.

Lemma applyResult_intake r f :
  intake (applyResult r f) =
  if truthy (Extractor.intake r) then numberToString (Extractor.intake r) else intake f.
Proof. merge_cases r. Qed.

Lemma applyResult_intakeSuggested r f :
  intakeSuggested (applyResult r f) =
  if truthy (Extractor.intake r) then true else intakeSuggested f.
Proof. merge_cases r. Qed.

Lemma applyResult_stipend r f :
  stipend (applyResult r f) =
  match Extractor.stipend r with
  | Some n => if truthy n then numberToString n else stipend f
  | None => stipend f
  end.
Proof. merge_cases r. Qed.

Lemma applyResult_perks r f :
  perks (applyResult r f) =
  match Extractor.perks r with
  | Some p => if nonEmpty p then p else perks f
  | None => perks f
  end.
Proof. merge_cases r. Qed.

Lemma applyResult_skillsSuggested r f :
  skillsSuggested (applyResult r f) =
  if (0 <? List.length (Extractor.skills r))%nat then true else skillsSuggested f.
Proof. merge_cases r. Qed.

Lemma applyResult_locationSuggested r f :
  locationSuggested (applyResult r f) =
  if nonEmpty (Extractor.location r) then true else locationSuggested f.
Proof. merge_cases r. Qed.

Lemma applyResult_stipendSuggested r f :
  stipendSuggested (applyResult r f) =
  match Extractor.stipend r with
  | Some n => if truthy n then true else stipendSuggested f
  | None => stipendSuggested f
  end.
Proof. merge_cases r. Qed.

Lemma applyResult_perksSuggested r f :
  perksSuggested (applyResult r f) =
  match Extractor.perks r with
  | Some p => if nonEmpty p then true else perksSuggested f
  | None => perksSuggested f
  end.
Proof. merge_cases r. Qed.

Lemma applyResult_hasAnalyzed r f : hasAnalyzed (applyResult r f) = true.
Proof. merge_cases r. Qed.

(** The cells the merge does not write. *)
Lemma applyResult_untouched r f :
  jobDescription (applyResult r f) = jobDescription f /\
  isAnalyzing (applyResult r f) = isAnalyzing f /\
  skillInput (applyResult r f) = skillInput f /\
  error (applyResult r f) = error f.
Proof. merge_cases r; repeat split; reflexivity. Qed.

(** Two states with the same cells are equal. *)
Lemma state_ext (f g : state) :
  jobDescription f = jobDescription g -> isAnalyzing f = isAnalyzing g ->
  hasAnalyzed f = hasAnalyzed g ->
  title f = title g -> titleSuggested f = titleSuggested g ->
  skillInput f = skillInput g ->
  skills f = skills g -> skillsSuggested f = skillsSuggested g ->
  locationLabel f = locationLabel g -> locationSuggested f = locationSuggested g ->
  intake f = intake g -> intakeSuggested f = intakeSuggested g ->
  stipend f = stipend g -> stipendSuggested f = stipendSuggested g ->
  perks f = perks g -> perksSuggested f = perksSuggested g ->
  error f = error g -> f = g.
Proof. destruct f, g; simpl; intros; subst; reflexivity. Qed.

Lemma applyResult_twice r f : applyResult r (applyResult r f) = applyResult r f.
Proof.
  destruct (applyResult_untouched r f) as (U1 & U2 & U3 & U4).
  destruct (applyResult_untouched r (applyResult r f)) as (V1 & V2 & V3 & V4).
  apply state_ext; try congruence;
    rewrite ?applyResult_hasAnalyzed; try reflexivity;
    rewrite ?applyResult_title, ?applyResult_titleSuggested, ?applyResult_skills,
      ?applyResult_skillsSuggested, ?applyResult_location, ?applyResult_locationSuggested,
      ?applyResult_intake, ?applyResult_intakeSuggested, ?applyResult_stipend,
      ?applyResult_stipendSuggested, ?applyResult_perks, ?applyResult_perksSuggested;
    repeat match goal with
           | |- context [if ?b then _ else _] => destruct b
           | |- context [match ?o with Some _ => _ | None => _ end] => destruct o
           end; reflexivity.
Qed.

(** [submitError] reports the head of [violatedRules]. *)
Lemma submitError_first f : submitError f = hd_error (violatedRules f).
Proof.
  unfold submitError, violatedRules, docRule, titleRule, skillsRule, locationRule,
    intakeRule, report.
  destruct (isEmpty (trim (jobDescription f)) || (String.length (jobDescription f) <? 100)%nat);
    [reflexivity|].
  destruct (isEmpty (trim (title f))); [reflexivity|].
  destruct (List.length (skills f) =? 0)%nat; [reflexivity|].
  destruct (isEmpty (trim (locationLabel f))); [reflexivity|].
  simpl.
  destruct (isNaN (parseInt (intake f)) || lessThan (parseInt (intake f)) (Int 1));
    reflexivity.
Qed.

Lemma submitError_doc f :
  submitError f = Some docMessage <-> docRule f = true.
Proof.
  unfold submitError, docRule.
  destruct (isEmpty (trim (jobDescription f)) || (String.length (jobDescription f) <? 100)%nat).
  - split; reflexivity.
  - split; [|discriminate].
    destruct (isEmpty (trim (title f))); [discriminate|].
    destruct (List.length (skills f) =? 0)%nat; [discriminate|].
    destruct (isEmpty (trim (locationLabel f))); [discriminate|].
    simpl.
    destruct (isNaN (parseInt (intake f)) || lessThan (parseInt (intake f)) (Int 1));
      discriminate.
Qed.

End FormFacts.

(** ** The claims about the form *)

Import JS CreateJob.

(** C1 as stated fails: the title typed by the user after a first analysis
    ("Lead Designer") is replaced when the same document is analysed again,
    and the field is flagged as suggested once more. *)
Lemma C1_counterexample :
  title Samples.retitled = "Lead Designer" /\
  titleSuggested Samples.retitled = false /\
  title (handleAnalyzeJD Samples.retitled) = "Frontend Developer Intern" /\
  title (handleAnalyzeJD Samples.retitled) <> title Samples.retitled /\
  titleSuggested (handleAnalyzeJD Samples.retitled) = true.
Proof. vm_compute. repeat split; try reflexivity. discriminate. Qed.

(** C1 (amended): after a user edit of a field, applying an extraction
    result leaves that field's value and flag unchanged only when the result
    carries no truthy value for it; otherwise the field takes the result's
    value, a number as its decimal text, and is flagged AI-suggested again.
    The edits are the [onChange] handlers of title, location, intake,
    stipend and perks and, for skills, [handleAddSkill] and
    [handleRemoveSkill].  The result's numbers are taken in the range the
    code prints in decimal. *)
Theorem C1_merge_overwrites_edited_fields :
  forall (r : Extractor.JDAnalysisResult) (f : state) (v : string),
    Shapes.printable r ->
    (title (applyResult r (onTitleChange v f)) =
       (if nonEmpty (Extractor.title r) then Extractor.title r else v) /\
     titleSuggested (applyResult r (onTitleChange v f)) =
       nonEmpty (Extractor.title r)) /\
    (locationLabel (applyResult r (onLocationChange v f)) =
       (if nonEmpty (Extractor.location r) then Extractor.location r else v) /\
     locationSuggested (applyResult r (onLocationChange v f)) =
       nonEmpty (Extractor.location r)) /\
    (intake (applyResult r (onIntakeChange v f)) =
       (if truthy (Extractor.intake r) then numberToString (Extractor.intake r) else v) /\
     intakeSuggested (applyResult r (onIntakeChange v f)) =
       truthy (Extractor.intake r)) /\
    (stipend (applyResult r (onStipendChange v f)) =
       match Extractor.stipend r with
       | Some n => if truthy n then numberToString n else v
       | None => v
       end /\
     stipendSuggested (applyResult r (onStipendChange v f)) =
       match Extractor.stipend r with
       | Some n => truthy n
       | None => false
       end) /\
    (perks (applyResult r (onPerksChange v f)) =
       match Extractor.perks r with
       | Some p => if nonEmpty p then p else v
       | None => v
       end /\
     perksSuggested (applyResult r (onPerksChange v f)) =
       match Extractor.perks r with
       | Some p => nonEmpty p
       | None => false
       end) /\
    (skills (applyResult r (handleAddSkill f)) =
       (if (0 <? List.length (Extractor.skills r))%nat then Extractor.skills r
        else skills (handleAddSkill f)) /\
     skillsSuggested (applyResult r (handleAddSkill f)) =
       (if (0 <? List.length (Extractor.skills r))%nat then true
        else skillsSuggested (handleAddSkill f))) /\
    (skills (applyResult r (handleRemoveSkill v f)) =
       (if (0 <? List.length (Extractor.skills r))%nat then Extractor.skills r
        else skills (handleRemoveSkill v f)) /\
     skillsSuggested (applyResult r (handleRemoveSkill v f)) =
       (if (0 <? List.length (Extractor.skills r))%nat then true
        else skillsSuggested (handleRemoveSkill v f))).
Proof.
  intros r f v _.
  rewrite FormFacts.applyResult_title, FormFacts.applyResult_titleSuggested,
    FormFacts.applyResult_location, FormFacts.applyResult_locationSuggested,
    FormFacts.applyResult_intake, FormFacts.applyResult_intakeSuggested,
    FormFacts.applyResult_stipend, FormFacts.applyResult_stipendSuggested,
    FormFacts.applyResult_perks, FormFacts.applyResult_perksSuggested,
    !FormFacts.applyResult_skills, !FormFacts.applyResult_skillsSuggested.
  change (titleSuggested (onTitleChange v f)) with false.
  change (locationSuggested (onLocationChange v f)) with false.
  change (intakeSuggested (onIntakeChange v f)) with false.
  change (stipendSuggested (onStipendChange v f)) with false.
  change (perksSuggested (onPerksChange v f)) with false.
  change (title (onTitleChange v f)) with v.
  change (locationLabel (onLocationChange v f)) with v.
  change (intake (onIntakeChange v f)) with v.
  change (stipend (onStipendChange v f)) with v.
  change (perks (onPerksChange v f)) with v.
  repeat split;
    repeat match goal with
           | |- context [if ?b then _ else _] => destruct b
           | |- context [match ?o with Some _ => _ | None => _ end] => destruct o
           end; reflexivity.
Qed.

(** C1 on the sample advertisement: the title typed by the user is replaced
    by the result's and flagged as suggested, and the intake typed by the
    user becomes the text "2". *)
Lemma C1_merge_witness :
  Shapes.printable MoreSamples.scenarioResult /\
  title (applyResult MoreSamples.scenarioResult (onTitleChange "Lead Designer" initial)) =
    "Frontend Developer Intern" /\
  titleSuggested (applyResult MoreSamples.scenarioResult
                    (onTitleChange "Lead Designer" initial)) = true /\
  intake (applyResult MoreSamples.scenarioResult (onIntakeChange "7" initial)) = "2".
Proof.
  assert (P : Shapes.printable MoreSamples.scenarioResult).
  { split; [simpl; lia|]. intros n E. inversion E; subst n. simpl. lia. }
  split; [exact P|].
  pose proof (C1_merge_overwrites_edited_fields MoreSamples.scenarioResult initial
                "Lead Designer" P) as T.
  pose proof (C1_merge_overwrites_edited_fields MoreSamples.scenarioResult initial
                "7" P) as I.
  destruct T as ((T1 & T2) & _). destruct I as (_ & _ & (I1 & _) & _).
  split; [exact T1|]. split; [exact T2|exact I1].
Defined.

(** C9: applying an extraction result twice in a row gives the same form,
    values and flags, as applying it once.  It holds from every form state,
    so from every state without a user-confirmed field. *)
Theorem C9_applyResult_idempotent :
  forall (r : Extractor.JDAnalysisResult) (f : state),
    applyResult r (applyResult r f) = applyResult r f.
Proof.
  intros r f. apply FormFacts.applyResult_twice.
Qed.

(** [handleSubmit] run on any form state stops at the first rule that is
    broken, in the order document, title, skills, location, intake, and
    shows its message; with no rule broken it builds the payload and the
    error stays empty. *)
Lemma handleSubmit_first_rule :
  forall f : state,
    match violatedRules f with
    | first :: _ =>
        error (fst (handleSubmit f)) = first /\ snd (handleSubmit f) = None
    | [] =>
        error (fst (handleSubmit f)) = EmptyString /\ snd (handleSubmit f) <> None
    end.
Proof.
  intros f.
  assert (E : violatedRules (setError "" f) = violatedRules f) by reflexivity.
  unfold handleSubmit.
  rewrite FormFacts.submitError_first, E.
  destruct (violatedRules f) as [|m ms]; simpl; split; try reflexivity; discriminate.
Qed.

(** While the submit button is enabled the document, title, skills and
    location rules hold: only the intake rule can be broken. *)
Lemma enabled_rules isLoading f :
  Controls.submitDisabled isLoading f = false ->
  violatedRules f = report (intakeRule f) intakeMessage.
Proof.
  unfold Controls.submitDisabled. intros H.
  repeat (apply orb_false_iff in H; destruct H as [H ?]).
  unfold violatedRules, docRule, titleRule, skillsRule, locationRule.
  repeat match goal with E : _ = false |- _ => rewrite E; clear E end.
  reflexivity.
Qed.



(** [handleSubmit] run on the form of the validation scenario, on which the
    submit button is disabled: all five rules are broken and the error is
    the document message. *)
Lemma handleSubmit_all_rules_broken :
  Controls.submitDisabled false Samples.allWrong = true /\
  String.length (jobDescription Samples.allWrong) = 50%nat /\
  violatedRules Samples.allWrong =
    [docMessage; titleMessage; skillsMessage; locationMessage; intakeMessage] /\
  error (fst (handleSubmit Samples.allWrong)) = docMessage.
Proof. vm_compute. repeat split; reflexivity. Qed.

(** C4 as stated fails: a document of a hundred code units that trims to
    fifteen passes the length check, and the form holding it is submitted. *)
Lemma C4_counterexample :
  String.length (jobDescription Samples.paddedForm) = 100%nat /\
  String.length (trim (jobDescription Samples.paddedForm)) = 15%nat /\
  docRule Samples.paddedForm = false /\
  submitError Samples.paddedForm = None.
Proof. vm_compute. repeat split; reflexivity. Qed.

(** C4 (amended): the submission is refused with the document message
    exactly when the document trims to nothing or its untrimmed length is
    below 100.  So a document whose trimmed length is at least 100 is never
    refused for its length, and a document of untrimmed length at least 100
    with some non-blank text is not refused for it either, whatever its
    trimmed length. *)
Theorem C4_document_check :
  forall f : state,
    (submitError f = Some docMessage <->
       trim (jobDescription f) = EmptyString \/
       (String.length (jobDescription f) < 100)%nat) /\
    ((100 <= String.length (trim (jobDescription f)))%nat ->
       submitError f <> Some docMessage) /\
    ((100 <= String.length (jobDescription f))%nat ->
       trim (jobDescription f) <> EmptyString ->
       submitError f <> Some docMessage).
Proof.
  intros f.
  assert (K : submitError f = Some docMessage <->
              trim (jobDescription f) = EmptyString \/
              (String.length (jobDescription f) < 100)%nat).
  { rewrite FormFacts.submitError_doc. unfold docRule.
    rewrite orb_true_iff, StringFacts.isEmpty_true, Nat.ltb_lt. reflexivity. }
  split; [exact K|]. split.
  - intros H E. apply K in E. pose proof (StringFacts.trim_length (jobDescription f)).
    destruct E as [E|E]; [rewrite E in H; simpl in H|]; lia.
  - intros H N E. apply K in E. destruct E as [E|E]; [contradiction|lia].
Qed.

(** C4 on the padded document: a hundred code units, fifteen after
    trimming, and the document message is not raised. *)
Lemma C4_padded_witness :
  (100 <= String.length (jobDescription Samples.paddedForm))%nat /\
  trim (jobDescription Samples.paddedForm) = "Interns wanted." /\
  submitError Samples.paddedForm <> Some docMessage.
Proof.
  assert (L : (100 <= String.length (jobDescription Samples.paddedForm))%nat)
    by (vm_compute; apply le_n).
  assert (T : trim (jobDescription Samples.paddedForm) = "Interns wanted.")
    by (vm_compute; reflexivity).
  split; [exact L|]. split; [exact T|].
  refine (proj2 (proj2 (C4_document_check Samples.paddedForm)) L _).
  rewrite T. discriminate.
Defined.

(** ** The claims about the extractor *)

Import RegExp.

(** C6: the intake of every analysis result is an integer from 1 to 100; a
    count above 100 is brought down to 100 ("150 positions available" gives
    100) and a document in which no intake pattern matches gives 1. *)
Theorem C6_intake_between_1_and_100 :
  (forall jd, exists r z,
      Extractor.analyzeJobDescription jd = Some r /\
      Extractor.intake r = Int z /\ (1 <= z <= 100)%Z) /\
  (forall jd mt c z,
      Extractor.firstMatch jd Extractor.intakePatterns = Some mt ->
      at_ mt 1 = Some c -> parseInt c = Int z -> (100 < z)%Z ->
      Extractor.extractIntake jd = Some (Int 100)) /\
  (forall jd,
      (forall p, In p Extractor.intakePatterns -> match_ jd p = None) ->
      Extractor.extractIntake jd = Some (Int 1)) /\
  Extractor.extractIntake "150 positions available" = Some (Int 100) /\
  Extractor.extractIntake "Join our friendly team" = Some (Int 1).
Proof.
  split; [|split; [|split; [|split]]].
  - intros jd.
    destruct (ExtractorFacts.analyzeJobDescription_total jd) as (t & n & s & _ & N & _ & A).
    destruct (ExtractorFacts.extractIntake_range jd) as (z & N' & R).
    rewrite N' in N. inversion N; subst n.
    eexists; exists z. split; [exact A|]. split; [reflexivity|exact R].
  - intros jd mt c z F C P Z.
    unfold Extractor.extractIntake, Extractor.rawIntake. rewrite F, C, P.
    unfold orElse, truthy. destruct (Z.eqb_spec z 0); [lia|]. simpl.
    rewrite Z.min_r by lia. reflexivity.
  - intros jd N.
    unfold Extractor.extractIntake, Extractor.rawIntake.
    rewrite (ExtractorFacts.firstMatch_none jd _ N). reflexivity.
  - vm_compute. reflexivity.
  - vm_compute. reflexivity.
Qed.

(** C6 on "150 positions available": the first intake pattern matches, its
    capture reads 150 and the intake is 100. *)
Lemma C6_clamped_witness :
  Extractor.firstMatch "150 positions available" Extractor.intakePatterns =
    Some {| whole := "150 positions"; captures := [(1, Some "150")] |} /\
  parseInt "150" = Int 150 /\
  Extractor.extractIntake "150 positions available" = Some (Int 100).
Proof.
  assert (F : Extractor.firstMatch "150 positions available" Extractor.intakePatterns =
              Some {| whole := "150 positions"; captures := [(1, Some "150")] |})
    by (vm_compute; reflexivity).
  assert (P : parseInt "150" = Int 150) by (vm_compute; reflexivity).
  split; [exact F|]. split; [exact P|].
  exact (proj1 (proj2 C6_intake_between_1_and_100) _ _ "150" 150%Z F eq_refl P
           ltac:(reflexivity)).
Defined.

(** C7: the skill list of every document is the first ten of the vocabulary
    entries that occur in it, in vocabulary order; it has at most ten
    entries and no duplicate, and exactly ten when ten or more entries
    occur, however often a skill is written. *)
Theorem C7_skills_capped_distinct_ordered :
  forall jd,
    Extractor.extractSkills jd =
      firstn 10 (Extractor.occurringSkills (toLowerCase jd)) /\
    (List.length (Extractor.extractSkills jd) <= 10)%nat /\
    NoDup (Extractor.extractSkills jd) /\
    ((10 <= List.length (Extractor.occurringSkills (toLowerCase jd)))%nat ->
     List.length (Extractor.extractSkills jd) = 10%nat).
Proof.
  intros jd.
  assert (E : Extractor.extractSkills jd =
              firstn 10 (Extractor.occurringSkills (toLowerCase jd))).
  { unfold Extractor.extractSkills. rewrite ExtractorFacts.scanSkills_occurring. reflexivity. }
  rewrite E. split; [reflexivity|]. split; [apply firstn_le_length|]. split.
  - apply ExtractorFacts.NoDup_firstn_list, ExtractorFacts.occurringSkills_NoDup.
  - intros H. apply firstn_length_le. exact H.
Qed.

(** C7 on a document that names fifteen vocabulary skills, the first of
    them three times: the first ten in vocabulary order come out. *)
Lemma C7_fifteen_skills :
  List.length (Extractor.occurringSkills (toLowerCase Samples.fifteenSkills)) = 15%nat /\
  Extractor.extractSkills Samples.fifteenSkills =
    ["React"; "Angular"; "Vue"; "Typescript"; "Python"; "Express"; "Mongodb"; "Docker";
     "Kubernetes"; "Figma"].
Proof.
  split.
  - vm_compute. reflexivity.
  - destruct (C7_skills_capped_distinct_ordered Samples.fifteenSkills) as (E & _).
    rewrite E. vm_compute. reflexivity.
Defined.

(** C8: the title comes from the first pattern of the declared list that
    matches, whatever the later patterns do; when none matches it is the
    first entry of the keyword table whose test holds, and ["Intern"] when
    no test holds. *)
Theorem C8_title_first_pattern_wins :
  forall jd,
    (forall before p after mt,
        Extractor.titlePatterns = before ++ p :: after ->
        (forall q, In q before -> match_ jd q = None) ->
        match_ jd p = Some mt ->
        exists c, at_ mt 1 = Some c /\
                  Extractor.extractTitle jd = Some (Extractor.formatTitle c)) /\
    ((forall q, In q Extractor.titlePatterns -> match_ jd q = None) ->
     Extractor.extractTitle jd =
       Some (Extractor.lookupTitle Extractor.keywordTable (toLowerCase jd))) /\
    ((forall q, In q Extractor.titlePatterns -> match_ jd q = None) ->
     (forall e, In e Extractor.keywordTable -> fst e (toLowerCase jd) = false) ->
     Extractor.extractTitle jd = Some "Intern").
Proof.
  intros jd. split; [|split].
  - intros before p after mt E N M.
    assert (F : Extractor.firstMatch jd Extractor.titlePatterns = Some mt).
    { rewrite E. apply ExtractorFacts.firstMatch_first; assumption. }
    destruct (ExtractorFacts.extractTitle_matched jd mt F) as (c & C & _ & T). eauto.
  - intros N.
    rewrite (ExtractorFacts.extractTitle_unmatched jd (ExtractorFacts.firstMatch_none jd _ N)).
    rewrite ExtractorFacts.fallbackTitle_table. reflexivity.
  - intros N K.
    rewrite (ExtractorFacts.extractTitle_unmatched jd (ExtractorFacts.firstMatch_none jd _ N)).
    rewrite ExtractorFacts.fallbackTitle_table.
    rewrite (ExtractorFacts.lookupTitle_default _ _ K). reflexivity.
Qed.

(** C8 on a document that matches the first two patterns, the second one
    earlier in the text: the title is the first pattern's. *)
Lemma C8_two_patterns_witness :
  match_ Samples.twoTitles Extractor.titlePattern2 =
    Some {| whole := "Role: Data Analyst"; captures := [(1, Some "Data Analyst")] |} /\
  Extractor.extractTitle Samples.twoTitles = Some "Backend Developer".
Proof.
  split; [vm_compute; reflexivity|].
  destruct (proj1 (C8_title_first_pattern_wins Samples.twoTitles)
              [] Extractor.titlePattern1
              [Extractor.titlePattern2; Extractor.titlePattern3]
              {| whole := "hiring a Backend Developer";
                 captures := [(1, Some "Backend Developer")] |}
              eq_refl (fun q (H : In q []) => match H with end)
              ltac:(vm_compute; reflexivity)) as (c & C & T).
  rewrite T. injection C as C. subst c. vm_compute. reflexivity.
Defined.

(** C10: every analysis returns a result whose title is not empty and whose
    intake is an integer of at least 1, so the merge writes the title and
    the intake of every result into the form and flags both as suggested. *)
Theorem C10_title_and_intake_always_merged :
  forall jd, exists r,
    Extractor.analyzeJobDescription jd = Some r /\
    isEmpty (Extractor.title r) = false /\
    (exists z, Extractor.intake r = Int z /\ (1 <= z)%Z) /\
    forall f,
      title (applyResult r f) = Extractor.title r /\
      titleSuggested (applyResult r f) = true /\
      intake (applyResult r f) = numberToString (Extractor.intake r) /\
      intakeSuggested (applyResult r f) = true.
Proof.
  intros jd.
  destruct (ExtractorFacts.analyzeJobDescription_total jd) as (t & n & s & T & N & _ & A).
  destruct (ExtractorFacts.extractTitle_total jd) as (t' & T' & E).
  destruct (ExtractorFacts.extractIntake_range jd) as (z & N' & R).
  rewrite T' in T. inversion T; subst t'. rewrite N' in N. inversion N; subst n.
  eexists. split; [exact A|]. split; [exact E|]. split.
  - exists z. split; [reflexivity|lia].
  - intros f.
    rewrite FormFacts.applyResult_title, FormFacts.applyResult_titleSuggested,
      FormFacts.applyResult_intake, FormFacts.applyResult_intakeSuggested.
    cbn [Extractor.title Extractor.intake truthy].
    unfold nonEmpty. rewrite E. destruct (Z.eqb_spec z 0); [lia|].
    repeat split; reflexivity.
Qed.

(** C5 on the code: "stipend: 15k per month" gives 15000 and a document in
    which no stipend pattern matches gives an undefined stipend, but in
    "stipend: 15000" the first alternative of the amount group stops after
    three digits, the match is "stipend: 150" and the stipend is 150. *)
Theorem C5_stipend_plain_digits :
  Extractor.extractStipend "stipend: 15k per month" = Some (Some (Int 15000)) /\
  (forall jd, (forall p, In p Extractor.stipendPatterns -> match_ jd p = None) ->
              Extractor.extractStipend jd = Some None) /\
  Extractor.extractStipend "stipend: 15,000" = Some (Some (Int 15000)) /\
  match_ "stipend: 15000" Extractor.stipendPattern1 =
    Some {| whole := "stipend: 150"; captures := [(1, Some "150")] |} /\
  Extractor.extractStipend "stipend: 15000" = Some (Some (Int 150)) /\
  Extractor.extractStipend Samples.plainStipendAd = Some (Some (Int 150)) /\
  stipend (handleAnalyzeJD (onJobDescriptionChange Samples.plainStipendAd initial)) = "150".
Proof.
  split; [vm_compute; reflexivity|]. split.
  - intros jd N. unfold Extractor.extractStipend.
    rewrite (ExtractorFacts.firstMatch_none jd _ N). reflexivity.
  - repeat split; vm_compute; reflexivity.
Qed.

(** C3 on the code: the remote pattern matches whatever the casing, but the
    test that turns the match into "Remote" looks for the lower-case words
    "remote" and "wfh" in the matched text; when the remote pattern is the
    first to match, the location is "Remote" if the matched text contains
    one of them and empty otherwise.  So "remote" gives "Remote", while
    "Remote", "WFH" and "work from home" give the empty location.  A city
    gives its title-cased name. *)
Theorem C3_remote_detector_casing :
  (forall jd mt,
      match_ jd Extractor.locationPattern1 = None ->
      match_ jd Extractor.locationPattern2 = None ->
      match_ jd Extractor.locationPattern3 = Some mt ->
      Extractor.extractLocation jd =
      if includes (whole mt) "remote" || includes (whole mt) "wfh"
      then "Remote" else "") /\
  Extractor.extractLocation "This internship is remote" = "Remote" /\
  Extractor.firstMatch "This internship is Remote" Extractor.locationPatterns =
    Some {| whole := "Remote"; captures := [] |} /\
  Extractor.extractLocation "This internship is Remote" = "" /\
  Extractor.firstMatch "WFH allowed" Extractor.locationPatterns =
    Some {| whole := "WFH"; captures := [] |} /\
  Extractor.extractLocation "WFH allowed" = "" /\
  Extractor.firstMatch "You can work from home!" Extractor.locationPatterns =
    Some {| whole := "work from home"; captures := [] |} /\
  Extractor.extractLocation "You can work from home!" = "" /\
  match_ Samples.remoteAd Extractor.locationPattern1 = None /\
  match_ Samples.remoteAd Extractor.locationPattern2 = None /\
  match_ Samples.remoteAd Extractor.locationPattern3 =
    Some {| whole := "Remote"; captures := [] |} /\
  Extractor.extractLocation Samples.remoteAd = "" /\
  locationLabel (handleAnalyzeJD (onJobDescriptionChange Samples.remoteAd initial)) = "" /\
  Extractor.extractLocation "Our team sits in PUNE, India" = "Pune".
Proof.
  split; [exact ExtractorFacts.extractLocation_remote|].
  repeat split; vm_compute; reflexivity.
Qed.

(** ** More facts about strings *)

Module MoreStringFacts.
Import JS Shapes.

Lemma upperChar_blank c : isWhiteSpace (upperChar c) = isWhiteSpace c.
Proof. StringFacts.by_cases_on c. Qed.

Lemma upperChar_space c : Ascii.eqb (upperChar c) " " = Ascii.eqb c " ".
Proof. StringFacts.by_cases_on c. Qed.

Lemma space_blank c : Ascii.eqb c " " = true -> isWhiteSpace c = true.
Proof. intros H. apply Ascii.eqb_eq in H. subst c. reflexivity. Qed.

(** *** [trim] *)

Lemma trimEnd_cons_nonBlank a t :
  isWhiteSpace a = false -> trimEnd (String a t) = String a (trimEnd t).
Proof. intros W. simpl. destruct (trimEnd t); [rewrite W|]; reflexivity. Qed.

Lemma trimEnd_step c x :
  trimEnd (String c x) =
  match trimEnd x with
  | EmptyString => if isWhiteSpace c then EmptyString else String c EmptyString
  | u => String c u
  end.
Proof. reflexivity. Qed.

Lemma trimEnd_idempotent s : trimEnd (trimEnd s) = trimEnd s.
Proof.
  induction s as [|c s IH]; [reflexivity|].
  rewrite trimEnd_step. destruct (trimEnd s) as [|d t] eqn:E.
  - destruct (isWhiteSpace c) eqn:W; [reflexivity|].
    simpl. rewrite W. reflexivity.
  - rewrite trimEnd_step, IH. reflexivity.
Qed.

Lemma trimStart_shape s :
  trimStart s = EmptyString \/ startsNonBlank (trimStart s) = true.
Proof.
  induction s as [|c s IH]; [left; reflexivity|].
  simpl. destruct (isWhiteSpace c) eqn:W; [exact IH|].
  right. simpl. rewrite W. reflexivity.
Qed.

Lemma trim_shape s : trim s = EmptyString \/ startsNonBlank (trim s) = true.
Proof.
  unfold trim. destruct (trimStart_shape s) as [E|E].
  - rewrite E. left. reflexivity.
  - destruct (trimStart s) as [|a t]; [discriminate|]. simpl in E.
    apply negb_true_iff in E. rewrite (trimEnd_cons_nonBlank a t E).
    right. simpl. rewrite E. reflexivity.
Qed.

Lemma trimStart_startsNonBlank s : startsNonBlank s = true -> trimStart s = s.
Proof.
  destruct s as [|c s]; [discriminate|]. simpl. intros H.
  apply negb_true_iff in H. rewrite H. reflexivity.
Qed.

(** [trim] is idempotent. *)
Lemma trim_idempotent s : trim (trim s) = trim s.
Proof.
  destruct (trim_shape s) as [E|E].
  - rewrite E. reflexivity.
  - unfold trim at 1. rewrite (trimStart_startsNonBlank _ E).
    unfold trim. apply trimEnd_idempotent.
Qed.

Lemma wordsOnly_trimEnd s : wordsOnly s = true -> trimEnd s = s.
Proof.
  induction s as [|c s IH]; [reflexivity|].
  simpl. intros H. apply andb_true_iff in H. destruct H as [H1 H2].
  rewrite (IH H2). destruct s as [|d t]; [|reflexivity].
  destruct (isWhiteSpace c); [|reflexivity].
  rewrite andb_false_r in H1. discriminate.
Qed.

Lemma tidy_trim s : tidy s = true -> trim s = s.
Proof.
  unfold tidy. intros H. apply andb_true_iff in H. destruct H as [H1 H2].
  unfold trim. rewrite (trimStart_startsNonBlank s H1). exact (wordsOnly_trimEnd s H2).
Qed.

Lemma tidy_nonEmpty s : tidy s = true -> isEmpty s = false.
Proof. destruct s; [discriminate|reflexivity]. Qed.

(** *** [collapseBlanks] *)

Lemma wordsOnly_collapse s : wordsOnly s = true -> collapseBlanks s = s.
Proof.
  induction s as [|c s IH]; [reflexivity|].
  simpl. intros H. apply andb_true_iff in H. destruct H as [H1 H2].
  rewrite (IH H2). destruct (isWhiteSpace c); [|reflexivity].
  apply andb_true_iff in H1. destruct H1 as [S N].
  apply Ascii.eqb_eq in S. subst c.
  destruct s as [|d t]; [discriminate|].
  apply negb_true_iff in N. rewrite N. reflexivity.
Qed.

Lemma collapse_step c s :
  collapseBlanks (String c s) =
  if isWhiteSpace c then
    match s with
    | String d _ => if isWhiteSpace d then collapseBlanks s
                    else String " " (collapseBlanks s)
    | EmptyString => String " " EmptyString
    end
  else String c (collapseBlanks s).
Proof. reflexivity. Qed.

Lemma wordsOnly_step c s :
  wordsOnly (String c s) =
  (if isWhiteSpace c
   then Ascii.eqb c " " &&
        match s with
        | String d _ => negb (isWhiteSpace d)
        | EmptyString => false
        end
   else true) && wordsOnly s.
Proof. reflexivity. Qed.

Lemma collapse_head_nonBlank a t :
  isWhiteSpace a = false -> collapseBlanks (String a t) = String a (collapseBlanks t).
Proof. intros W. simpl. rewrite W. reflexivity. Qed.

(** Collapsing a text that does not end in a blank leaves single spaces
    between words. *)
Lemma collapse_wordsOnly s : trimEnd s = s -> wordsOnly (collapseBlanks s) = true.
Proof.
  induction s as [|c s IH]; [reflexivity|].
  intros T.
  assert (K : (s = EmptyString /\ isWhiteSpace c = false) \/
              (s <> EmptyString /\ trimEnd s = s)).
  { simpl in T. destruct (trimEnd s) as [|d t] eqn:E.
    - destruct (isWhiteSpace c); [discriminate|]. inversion T. left. auto.
    - injection T as T'. right. split; [intros Z; rewrite Z in T'; discriminate|exact T']. }
  destruct K as [[E W]|[N E]].
  - subst s. simpl. rewrite W. simpl. rewrite W. reflexivity.
  - specialize (IH E). destruct s as [|d t]; [contradiction|].
    rewrite (collapse_step c (String d t)). destruct (isWhiteSpace c) eqn:W.
    + destruct (isWhiteSpace d) eqn:W2; [exact IH|].
      rewrite (collapse_head_nonBlank d t W2) in *.
      rewrite wordsOnly_step. rewrite IH. simpl. rewrite W2. reflexivity.
    + rewrite wordsOnly_step, W, IH. reflexivity.
Qed.

Lemma collapse_startsNonBlank s :
  startsNonBlank s = true -> startsNonBlank (collapseBlanks s) = true.
Proof.
  destruct s as [|a t]; [discriminate|]. simpl. intros H.
  apply negb_true_iff in H. rewrite H. simpl. rewrite H. reflexivity.
Qed.

(** The normalisation [collapseBlanks (trim s)] of a text with some
    non-blank code unit is tidy. *)
Lemma normalised_tidy s :
  RegExp.hasNonBlank s = true -> tidy (collapseBlanks (trim s)) = true.
Proof.
  intros H. unfold tidy. apply andb_true_iff. split.
  - apply collapse_startsNonBlank. destruct (trim_shape s) as [E|E]; [|exact E].
    pose proof (StringFacts.trim_nonBlank s H) as N. rewrite E in N. discriminate.
  - apply collapse_wordsOnly. unfold trim. apply trimEnd_idempotent.
Qed.

(** *** Capitalising word by word *)

Lemma concat_cons_char a w l :
  String.concat " " (String a w :: l) = String a (String.concat " " (w :: l)).
Proof. destruct l; reflexivity. Qed.

Lemma capitalizeWords_space s :
  capitalizeWords (String " " s) = String " " (capitalizeWords s).
Proof.
  unfold capitalizeWords, join. simpl.
  pose proof (StringFacts.split_not_nil " "%char s) as N.
  destruct (split " " s) as [|w ws]; [contradiction|]. reflexivity.
Qed.

Lemma capitalizeTail_space s :
  capitalizeTail (String " " s) = String " " (capitalizeWords s).
Proof.
  unfold capitalizeTail, capitalizeWords, join. simpl.
  pose proof (StringFacts.split_not_nil " "%char s) as N.
  destruct (split " " s) as [|w ws]; [contradiction|]. reflexivity.
Qed.

Lemma capitalizeWords_char c s :
  Ascii.eqb c " " = false ->
  capitalizeWords (String c s) = String (upperChar c) (capitalizeTail s).
Proof.
  intros H. unfold capitalizeWords, capitalizeTail, join. cbn [split]. rewrite H.
  pose proof (StringFacts.split_not_nil " "%char s) as N.
  destruct (split " " s) as [|w ws]; [contradiction|].
  cbn [map capitalize]. apply concat_cons_char.
Qed.

Lemma capitalizeTail_char c s :
  Ascii.eqb c " " = false ->
  capitalizeTail (String c s) = String c (capitalizeTail s).
Proof.
  intros H. unfold capitalizeTail, join. cbn [split]. rewrite H.
  pose proof (StringFacts.split_not_nil " "%char s) as N.
  destruct (split " " s) as [|w ws]; [contradiction|].
  apply concat_cons_char.
Qed.

Lemma capitalized_heads s :
  startsNonBlank (capitalizeWords s) = startsNonBlank s /\
  startsNonBlank (capitalizeTail s) = startsNonBlank s.
Proof.
  destruct s as [|c s]; [split; reflexivity|].
  destruct (Ascii.eqb c " ") eqn:E.
  - apply Ascii.eqb_eq in E. subst c.
    rewrite capitalizeWords_space, capitalizeTail_space. split; reflexivity.
  - rewrite (capitalizeWords_char c s E), (capitalizeTail_char c s E).
    simpl. rewrite upperChar_blank. split; reflexivity.
Qed.

Lemma capitalized_wordsOnly s :
  wordsOnly s = true ->
  wordsOnly (capitalizeWords s) = true /\ wordsOnly (capitalizeTail s) = true.
Proof.
  induction s as [|c s IH]; [split; reflexivity|].
  rewrite wordsOnly_step. intros H. apply andb_true_iff in H. destruct H as [H1 H2].
  destruct (IH H2) as [IW IT]. destruct (capitalized_heads s) as [HW HT].
  destruct (Ascii.eqb c " ") eqn:E.
  - pose proof (space_blank c E) as W. rewrite W in H1.
    apply Ascii.eqb_eq in E. subst c.
    rewrite capitalizeWords_space, capitalizeTail_space, wordsOnly_step.
    change (isWhiteSpace " ") with true. cbv iota.
    change (startsNonBlank s = true) in H1.
    change (match capitalizeWords s with
            | String d _ => negb (isWhiteSpace d)
            | EmptyString => false
            end) with (startsNonBlank (capitalizeWords s)).
    rewrite HW, H1, IW. split; reflexivity.
  - assert (W : isWhiteSpace c = false).
    { destruct (isWhiteSpace c); [discriminate H1|reflexivity]. }
    rewrite (capitalizeWords_char c s E), (capitalizeTail_char c s E), !wordsOnly_step.
    rewrite upperChar_blank, W, IT. split; reflexivity.
Qed.

Lemma capitalizeWords_tidy s : tidy s = true -> tidy (capitalizeWords s) = true.
Proof.
  unfold tidy. intros H. apply andb_true_iff in H. destruct H as [H1 H2].
  rewrite (proj1 (capitalized_heads s)), H1.
  exact (proj1 (capitalized_wordsOnly s H2)).
Qed.

(** *** [includes] *)

Lemma startsWith_iff p : forall s,
  startsWith s p = true <-> exists post, s = (p ++ post)%string.
Proof.
  induction p as [|a p IH]; intros s.
  - split; [intros _; exists s; reflexivity|intros _; destruct s; reflexivity].
  - destruct s as [|b s]; simpl.
    + split; [discriminate|intros [post E]; discriminate].
    + rewrite andb_true_iff, Ascii.eqb_eq, IH. split.
      * intros [E [post P]]. subst. exists post. reflexivity.
      * intros [post P]. inversion P. split; [reflexivity|exists post; reflexivity].
Qed.

Lemma includes_step s sub :
  includes s sub =
  startsWith s sub ||
  match s with
  | EmptyString => false
  | String _ s' => includes s' sub
  end.
Proof. destruct s; reflexivity. Qed.

Lemma includes_iff sub : forall s,
  includes s sub = true <-> exists pre post, s = (pre ++ sub ++ post)%string.
Proof.
  intros s. split.
  - induction s as [|c s IH]; rewrite includes_step, orb_true_iff.
    + intros [H|H]; [|discriminate]. apply startsWith_iff in H.
      destruct H as [post E]. exists EmptyString, post. exact E.
    + intros [H|H].
      * apply startsWith_iff in H. destruct H as [post E].
        exists EmptyString, post. exact E.
      * destruct (IH H) as (pre & post & E). exists (String c pre), post.
        rewrite E. reflexivity.
  - intros (pre & post & E). subst s. induction pre as [|c pre IH].
    + rewrite includes_step. apply orb_true_iff. left.
      apply startsWith_iff. exists post. reflexivity.
    + simpl append. rewrite includes_step, IH. apply orb_true_r.
Qed.

(** A text that includes [a] includes what [a] includes. *)
Lemma includes_trans s a b :
  includes s a = true -> includes a b = true -> includes s b = true.
Proof.
  intros H1 H2. apply includes_iff in H1. apply includes_iff in H2.
  destruct H1 as (p1 & q1 & E1). destruct H2 as (p2 & q2 & E2).
  apply includes_iff. exists (p1 ++ p2)%string, (q2 ++ q1)%string.
  rewrite E1, E2. rewrite !RegExpFacts.append_assoc. reflexivity.
Qed.

End MoreStringFacts.

(** ** Decimal text and numbers *)

Module NumberFacts.
Import JS Shapes.

Ltac digit_step :=
  cbn [NilEmpty.string_of_uint readDigits];
  match goal with
  | |- context [isDigit ?c] => change (isDigit c) with true
  end;
  cbv iota;
  match goal with
  | |- context [digitValue ?c] =>
      let v := eval vm_compute in (digitValue c) in change (digitValue c) with v
  end.

(** Reading the digits of a decimal numeral after a non-zero prefix. *)
Lemma readDigits_acc d : forall acc : positive,
  readDigits (NilEmpty.string_of_uint d) (Z.pos acc) true =
  (Z.pos (Pos.of_uint_acc d acc), true).
Proof.
  induction d as [|d IH|d IH|d IH|d IH|d IH|d IH|d IH|d IH|d IH|d IH]; intros acc;
    [reflexivity|..]; digit_step; cbn [Pos.of_uint_acc];
    match goal with
    | |- readDigits _ ?z true = (Z.pos (Pos.of_uint_acc _ ?p), true) =>
        replace z with (Z.pos p) by lia
    end; apply IH.
Qed.

Lemma readDigits_uint d : forall seen,
  readDigits (NilEmpty.string_of_uint d) 0%Z seen =
  (Z.of_N (Pos.of_uint d), seen || negb (isNil d)).
Proof.
  induction d as [|d IH|d IH|d IH|d IH|d IH|d IH|d IH|d IH|d IH|d IH]; intros seen;
    [simpl; rewrite orb_false_r; reflexivity|..]; digit_step; cbn [Pos.of_uint isNil negb];
    rewrite orb_true_r.
  - change (10 * 0 + 0)%Z with 0%Z. rewrite IH. reflexivity.
  - change (10 * 0 + 1)%Z with (Z.pos 1). rewrite readDigits_acc. reflexivity.
  - change (10 * 0 + 2)%Z with (Z.pos 2). rewrite readDigits_acc. reflexivity.
  - change (10 * 0 + 3)%Z with (Z.pos 3). rewrite readDigits_acc. reflexivity.
  - change (10 * 0 + 4)%Z with (Z.pos 4). rewrite readDigits_acc. reflexivity.
  - change (10 * 0 + 5)%Z with (Z.pos 5). rewrite readDigits_acc. reflexivity.
  - change (10 * 0 + 6)%Z with (Z.pos 6). rewrite readDigits_acc. reflexivity.
  - change (10 * 0 + 7)%Z with (Z.pos 7). rewrite readDigits_acc. reflexivity.
  - change (10 * 0 + 8)%Z with (Z.pos 8). rewrite readDigits_acc. reflexivity.
  - change (10 * 0 + 9)%Z with (Z.pos 9). rewrite readDigits_acc. reflexivity.
Qed.

Lemma string_of_uint_head d :
  isNil d = false ->
  exists a t, NilEmpty.string_of_uint d = String a t /\ isDigit a = true.
Proof.
  destruct d; intros H; try discriminate; simpl; eexists; eexists; split;
    try reflexivity; reflexivity.
Qed.

Lemma nilzero_nonNil d : isNil d = false ->
  NilZero.string_of_uint d = NilEmpty.string_of_uint d.
Proof. destruct d; intros H; [discriminate|..]; reflexivity. Qed.

Lemma to_uint_nonNil p : isNil (Pos.to_uint p) = false.
Proof.
  pose proof (Unsigned.to_uint_nonnil p) as N.
  destruct (Pos.to_uint p); [contradiction|..]; reflexivity.
Qed.

Lemma readDigits_pos p seen :
  readDigits (NilEmpty.string_of_uint (Pos.to_uint p)) 0%Z seen = (Z.pos p, true).
Proof.
  rewrite readDigits_uint, DecimalPos.Unsigned.of_to, to_uint_nonNil, orb_true_r.
  reflexivity.
Qed.

Lemma parseInt_unsigned a t :
  isDigit a = true ->
  parseInt (String a t) =
  match readDigits (String a t) 0%Z false with
  | (v, true) => Int v
  | (_, false) => NaN
  end.
Proof.
  intros D. unfold parseInt. simpl trimStart. rewrite (StringFacts.digit_not_blank a D).
  rewrite !StringFacts.startsWith_one.
  destruct (StringFacts.digit_not_sign a D) as [S1 S2]. rewrite S1, S2. reflexivity.
Qed.

(** [parseInt(n.toString(), 10)] is [n] for every integer. *)
Lemma parseInt_numberToString z : parseInt (numberToString (Int z)) = Int z.
Proof.
  destruct z as [|p|p]; [reflexivity| |].
  - unfold numberToString. simpl Z.to_int. cbn [NilZero.string_of_int].
    rewrite (nilzero_nonNil _ (to_uint_nonNil p)).
    destruct (string_of_uint_head _ (to_uint_nonNil p)) as (a & t & E & D).
    pose proof (readDigits_pos p false) as R. rewrite E in *.
    rewrite (parseInt_unsigned a t D), R. reflexivity.
  - unfold numberToString. simpl Z.to_int. cbn [NilZero.string_of_int].
    rewrite (nilzero_nonNil _ (to_uint_nonNil p)).
    unfold parseInt. cbn [trimStart]. change (isWhiteSpace "-") with false. cbv iota.
    rewrite StringFacts.startsWith_one. change (Ascii.eqb "-" "-") with true.
    cbn [orb slice1]. rewrite readDigits_pos. reflexivity.
Qed.

End NumberFacts.

(** ** More facts about the extractor *)

Module MoreExtractorFacts.
Import JS RegExp Extractor Shapes.

(** **** Title *)

Lemma fallbackTitle_tidy l : tidy (fallbackTitle l) = true.
Proof.
  unfold fallbackTitle.
  repeat match goal with |- context [if ?b then _ else _] => destruct b end; reflexivity.
Qed.

Lemma formatTitle_tidy c : hasNonBlank c = true -> tidy (formatTitle c) = true.
Proof.
  intros H. change (formatTitle c) with (capitalizeWords (collapseBlanks (trim c))).
  apply MoreStringFacts.capitalizeWords_tidy, MoreStringFacts.normalised_tidy, H.
Qed.

Lemma extractTitle_tidy jd t : extractTitle jd = Some t -> tidy t = true.
Proof.
  intros T. destruct (firstMatch jd titlePatterns) as [mt|] eqn:F.
  - destruct (ExtractorFacts.firstMatch_in jd titlePatterns mt F) as (p & I & M).
    destruct (ExtractorFacts.title_capture jd p mt I M) as (c & C & N).
    destruct (ExtractorFacts.extractTitle_matched jd mt F) as (c' & C' & _ & T').
    rewrite C in C'. inversion C'; subst c'. rewrite T' in T. inversion T; subst t.
    exact (formatTitle_tidy c N).
  - rewrite (ExtractorFacts.extractTitle_unmatched jd F) in T. inversion T; subst t.
    apply fallbackTitle_tidy.
Qed.

(** **** Stipend *)

Lemma digitsOrCommas_app w1 w2 :
  digitsOrCommas (w1 ++ w2) = digitsOrCommas w1 && digitsOrCommas w2.
Proof.
  induction w1 as [|c w1 IH]; simpl; [reflexivity|].
  rewrite IH. apply andb_assoc.
Qed.

Lemma allDigits_digitsOrCommas w : allDigits w = true -> digitsOrCommas w = true.
Proof.
  induction w as [|c w IH]; simpl; [reflexivity|].
  intros H. apply andb_true_iff in H. destruct H as [D A].
  rewrite D, (IH A). reflexivity.
Qed.

Lemma repLang_digitsOrCommas (L : string -> Prop) mn mx w :
  (forall u, L u -> digitsOrCommas u = true) ->
  repLang L mn mx w -> digitsOrCommas w = true.
Proof.
  intros B. induction 1 as [mn|mx|mn mx w1 w2 Z Lw R IH]; try reflexivity.
  rewrite digitsOrCommas_app, (B w1 Lw), IH. reflexivity.
Qed.

Lemma canon_comma a : Ascii.eqb (canon a) "," = Ascii.eqb a ",".
Proof. StringFacts.by_cases_on a. Qed.

Lemma comma_lang fl u : lang fl (Lit ",") u -> digitsOrCommas u = true.
Proof.
  destruct u as [|a [|b u]]; simpl; try tauto.
  intros [E _]. unfold charEq in E.
  assert (C : Ascii.eqb a "," = true).
  { destruct (ignoreCase fl); [|exact E].
    change (canon ",") with ","%char in E. rewrite canon_comma in E. exact E. }
  rewrite C, orb_true_r. reflexivity.
Qed.

Lemma counted_digits_lang fl mn mx w :
  lang fl (Rep (S mn) (Some (S mx)) true digit) w ->
  allDigits w = true /\ isEmpty w = false.
Proof.
  intros H. split; [exact (RegExpFacts.digits_lang fl _ _ w H)|].
  simpl in H. inversion H as [| |mn' mx' w1 w2 Z L R]; subst.
  destruct (RegExpFacts.digit_lang fl w1 L) as (a & E & _). subst w1. reflexivity.
Qed.

Lemma allDigits_startsDigit w : allDigits w = true -> isEmpty w = false -> startsDigit w = true.
Proof.
  destruct w as [|c w]; [discriminate|]. simpl. intros H _.
  apply andb_true_iff in H. exact (proj1 H).
Qed.

Lemma startsDigit_app w1 w2 : startsDigit w1 = true -> startsDigit (w1 ++ w2) = true.
Proof. destruct w1; [discriminate|]. simpl. auto. Qed.

(** The amount group holds digits and commas, a digit first. *)
Lemma amount_lang fl c :
  lang fl (Alt (Seq (Times 1 3 digit) (Star (Seq (Lit ",") (Times 3 3 digit))))
               (Plus digit)) c ->
  startsDigit c = true /\ digitsOrCommas c = true.
Proof.
  intros [(w1 & w2 & E & L1 & L2)|L].
  - subst c. destruct (counted_digits_lang fl 0 2 w1 L1) as [A N].
    split; [exact (startsDigit_app w1 w2 (allDigits_startsDigit w1 A N))|].
    rewrite digitsOrCommas_app, (allDigits_digitsOrCommas w1 A). simpl.
    refine (repLang_digitsOrCommas _ _ _ w2 _ L2).
    intros u (u1 & u2 & Eu & Lu1 & Lu2). subst u.
    rewrite digitsOrCommas_app, (comma_lang fl u1 Lu1).
    destruct (counted_digits_lang fl 2 2 u2 Lu2) as [A2 _].
    exact (allDigits_digitsOrCommas u2 A2).
  - destruct (RegExpFacts.plus_digit_lang fl c L) as [A N].
    split; [exact (allDigits_startsDigit c A N)|exact (allDigits_digitsOrCommas c A)].
Qed.

Lemma removeCommas_digits w : digitsOrCommas w = true -> allDigits (removeCommas w) = true.
Proof.
  induction w as [|c w IH]; simpl; [reflexivity|].
  intros H. apply andb_true_iff in H. destruct H as [D A].
  destruct (Ascii.eqb c ",") eqn:E; [exact (IH A)|].
  rewrite orb_false_r in D. simpl. rewrite D, (IH A). reflexivity.
Qed.

Lemma digit_not_comma c : isDigit c = true -> Ascii.eqb c "," = false.
Proof. StringFacts.by_cases_on c. Qed.

Lemma removeCommas_nonEmpty w : startsDigit w = true -> isEmpty (removeCommas w) = false.
Proof.
  destruct w as [|c w]; [discriminate|]. simpl. intros D.
  rewrite (digit_not_comma c D). reflexivity.
Qed.

Lemma stipend_capture_shape jd p mt :
  In p stipendPatterns -> match_ jd p = Some mt ->
  exists c, at_ mt 1 = Some c /\ startsDigit c = true /\ digitsOrCommas c = true.
Proof.
  intros I M.
  assert (D : defines 1 (source p) = true).
  { destruct I as [E|[E|[]]]; subst p; reflexivity. }
  destruct (RegExpFacts.match_capture jd p 1 mt M D) as (c & C & b & B & L).
  exists c. split; [exact C|].
  destruct I as [E|[E|[]]]; subst p; simpl in B; destruct B as [B|[]]; subst b;
    exact (amount_lang _ c L).
Qed.

Lemma stipendOf_nonneg jd mt c :
  startsDigit c = true -> digitsOrCommas c = true ->
  exists z, stipendOf jd mt c = Int z /\ (0 <= z)%Z.
Proof.
  intros S D. unfold stipendOf.
  destruct (StringFacts.parseInt_digits (removeCommas c)
              (removeCommas_digits c D) (removeCommas_nonEmpty c S)) as (z & P & Z0).
  rewrite P.
  destruct (includes (toLowerCase jd) (toLowerCase (whole mt)) &&
            (includes (whole mt) "k" || includes (whole mt) "K")).
  - exists (z * 1000)%Z. split; [reflexivity|lia].
  - exists z. auto.
Qed.

(** **** Perks *)

Lemma formatted_perks_NoDup : NoDup (map formatPerk perksKeywords).
Proof.
  assert (E : nodup string_dec (map formatPerk perksKeywords) = map formatPerk perksKeywords)
    by (vm_compute; reflexivity).
  rewrite <- E. apply NoDup_nodup.
Qed.

Lemma perk_scan l ks : forall acc,
  NoDup (map formatPerk ks) ->
  (forall k, In k ks -> ~ In (formatPerk k) acc) ->
  fold_left (perkStep l) ks acc =
  acc ++ map formatPerk (filter (fun k => includes l k) ks).
Proof.
  induction ks as [|k ks IH]; intros acc N F; simpl.
  - symmetry. apply app_nil_r.
  - inversion N as [|x xs Nk Nks]; subst.
    unfold perkStep at 2. destruct (includes l k).
    + rewrite (ExtractorFacts.arrayIncludes_absent acc (formatPerk k)
                 (F k (or_introl eq_refl))). simpl.
      rewrite IH; [rewrite <- app_assoc; reflexivity|exact Nks|].
      intros k' I' H. apply in_app_iff in H. destruct H as [H|[H|[]]].
      * exact (F k' (or_intror I') H).
      * apply Nk. rewrite H. apply in_map. exact I'.
    + apply IH; [exact Nks|]. intros k' I'. apply F. right. exact I'.
Qed.

Lemma extractPerks_occurring jd :
  extractPerks jd =
  if (0 <? List.length (occurringPerks (toLowerCase jd)))%nat
  then Some (join ", " (occurringPerks (toLowerCase jd))) else None.
Proof.
  unfold extractPerks, occurringPerks.
  rewrite (perk_scan (toLowerCase jd) perksKeywords [] formatted_perks_NoDup);
    [reflexivity|intros k _ []].
Qed.

Lemma perk_labels_nonEmpty k : In k perksKeywords -> isEmpty (formatPerk k) = false.
Proof.
  assert (F : forallb (fun k => negb (isEmpty (formatPerk k))) perksKeywords = true)
    by (vm_compute; reflexivity).
  rewrite forallb_forall in F. intros I. apply negb_true_iff. exact (F k I).
Qed.

Lemma join_nonEmpty sep x xs : isEmpty x = false -> isEmpty (join sep (x :: xs)) = false.
Proof.
  unfold join. destruct x as [|a x]; [discriminate|]. intros _.
  destruct xs; reflexivity.
Qed.

Lemma filter_nil_iff {A : Type} (p : A -> bool) l :
  filter p l = [] <-> forall x, In x l -> p x = false.
Proof.
  induction l as [|a l IH]; simpl.
  - split; [intros _ x []|reflexivity].
  - destruct (p a) eqn:E.
    + split; [discriminate|]. intros H. rewrite (H a (or_introl eq_refl)) in E. discriminate.
    + rewrite IH. split.
      * intros H x [X|X]; [subst; exact E|exact (H x X)].
      * intros H x X. apply H. right. exact X.
Qed.

(** **** Skills *)

Lemma NoDup_map_injective {A B : Type} (f : A -> B) l :
  NoDup (map f l) -> forall x y, In x l -> In y l -> f x = f y -> x = y.
Proof.
  induction l as [|a l IH]; intros N x y Ix Iy E; [destruct Ix|].
  simpl in N. inversion N as [|b bs Na Nl]; subst.
  destruct Ix as [Ix|Ix], Iy as [Iy|Iy]; subst.
  - reflexivity.
  - exfalso. apply Na. rewrite E. apply in_map. exact Iy.
  - exfalso. apply Na. rewrite <- E. apply in_map. exact Ix.
  - exact (IH Nl x y Ix Iy E).
Qed.

Lemma extractSkills_eq jd :
  extractSkills jd = firstn 10 (occurringSkills (toLowerCase jd)).
Proof. unfold extractSkills. rewrite ExtractorFacts.scanSkills_occurring. reflexivity. Qed.

Lemma occurring_member l s :
  In s (occurringSkills l) ->
  exists k, In k SKILL_KEYWORDS /\ s = formatSkill k /\ includes l (toLowerCase k) = true.
Proof.
  unfold occurringSkills. rewrite in_map_iff. intros (k & E & F).
  apply filter_In in F. exists k. split; [exact (proj1 F)|]. split; [symmetry; exact E|].
  exact (proj2 F).
Qed.

Lemma skill_labels_nonEmpty k : In k SKILL_KEYWORDS -> isEmpty (formatSkill k) = false.
Proof.
  assert (F : forallb (fun k => negb (isEmpty (formatSkill k))) SKILL_KEYWORDS = true)
    by (vm_compute; reflexivity).
  rewrite forallb_forall in F. intros I. apply negb_true_iff. exact (F k I).
Qed.

Lemma occurring_In l k :
  In k SKILL_KEYWORDS ->
  (In (formatSkill k) (occurringSkills l) <-> includes l (toLowerCase k) = true).
Proof.
  intros I. unfold occurringSkills. rewrite in_map_iff. split.
  - intros (k' & E & F). apply filter_In in F. destruct F as [I' P].
    rewrite <- (NoDup_map_injective formatSkill SKILL_KEYWORDS
                  ExtractorFacts.formatted_vocabulary_NoDup k' k I' I E).
    exact P.
  - intros P. exists k. split; [reflexivity|]. apply filter_In. auto.
Qed.

Lemma occurring_split l :
  occurringSkills l =
  map formatSkill (filter (fun k => includes l (toLowerCase k)) (firstn 10 SKILL_KEYWORDS)) ++
  map formatSkill (filter (fun k => includes l (toLowerCase k)) (skipn 10 SKILL_KEYWORDS)).
Proof.
  unfold occurringSkills. rewrite <- map_app, <- filter_app, firstn_skipn. reflexivity.
Qed.

Lemma filter_length_le {A : Type} (p : A -> bool) l :
  (List.length (filter p l) <= List.length l)%nat.
Proof.
  induction l as [|a l IH]; simpl; [lia|]. destruct (p a); simpl; lia.
Qed.

(** One of the first ten vocabulary entries that occurs is always kept. *)
Lemma early_skill_kept l k :
  In k (firstn 10 SKILL_KEYWORDS) -> includes l (toLowerCase k) = true ->
  In (formatSkill k) (firstn 10 (occurringSkills l)).
Proof.
  intros I P. rewrite occurring_split.
  set (X := map formatSkill (filter _ (firstn 10 SKILL_KEYWORDS))).
  assert (LX : (List.length X <= 10)%nat).
  { unfold X. rewrite length_map.
    pose proof (filter_length_le (fun k => includes l (toLowerCase k))
                  (firstn 10 SKILL_KEYWORDS)) as F.
    pose proof (firstn_le_length 10 SKILL_KEYWORDS). lia. }
  rewrite firstn_app, (firstn_all2 X LX). apply in_app_iff. left.
  unfold X. apply in_map. apply filter_In. auto.
Qed.

End MoreExtractorFacts.

(** ** More facts about the form *)

Module MoreFormFacts.
Import JS CreateJob Shapes Controls.

Lemma numberToString_nonEmpty z : isEmpty (numberToString (Int z)) = false.
Proof.
  destruct z as [|p|p]; [reflexivity| |reflexivity].
  unfold numberToString. simpl Z.to_int. cbn [NilZero.string_of_int].
  rewrite (NumberFacts.nilzero_nonNil _ (NumberFacts.to_uint_nonNil p)).
  destruct (NumberFacts.string_of_uint_head _ (NumberFacts.to_uint_nonNil p))
    as (a & t & E & _).
  rewrite E. reflexivity.
Qed.

(** A form passes every check exactly when no rule is broken. *)
Lemma accepted_rules f :
  submitError f = None <->
  docRule f = false /\ titleRule f = false /\ skillsRule f = false /\
  locationRule f = false /\ intakeRule f = false.
Proof.
  rewrite FormFacts.submitError_first. unfold violatedRules, report.
  destruct (docRule f), (titleRule f), (skillsRule f), (locationRule f), (intakeRule f);
    simpl; split; intros H; try discriminate; try tauto;
    destruct H as (? & ? & ? & ? & ?); discriminate.
Qed.

Lemma rejected_message f m :
  submitError f = Some m -> In m (violatedRules f).
Proof.
  rewrite FormFacts.submitError_first.
  destruct (violatedRules f) as [|x xs]; simpl; [discriminate|].
  intros H. inversion H. left. reflexivity.
Qed.

Lemma in_report b msg m : In m (report b msg) -> b = true /\ m = msg.
Proof. destruct b; simpl; [intros [H|[]]; auto|intros []]. Qed.

Lemma handleAnalyzeJD_long f :
  (100 <= String.length (jobDescription f))%nat ->
  exists r,
    Extractor.analyzeJobDescription (jobDescription f) = Some r /\
    handleAnalyzeJD f =
      setIsAnalyzing false (applyResult r (setIsAnalyzing true (setError "" f))).
Proof.
  intros L.
  destruct (ExtractorFacts.analyzeJobDescription_total (jobDescription f))
    as (t & n & s & _ & _ & _ & A).
  eexists. split; [exact A|].
  unfold handleAnalyzeJD. destruct (Nat.ltb_spec (String.length (jobDescription f)) 100); [lia|].
  change (jobDescription (setIsAnalyzing true (setError "" f))) with (jobDescription f).
  rewrite A. reflexivity.
Qed.

Lemma filter_absent (t : string) l :
  ~ In t l -> filter (fun s => negb (String.eqb s t)) l = l.
Proof.
  induction l as [|a l IH]; simpl; intros N; [reflexivity|].
  destruct (String.eqb_spec a t) as [E|E].
  - exfalso. apply N. left. exact E.
  - simpl. rewrite IH; [reflexivity|]. intros I. apply N. right. exact I.
Qed.

Lemma skills_of_analysis jd s :
  In s (Extractor.extractSkills jd) -> isEmpty s = false.
Proof.
  intros I. rewrite MoreExtractorFacts.extractSkills_eq in I.
  apply ExtractorFacts.In_firstn in I.
  destruct (MoreExtractorFacts.occurring_member _ _ I) as (k & K & E & _).
  subst s. exact (MoreExtractorFacts.skill_labels_nonEmpty k K).
Qed.

End MoreFormFacts.

(** ** Facts about the analysed form *)

Module CoverageFacts.
Import JS CreateJob Shapes Controls.

(** The cells of a form after the two writes that frame the analysis. *)
Lemma framed_cells b g :
  title (setIsAnalyzing b g) = title g /\
  skills (setIsAnalyzing b g) = skills g /\
  intake (setIsAnalyzing b g) = intake g /\
  error (setIsAnalyzing b g) = error g /\
  hasAnalyzed (setIsAnalyzing b g) = hasAnalyzed g /\
  jobDescription (setIsAnalyzing b g) = jobDescription g /\
  isAnalyzing (setIsAnalyzing b g) = b.
Proof. repeat split; reflexivity. Qed.

Lemma cleared_cells g :
  title (setError "" g) = title g /\
  skills (setError "" g) = skills g /\
  intake (setError "" g) = intake g /\
  error (setError "" g) = "" /\
  jobDescription (setError "" g) = jobDescription g.
Proof. repeat split; reflexivity. Qed.

Lemma analysis_fields jd r :
  Extractor.analyzeJobDescription jd = Some r ->
  Extractor.extractTitle jd = Some (Extractor.title r) /\
  Extractor.extractIntake jd = Some (Extractor.intake r) /\
  Extractor.extractStipend jd = Some (Extractor.stipend r) /\
  Extractor.skills r = Extractor.extractSkills jd /\
  Extractor.perks r = Extractor.extractPerks jd.
Proof.
  unfold Extractor.analyzeJobDescription.
  destruct (Extractor.extractTitle jd), (Extractor.extractIntake jd),
    (Extractor.extractStipend jd); try discriminate.
  intros H. inversion H. simpl. repeat split; reflexivity.
Qed.

(** The form after a completed analysis, cell by cell. *)
Lemma analysed_cells f r :
  handleAnalyzeJD f =
    setIsAnalyzing false (applyResult r (setIsAnalyzing true (setError "" f))) ->
  title (handleAnalyzeJD f) =
    (if nonEmpty (Extractor.title r) then Extractor.title r else title f) /\
  skills (handleAnalyzeJD f) =
    (if (0 <? List.length (Extractor.skills r))%nat then Extractor.skills r else skills f) /\
  intake (handleAnalyzeJD f) =
    (if truthy (Extractor.intake r) then numberToString (Extractor.intake r)
     else intake f) /\
  error (handleAnalyzeJD f) = "" /\
  hasAnalyzed (handleAnalyzeJD f) = true /\
  isAnalyzing (handleAnalyzeJD f) = false /\
  jobDescription (handleAnalyzeJD f) = jobDescription f.
Proof.
  intros E. rewrite E.
  set (g := setIsAnalyzing true (setError "" f)).
  destruct (framed_cells false (applyResult r g)) as (T & S & I & Er & H & J & A).
  rewrite T, S, I, Er, H, J, A.
  rewrite FormFacts.applyResult_title, FormFacts.applyResult_skills,
    FormFacts.applyResult_intake, FormFacts.applyResult_hasAnalyzed.
  destruct (FormFacts.applyResult_untouched r g) as (U1 & _ & _ & U4). rewrite U1, U4.
  repeat split; reflexivity.
Qed.

Lemma handleAnalyzeJD_short f :
  (String.length (jobDescription f) < 100)%nat ->
  skills (handleAnalyzeJD f) = skills f.
Proof.
  intros L. unfold handleAnalyzeJD.
  destruct (Nat.ltb_spec (String.length (jobDescription f)) 100); [reflexivity|lia].
Qed.

Lemma NoDup_filter {A : Type} (p : A -> bool) l : NoDup l -> NoDup (filter p l).
Proof.
  induction l as [|a l IH]; simpl; intros N; [constructor|].
  inversion N; subst. destruct (p a); [|auto].
  constructor; [|auto]. intros I. apply filter_In in I. tauto.
Qed.

Lemma NoDup_snoc {A : Type} (l : list A) x : NoDup l -> ~ In x l -> NoDup (l ++ [x]).
Proof.
  induction l as [|a l IH]; simpl; intros N I.
  - constructor; [intros []|constructor].
  - inversion N; subst. constructor.
    + rewrite in_app_iff. intros [H|[H|[]]]; [contradiction|subst; tauto].
    + apply IH; [assumption|tauto].
Qed.

End CoverageFacts.

(** ** What the analysis and the form keep *)

Import JS CreateJob RegExp Shapes Controls.

(** X1: the analysis is started by the "Analyze JD" button, which is
    enabled only for a document of 100 to 5000 code units; from every such
    form the analysis returns a result and [handleAnalyzeJD] merges it: the
    error is empty, the analysis is marked done and the "analyzing" state is
    left.  Neither the short-document branch nor the failure branch of the
    handler is taken. *)
Theorem X1_analysis_always_completes :
  forall (isLoading : bool) (f : state),
    analyzeDisabled isLoading f = false ->
    (100 <= String.length (jobDescription f))%nat /\
    exists r,
      Extractor.analyzeJobDescription (jobDescription f) = Some r /\
      handleAnalyzeJD f =
        setIsAnalyzing false (applyResult r (setIsAnalyzing true (setError "" f))) /\
      error (handleAnalyzeJD f) = "" /\
      hasAnalyzed (handleAnalyzeJD f) = true /\
      isAnalyzing (handleAnalyzeJD f) = false /\
      jobDescription (handleAnalyzeJD f) = jobDescription f.
Proof.
  intros l f D.
  assert (L : (100 <= String.length (jobDescription f))%nat).
  { unfold analyzeDisabled, isJDValid in D.
    apply orb_false_iff in D. destruct D as [D _].
    apply orb_false_iff in D. destruct D as [D _].
    apply negb_false_iff, andb_true_iff in D. destruct D as [D _].
    apply Nat.leb_le in D. exact D. }
  split; [exact L|].
  destruct (MoreFormFacts.handleAnalyzeJD_long f L) as (r & A & E).
  exists r. split; [exact A|]. split; [exact E|].
  destruct (CoverageFacts.analysed_cells f r E) as (_ & _ & _ & E1 & E2 & E3 & E4).
  auto.
Qed.

Lemma X1_scenario_witness :
  analyzeDisabled false MoreSamples.scenarioForm = false /\
  error (handleAnalyzeJD MoreSamples.scenarioForm) = "" /\
  hasAnalyzed (handleAnalyzeJD MoreSamples.scenarioForm) = true.
Proof.
  assert (D : analyzeDisabled false MoreSamples.scenarioForm = false)
    by (vm_compute; reflexivity).
  split; [exact D|].
  destruct (X1_analysis_always_completes false MoreSamples.scenarioForm D)
    as (_ & r & _ & _ & E1 & E2 & _).
  split; [exact E1|exact E2].
Defined.



(** X3: the perks are undefined exactly when no perk keyword occurs in the
    lower-cased document; otherwise they are the labels of the occurring
    keywords, in vocabulary order, joined by ", ", and never the empty
    text.  The labels are pairwise different, so the duplicate test of the
    scan never drops one. *)
Theorem X3_perks_of_occurring_keywords :
  forall jd,
    Extractor.extractPerks jd =
      (if (0 <? List.length (occurringPerks (toLowerCase jd)))%nat
       then Some (join ", " (occurringPerks (toLowerCase jd))) else None) /\
    (Extractor.extractPerks jd = None <->
       forall k, In k Extractor.perksKeywords -> includes (toLowerCase jd) k = false) /\
    (forall p, Extractor.extractPerks jd = Some p -> isEmpty p = false).
Proof.
  intros jd. pose proof (MoreExtractorFacts.extractPerks_occurring jd) as E.
  split; [exact E|]. rewrite E. unfold occurringPerks.
  destruct (filter (fun k => includes (toLowerCase jd) k) Extractor.perksKeywords)
    as [|k ks] eqn:F.
  - simpl. split.
    + split; [intros _|reflexivity].
      exact (proj1 (MoreExtractorFacts.filter_nil_iff _ _) F).
    + intros p H. discriminate.
  - assert (I : In k Extractor.perksKeywords).
    { assert (J : In k (filter (fun k => includes (toLowerCase jd) k)
                          Extractor.perksKeywords)) by (rewrite F; left; reflexivity).
      apply filter_In in J. exact (proj1 J). }
    cbn [map List.length Nat.ltb Nat.leb]. split.
    + split; [discriminate|]. intros H.
      pose proof (proj2 (MoreExtractorFacts.filter_nil_iff
                           (fun k => includes (toLowerCase jd) k) _) H) as Z.
      rewrite Z in F. discriminate.
    + intros p H.
      pose proof (MoreExtractorFacts.join_nonEmpty ", " (Extractor.formatPerk k)
                    (map Extractor.formatPerk ks)
                    (MoreExtractorFacts.perk_labels_nonEmpty k I)) as N.
      inversion H; subst p. exact N.
Qed.

(** X4: matching is by substring, so a vocabulary entry contained in
    another comes along with it: when the skill of entry [k1] is extracted
    and [k1] contains [k2], one of the first ten entries, the skill of [k2]
    is extracted too ("Javascript" brings "Java"). *)
Theorem X4_contained_keyword_extracted :
  forall jd k1 k2,
    In k1 Extractor.SKILL_KEYWORDS ->
    In k2 (firstn 10 Extractor.SKILL_KEYWORDS) ->
    includes (toLowerCase k1) (toLowerCase k2) = true ->
    In (Extractor.formatSkill k1) (Extractor.extractSkills jd) ->
    In (Extractor.formatSkill k2) (Extractor.extractSkills jd).
Proof.
  intros jd k1 k2 I1 I2 S H.
  rewrite MoreExtractorFacts.extractSkills_eq in *.
  apply ExtractorFacts.In_firstn in H.
  apply (MoreExtractorFacts.occurring_In _ k1 I1) in H.
  apply MoreExtractorFacts.early_skill_kept; [exact I2|].
  exact (MoreStringFacts.includes_trans _ _ _ H S).
Qed.

Lemma X4_javascript_witness :
  Extractor.extractSkills MoreSamples.javascriptAd = ["Javascript"; "Java"; "AI"] /\
  In (Extractor.formatSkill "java") (Extractor.extractSkills MoreSamples.javascriptAd).
Proof.
  assert (E : Extractor.extractSkills MoreSamples.javascriptAd = ["Javascript"; "Java"; "AI"])
    by (vm_compute; reflexivity).
  split; [exact E|].
  apply (X4_contained_keyword_extracted MoreSamples.javascriptAd "javascript" "java").
  - vm_compute. tauto.
  - vm_compute. tauto.
  - vm_compute. reflexivity.
  - rewrite E. left. vm_compute. reflexivity.
Defined.

(** X5: the title of every analysis result is already normalised: it is
    not empty, trimming it changes nothing and so does collapsing its
    blanks; its words are separated by single spaces. *)
Theorem X5_title_normalised :
  forall jd, exists r,
    Extractor.analyzeJobDescription jd = Some r /\
    isEmpty (Extractor.title r) = false /\
    trim (Extractor.title r) = Extractor.title r /\
    collapseBlanks (Extractor.title r) = Extractor.title r /\
    tidy (Extractor.title r) = true.
Proof.
  intros jd.
  destruct (ExtractorFacts.analyzeJobDescription_total jd) as (t & n & s & T & _ & _ & A).
  eexists. split; [exact A|]. cbn [Extractor.title].
  pose proof (MoreExtractorFacts.extractTitle_tidy jd t T) as Y.
  split; [exact (MoreStringFacts.tidy_nonEmpty t Y)|].
  split; [exact (MoreStringFacts.tidy_trim t Y)|].
  split; [|exact Y].
  apply MoreStringFacts.wordsOnly_collapse.
  unfold tidy in Y. apply andb_true_iff in Y. exact (proj2 Y).
Qed.
(** X6: a number the merge writes into the intake or stipend field as
    text is read back unchanged when the payload is built: the payload's
    intake and stipend are the result's.  The number is taken in the range
    the code prints in decimal. *)
Theorem X6_merged_numbers_read_back :
  forall (r : Extractor.JDAnalysisResult) (f : state) (z : Z),
    decimalRange (Int z) -> z <> 0%Z ->
    (Extractor.intake r = Int z ->
       job_intake (jobData (applyResult r f)) = Int z) /\
    (Extractor.stipend r = Some (Int z) ->
       job_stipend (jobData (applyResult r f)) = Some (Int z)).
Proof.
  intros r f z _ N.
  assert (T : truthy (Int z) = true).
  { simpl. destruct (Z.eqb_spec z 0); [contradiction|reflexivity]. }
  split; intros E.
  - change (job_intake (jobData (applyResult r f)))
      with (parseInt (intake (applyResult r f))).
    rewrite FormFacts.applyResult_intake, E, T.
    apply NumberFacts.parseInt_numberToString.
  - change (job_stipend (jobData (applyResult r f)))
      with (if nonEmpty (stipend (applyResult r f))
            then Some (parseInt (stipend (applyResult r f))) else None).
    rewrite FormFacts.applyResult_stipend, E, T. unfold nonEmpty.
    rewrite MoreFormFacts.numberToString_nonEmpty. simpl negb. cbv iota.
    rewrite NumberFacts.parseInt_numberToString. reflexivity.
Qed.

Lemma X6_scenario_witness :
  decimalRange (Int 15000) /\
  job_stipend (jobData (applyResult MoreSamples.scenarioResult initial)) =
    Some (Int 15000).
Proof.
  assert (D : decimalRange (Int 15000)) by (simpl; lia).
  split; [exact D|].
  apply (proj2 (X6_merged_numbers_read_back MoreSamples.scenarioResult initial 15000 D
                  ltac:(discriminate))).
  reflexivity.
Defined.

(** X7: after the analysis of a document of at least 100 code units the
    title and intake rules of the submission hold; a submission can then
    only be refused for a blank document, for missing skills or for a
    missing location. *)
Theorem X7_rules_after_analysis :
  forall f : state,
    (100 <= String.length (jobDescription f))%nat ->
    titleRule (handleAnalyzeJD f) = false /\
    intakeRule (handleAnalyzeJD f) = false /\
    (docRule (handleAnalyzeJD f) = true <-> trim (jobDescription f) = "") /\
    (forall m, submitError (handleAnalyzeJD f) = Some m ->
               m = docMessage \/ m = skillsMessage \/ m = locationMessage).
Proof.
  intros f L. destruct (MoreFormFacts.handleAnalyzeJD_long f L) as (r & A & E).
  destruct (CoverageFacts.analysed_cells f r E) as (T & _ & I & _ & _ & _ & J).
  destruct (CoverageFacts.analysis_fields _ _ A) as (ET & EI & _).
  pose proof (MoreExtractorFacts.extractTitle_tidy _ _ ET) as Y.
  destruct (ExtractorFacts.extractIntake_range (jobDescription f)) as (z & EI' & R).
  rewrite EI' in EI. injection EI as EZ.
  assert (RT : titleRule (handleAnalyzeJD f) = false).
  { unfold titleRule. rewrite T. unfold nonEmpty.
    rewrite (MoreStringFacts.tidy_nonEmpty _ Y). simpl negb. cbv iota.
    rewrite (MoreStringFacts.tidy_trim _ Y). exact (MoreStringFacts.tidy_nonEmpty _ Y). }
  assert (RI : intakeRule (handleAnalyzeJD f) = false).
  { unfold intakeRule. rewrite I, <- EZ.
    assert (N : truthy (Int z) = true).
    { simpl. destruct (Z.eqb_spec z 0); [lia|reflexivity]. }
    rewrite N, NumberFacts.parseInt_numberToString. simpl.
    destruct (Z.ltb_spec z 1); [lia|reflexivity]. }
  assert (RD : docRule (handleAnalyzeJD f) = true <-> trim (jobDescription f) = "").
  { unfold docRule. rewrite J.
    destruct (Nat.ltb_spec (String.length (jobDescription f)) 100); [lia|].
    rewrite orb_false_r. apply StringFacts.isEmpty_true. }
  split; [exact RT|]. split; [exact RI|]. split; [exact RD|].
  intros m H. apply MoreFormFacts.rejected_message in H.
  unfold violatedRules in H. rewrite RT, RI in H.
  rewrite !in_app_iff in H.
  destruct H as [H|[H|[H|[H|H]]]];
    apply MoreFormFacts.in_report in H; destruct H as [B H];
    try discriminate B; auto.
Qed.

Lemma X7_scenario_witness :
  (100 <= String.length (jobDescription MoreSamples.scenarioForm))%nat /\
  titleRule (handleAnalyzeJD MoreSamples.scenarioForm) = false /\
  intakeRule (handleAnalyzeJD MoreSamples.scenarioForm) = false.
Proof.
  assert (L : (100 <= String.length (jobDescription MoreSamples.scenarioForm))%nat)
    by (vm_compute; repeat constructor).
  split; [exact L|].
  destruct (X7_rules_after_analysis MoreSamples.scenarioForm L) as (T & I & _).
  split; [exact T|exact I].
Defined.

(** X8: the skill list keeps having no duplicate and no empty entry
    through every handler that writes it: adding a skill, removing one and
    analysing the document. *)
Theorem X8_skills_stay_distinct :
  forall (f : state) (s : string),
    skillsOk f ->
    skillsOk (handleAddSkill f) /\
    skillsOk (handleRemoveSkill s f) /\
    skillsOk (handleAnalyzeJD f).
Proof.
  intros f s [N E]. split; [|split].
  - unfold handleAddSkill.
    destruct (nonEmpty (trim (skillInput f))) eqn:T; [|split; assumption].
    destruct (arrayIncludes (skills f) (trim (skillInput f))) eqn:A; [split; assumption|].
    simpl andb. cbv iota. unfold skillsOk.
    change (skills (setSkillsSuggested false (setSkillInput ""
              (setSkills (skills f ++ [trim (skillInput f)]) f))))
      with (skills f ++ [trim (skillInput f)]).
    split.
    + apply CoverageFacts.NoDup_snoc; [exact N|]. intros I.
      apply ExtractorFacts.arrayIncludes_In in I. rewrite I in A. discriminate.
    + intros x I. apply in_app_iff in I. destruct I as [I|[I|[]]]; [exact (E x I)|].
      subst x. unfold nonEmpty in T. apply negb_true_iff in T. exact T.
  - assert (K : skills (handleRemoveSkill s f) =
                filter (fun x => negb (String.eqb x s)) (skills f)).
    { unfold handleRemoveSkill. destruct (List.length (skills f) <=? 1)%nat; reflexivity. }
    unfold skillsOk. rewrite K. split.
    + apply CoverageFacts.NoDup_filter. exact N.
    + intros x I. apply filter_In in I. exact (E x (proj1 I)).
  - destruct (Nat.lt_ge_cases (String.length (jobDescription f)) 100) as [L|L].
    + unfold skillsOk. rewrite (CoverageFacts.handleAnalyzeJD_short f L). split; assumption.
    + destruct (MoreFormFacts.handleAnalyzeJD_long f L) as (r & A & Eq).
      destruct (CoverageFacts.analysed_cells f r Eq) as (_ & S & _).
      destruct (CoverageFacts.analysis_fields _ _ A) as (_ & _ & _ & SK & _).
      unfold skillsOk. rewrite S, SK.
      destruct (0 <? List.length (Extractor.extractSkills (jobDescription f)))%nat;
        [|split; assumption].
      split.
      * rewrite MoreExtractorFacts.extractSkills_eq.
        apply ExtractorFacts.NoDup_firstn_list, ExtractorFacts.occurringSkills_NoDup.
      * intros x I. exact (MoreFormFacts.skills_of_analysis _ x I).
Qed.

Lemma X8_typing_witness :
  skillsOk MoreSamples.typing /\
  skills (handleAddSkill MoreSamples.typing) = ["React"; "Typescript"; "CSS"; "GraphQL"] /\
  skillsOk (handleAddSkill MoreSamples.typing).
Proof.
  assert (K : skillsOk MoreSamples.typing).
  { assert (S : skills MoreSamples.typing = ["React"; "Typescript"; "CSS"])
      by (vm_compute; reflexivity).
    unfold skillsOk. rewrite S. split.
    - assert (E : nodup string_dec ["React"; "Typescript"; "CSS"] =
                  ["React"; "Typescript"; "CSS"]) by (vm_compute; reflexivity).
      rewrite <- E. apply NoDup_nodup.
    - intros x H. destruct H as [H|[H|[H|[]]]]; subst x; reflexivity. }
  split; [exact K|]. split; [vm_compute; reflexivity|].
  exact (proj1 (X8_skills_stay_distinct MoreSamples.typing "" K)).
Defined.

(** X9: removing a skill leaves no entry equal to it and keeps every other
    entry; removing a skill that was just added, and was new, gives back
    the list from before. *)
Theorem X9_remove_skill :
  forall (f : state) (s : string),
    ~ In s (skills (handleRemoveSkill s f)) /\
    (forall t, t <> s -> (In t (skills (handleRemoveSkill s f)) <-> In t (skills f))) /\
    (isEmpty (trim (skillInput f)) = false ->
     ~ In (trim (skillInput f)) (skills f) ->
     skills (handleRemoveSkill (trim (skillInput f)) (handleAddSkill f)) = skills f).
Proof.
  intros f s.
  assert (K : forall g x, skills (handleRemoveSkill x g) =
                          filter (fun y => negb (String.eqb y x)) (skills g)).
  { intros g x. unfold handleRemoveSkill.
    destruct (List.length (skills g) <=? 1)%nat; reflexivity. }
  split; [|split].
  - rewrite K. intros I. apply filter_In in I. destruct I as [_ I].
    rewrite String.eqb_refl in I. discriminate.
  - intros t D. rewrite K, filter_In. split; [tauto|].
    intros I. split; [exact I|]. apply negb_true_iff, String.eqb_neq. exact D.
  - intros T N. rewrite K.
    assert (A : skills (handleAddSkill f) = skills f ++ [trim (skillInput f)]).
    { unfold handleAddSkill, nonEmpty. rewrite T.
      rewrite (ExtractorFacts.arrayIncludes_absent _ _ N). reflexivity. }
    rewrite A, filter_app, (MoreFormFacts.filter_absent _ _ N). simpl.
    rewrite String.eqb_refl. simpl. apply app_nil_r.
Qed.

(** X10: pressing "add" a second time adds nothing: [handleAddSkill] clears
    the input, so running it twice is running it once; a blank input or a
    skill already in the list leaves the form as it is. *)
Theorem X10_add_skill_once :
  forall f : state,
    handleAddSkill (handleAddSkill f) = handleAddSkill f /\
    (isEmpty (trim (skillInput f)) = true -> handleAddSkill f = f) /\
    (In (trim (skillInput f)) (skills f) -> handleAddSkill f = f).
Proof.
  intros f.
  assert (B : isEmpty (trim (skillInput f)) = true -> handleAddSkill f = f).
  { intros T. unfold handleAddSkill, nonEmpty. rewrite T. reflexivity. }
  assert (D : In (trim (skillInput f)) (skills f) -> handleAddSkill f = f).
  { intros I. unfold handleAddSkill.
    rewrite (proj2 (ExtractorFacts.arrayIncludes_In _ _) I), andb_false_r. reflexivity. }
  split; [|split; assumption].
  destruct (nonEmpty (trim (skillInput f)) &&
            negb (arrayIncludes (skills f) (trim (skillInput f)))) eqn:C.
  - assert (E : handleAddSkill f =
                setSkillsSuggested false
                  (setSkillInput "" (setSkills (skills f ++ [trim (skillInput f)]) f))).
    { unfold handleAddSkill. rewrite C. reflexivity. }
    rewrite E. set (g := setSkillsSuggested false _).
    unfold handleAddSkill.
    change (skillInput g) with "". reflexivity.
  - assert (E : handleAddSkill f = f).
    { unfold handleAddSkill. rewrite C. reflexivity. }
    rewrite !E. reflexivity.
Qed.

(** X11: the submit button never blocks a form that [handleSubmit] would
    accept: when every check passes and no analysis or request is running,
    the button is enabled. *)
Theorem X11_accepted_form_is_enabled :
  forall f : state,
    submitError f = None -> isAnalyzing f = false ->
    submitDisabled false f = false.
Proof.
  intros f H A. apply MoreFormFacts.accepted_rules in H.
  destruct H as (D & T & S & L & I).
  unfold docRule in D. apply orb_false_iff in D. destruct D as [D1 D2].
  unfold titleRule in T. unfold skillsRule in S. unfold locationRule in L.
  assert (N : isEmpty (intake f) = false).
  { unfold intakeRule in I. destruct (intake f); [|reflexivity].
    vm_compute in I. discriminate I. }
  unfold submitDisabled. rewrite A, D1, D2, T, S, L, N. reflexivity.
Qed.

Lemma X11_padded_witness :
  submitError Samples.paddedForm = None /\
  isAnalyzing Samples.paddedForm = false /\
  submitDisabled false Samples.paddedForm = false.
Proof.
  assert (H : submitError Samples.paddedForm = None) by (vm_compute; reflexivity).
  assert (A : isAnalyzing Samples.paddedForm = false) by reflexivity.
  split; [exact H|]. split; [exact A|].
  exact (X11_accepted_form_is_enabled Samples.paddedForm H A).
Defined.

(** X12: every payload [handleSubmit] builds is complete: title and
    location label are trimmed and not empty, there is at least one skill,
    the intake is an integer of at least 1, the document kept with it is
    not empty, and the form's error is empty. *)
Theorem X12_submitted_payload_complete :
  forall (f : state) (job : CreateJobInput),
    snd (handleSubmit f) = Some job ->
    job = jobData f /\
    isEmpty (job_title job) = false /\ trim (job_title job) = job_title job /\
    requiredSkills job <> [] /\
    isEmpty (location_label job) = false /\
    trim (location_label job) = location_label job /\
    (exists z, job_intake job = Int z /\ (1 <= z)%Z) /\
    isEmpty (originalJD job) = false /\
    error (fst (handleSubmit f)) = "".
Proof.
  intros f job H.
  assert (S : submitError (setError "" f) = submitError f) by reflexivity.
  assert (J : jobData (setError "" f) = jobData f) by reflexivity.
  unfold handleSubmit in *. rewrite S, J in *.
  destruct (submitError f) as [m|] eqn:V; cbn [snd fst] in *; [discriminate H|].
  inversion H. subst job. clear H.
  apply MoreFormFacts.accepted_rules in V. destruct V as (D & T & K & L & I).
  unfold docRule in D. apply orb_false_iff in D. destruct D as [D1 _].
  split; [reflexivity|].
  change (job_title (jobData f)) with (trim (title f)).
  change (location_label (jobData f)) with (trim (locationLabel f)).
  change (requiredSkills (jobData f)) with (skills f).
  change (job_intake (jobData f)) with (parseInt (intake f)).
  change (originalJD (jobData f)) with (trim (jobDescription f)).
  rewrite !MoreStringFacts.trim_idempotent.
  split; [exact T|]. split; [reflexivity|]. split.
  { unfold skillsRule in K. destruct (skills f); [discriminate K|discriminate]. }
  split; [exact L|]. split; [reflexivity|]. split.
  { unfold intakeRule in I. destruct (parseInt (intake f)) as [|z]; [discriminate I|].
    simpl in I. exists z. split; [reflexivity|]. destruct (Z.ltb_spec z 1); [discriminate|lia]. }
  split; [exact D1|reflexivity].
Qed.

Lemma X12_padded_witness :
  snd (handleSubmit Samples.paddedForm) = Some (jobData Samples.paddedForm) /\
  job_title (jobData Samples.paddedForm) = "Intern" /\
  originalJD (jobData Samples.paddedForm) = "Interns wanted." /\
  trim (job_title (jobData Samples.paddedForm)) = job_title (jobData Samples.paddedForm).
Proof.
  assert (H : snd (handleSubmit Samples.paddedForm) = Some (jobData Samples.paddedForm))
    by (vm_compute; reflexivity).
  split; [exact H|]. split; [vm_compute; reflexivity|]. split; [vm_compute; reflexivity|].
  exact (proj1 (proj2 (proj2 (X12_submitted_payload_complete _ _ H)))).
Defined.

(** X13: the access token stored by [setTokens] is the one
    [getAccessToken] reads, whatever was stored before; a missing or empty
    refresh token leaves the stored refresh token alone; [clearTokens]
    removes both tokens and neither function touches the company token. *)
Theorem X13_token_round_trip :
  forall (s : Auth.storage) (a : string) (r : option string),
    Auth.getAccessToken (Auth.setTokens a r s) = Some a /\
    Auth.getItem Auth.REFRESH_TOKEN_KEY (Auth.setTokens a r s) =
      (if Auth.present r then r else Auth.getItem Auth.REFRESH_TOKEN_KEY s) /\
    Auth.getAccessToken (Auth.clearTokens s) = None /\
    Auth.getItem Auth.REFRESH_TOKEN_KEY (Auth.clearTokens s) = None /\
    Auth.getItem Auth.COMPANY_TOKEN_KEY (Auth.setTokens a r s) =
      Auth.getItem Auth.COMPANY_TOKEN_KEY s /\
    Auth.getItem Auth.COMPANY_TOKEN_KEY (Auth.clearTokens s) =
      Auth.getItem Auth.COMPANY_TOKEN_KEY s.
Proof.
  intros s a r. unfold Auth.getAccessToken, Auth.setTokens, Auth.clearTokens, Auth.present.
  destruct r as [t|]; [destruct t as [|c t]|]; repeat split; reflexivity.
Qed.

(** X14: a request carries the access token when one is stored and not
    empty, whatever the company token; after [clearTokens] it carries the
    company token if one is stored and not empty, and otherwise keeps the
    header it came with. *)
Theorem X14_request_authorization :
  forall (s : Auth.storage) (header : option string),
    (forall t, Auth.getItem Auth.AUTH_TOKEN_KEY s = Some t -> isEmpty t = false ->
               Auth.authorization s header = Some (Auth.bearer t)) /\
    (forall c, Auth.getItem Auth.COMPANY_TOKEN_KEY s = Some c -> isEmpty c = false ->
               Auth.authorization (Auth.clearTokens s) header = Some (Auth.bearer c)) /\
    (Auth.present (Auth.getItem Auth.COMPANY_TOKEN_KEY s) = false ->
     Auth.authorization (Auth.clearTokens s) header = header).
Proof.
  intros s header.
  assert (A : Auth.getItem Auth.AUTH_TOKEN_KEY (Auth.clearTokens s) = None) by reflexivity.
  assert (C : Auth.getItem Auth.COMPANY_TOKEN_KEY (Auth.clearTokens s) =
              Auth.getItem Auth.COMPANY_TOKEN_KEY s) by reflexivity.
  split; [|split].
  - intros t E N. unfold Auth.authorization, Auth.present. rewrite E, N. simpl.
    destruct (Auth.getItem Auth.COMPANY_TOKEN_KEY s); reflexivity.
  - intros c E N. unfold Auth.authorization, Auth.present. rewrite A, C, E, N. reflexivity.
  - intros P. unfold Auth.authorization. rewrite A, C.
    unfold Auth.present in P.
    destruct (Auth.getItem Auth.COMPANY_TOKEN_KEY s) as [c|]; [|reflexivity].
    cbn [Auth.present negb andb]. apply negb_false_iff in P. rewrite P. reflexivity.
Qed.

Lemma X14_company_only_witness :
  Auth.getItem Auth.COMPANY_TOKEN_KEY MoreSamples.companyOnly = Some "c-1" /\
  Auth.authorization (Auth.clearTokens MoreSamples.companyOnly) None = Some "Bearer c-1".
Proof.
  assert (E : Auth.getItem Auth.COMPANY_TOKEN_KEY MoreSamples.companyOnly = Some "c-1")
    by reflexivity.
  split; [exact E|].
  exact (proj1 (proj2 (X14_request_authorization MoreSamples.companyOnly None))
           "c-1" E eq_refl).
Defined.
